(** * A ReACT agent loop: shallow embedding and verified properties

    The development embeds [agent/tools/base.py] ([Tool.safe_execute]) and
    [agent/react_agent.py] ([Agent.reset], [Agent._call_llm],
    [Agent._parse_action], [Agent.run_loop]) and proves the properties the
    specification states about them.

    Conventions of the embedding.
    - A Python [str] is a [string]; a character stands for the code point of
      the same number, so the texts covered are those over code points
      0..255.  On that domain [re.IGNORECASE] adds nothing to [[a-z_]] beyond
      the upper-case ASCII letters.
    - An exception is a value of [exn]: an instance of a subclass of
      [Exception], with the text [str(e)] gives and the exception it was
      raised from ([__context__]).  Interpreter exits ([KeyboardInterrupt],
      [SystemExit]) are not failures of a tool or of the model and are not
      represented.
    - The language model, the tools and the observer callback act on an
      abstract [World]; every call of the model client, of a tool's
      [execute], of the callback, of [print] and of a logger is recorded, in
      order, in a trace.
    - The model client either raises or hands back the reply as a [str]; the
      callback, [print] and the loggers return without raising, as their
      contracts say. *)

From Stdlib Require Import List String Ascii ZArith Lia Bool DecimalString.
Import ListNotations.

Local Open Scope string_scope.
Local Open Scope Z_scope.

Set Implicit Arguments.
#[local] Set Warnings "-register-all".

(** ** Texts *)

Module Text.

(** [needle in s]. *)
Fixpoint contains (needle s : string) : bool :=
  String.prefix needle s ||
  match s with
  | EmptyString => false
  | String _ s' => contains needle s'
  end.

(** [sep.join(l)]. *)
Definition join (sep : string) (l : list string) : string :=
  String.concat sep l.

(** The decimal text an f-string gives for an [int]. *)
Definition of_int (z : Z) : string :=
  NilEmpty.string_of_int (Z.to_int z).

Definition code (c : ascii) : nat := nat_of_ascii c.

Definition in_range (lo hi : nat) (c : ascii) : bool :=
  (Nat.leb lo (code c) && Nat.leb (code c) hi)%bool.

Definition is_upper : ascii -> bool := in_range 65 90.
Definition is_lower : ascii -> bool := in_range 97 122.

Definition to_lower (c : ascii) : ascii :=
  if is_upper c then ascii_of_nat (code c + 32) else c.

Fixpoint lower (s : string) : string :=
  match s with
  | EmptyString => EmptyString
  | String c s' => String (to_lower c) (lower s')
  end.

(** The character [b] matches the ASCII character [a] of a pattern under
    [re.IGNORECASE]. *)
Definition eqb_nocase (a b : ascii) : bool :=
  Ascii.eqb (to_lower a) (to_lower b).

(** The longest prefix of characters satisfying [p], and the rest. *)
Fixpoint span (p : ascii -> bool) (s : string) : string * string :=
  match s with
  | EmptyString => (EmptyString, EmptyString)
  | String c s' =>
      if p c
      then let (run, rest) := span p s' in (String c run, rest)
      else (EmptyString, s)
  end.

(** Every character of [s] satisfies [p]. *)
Fixpoint all (p : ascii -> bool) (s : string) : bool :=
  match s with
  | EmptyString => true
  | String c s' => p c && all p s'
  end.

(** [replicate n pad]: the text [pad * n]. *)
Fixpoint replicate (n : nat) (pad : string) : string :=
  match n with
  | O => EmptyString
  | S n' => pad ++ replicate n' pad
  end.

Definition hex_digit (n : nat) : ascii :=
  if Nat.ltb n 10 then ascii_of_nat (48 + n) else ascii_of_nat (87 + n).

End Text.

(** ** Exceptions ([agent/exceptions.py]) *)

Inductive exn_class : Type :=
| WeatherAgentError
| ConfigurationError
| APIError
| WeatherAPIError
| LLMAPIError
| ToolExecutionError
| ToolNotFoundError
| Builtin (class_name : string).

(** An exception instance: its class, the text of [str(e)], and the exception
    that was being handled when it was raised. *)
Inductive exn : Type :=
| Exn (cls : exn_class) (msg : string) (context : option exn).

Definition str (e : exn) : string := let (_, m, _) := e in m.

(** The result of running a piece of Python: a value or a raised exception. *)
Inductive outcome (A : Type) : Type :=
| Returned (a : A)
| Raised (e : exn).

Arguments Returned {A} a.
Arguments Raised {A} e.

(** ** Python values returned by tools, and [json.dumps(_, indent=2)] *)

(** A float is carried by the text [repr] gives for it. *)
Record pyfloat : Type := PyF { float_repr : string }.

Inductive pyval : Type :=
| PyNone
| PyBool (b : bool)
| PyInt (z : Z)
| PyFloat (f : pyfloat)
| PyStr (s : string)
| PyList (items : list pyval)
| PyDict (entries : list (string * pyval))
| PyObject (type_name : string).

Module Json.

(** [json.encoder.py_encode_basestring_ascii] on one character. *)
Definition escape_char (c : ascii) : string :=
  let n := Text.code c in
  if Nat.eqb n 34 then String "\" (String c EmptyString)
  else if Nat.eqb n 92 then "\\"
  else if Nat.eqb n 8 then "\b"
  else if Nat.eqb n 12 then "\f"
  else if Nat.eqb n 10 then "\n"
  else if Nat.eqb n 13 then "\r"
  else if Nat.eqb n 9 then "\t"
  else if (Nat.leb 32 n && Nat.leb n 126)%bool then String c EmptyString
  else "\u00" ++ String (Text.hex_digit (Nat.div n 16))
                   (String (Text.hex_digit (Nat.modulo n 16)) EmptyString).

Fixpoint escape (s : string) : string :=
  match s with
  | EmptyString => EmptyString
  | String c s' => escape_char c ++ escape s'
  end.

Definition encode_str (s : string) : string :=
  String (ascii_of_nat 34) (escape s ++ String (ascii_of_nat 34) EmptyString).

(** [floatstr] with [allow_nan=True]. *)
Definition floatstr (f : pyfloat) : string :=
  let r := float_repr f in
  if String.eqb r "nan" then "NaN"
  else if String.eqb r "inf" then "Infinity"
  else if String.eqb r "-inf" then "-Infinity"
  else r.

Definition newline_indent (level : nat) : string :=
  String (ascii_of_nat 10) (Text.replicate level "  ").

Definition not_serializable (type_name : string) : exn :=
  Exn (Builtin "TypeError")
      ("Object of type " ++ type_name ++ " is not JSON serializable") None.

(** [_iterencode] at nesting depth [level], the chunks concatenated. *)
Fixpoint iterencode (level : nat) (v : pyval) {struct v} : outcome string :=
  match v with
  | PyNone => Returned "null"
  | PyBool true => Returned "true"
  | PyBool false => Returned "false"
  | PyInt z => Returned (Text.of_int z)
  | PyFloat f => Returned (floatstr f)
  | PyStr s => Returned (encode_str s)
  | PyList [] => Returned "[]"
  | PyList items =>
      let sep := "," ++ newline_indent (S level) in
      match
        (fix encode_items (first : bool) (l : list pyval) : outcome string :=
           match l with
           | [] => Returned ""
           | x :: l' =>
               match iterencode (S level) x with
               | Raised e => Raised e
               | Returned tx =>
                   match encode_items false l' with
                   | Raised e => Raised e
                   | Returned tl =>
                       Returned ((if first then "" else sep) ++ tx ++ tl)
                   end
               end
           end) true items
      with
      | Raised e => Raised e
      | Returned body =>
          Returned ("[" ++ newline_indent (S level) ++ body
                        ++ newline_indent level ++ "]")
      end
  | PyDict [] => Returned "{}"
  | PyDict entries =>
      let sep := "," ++ newline_indent (S level) in
      match
        (fix encode_entries (first : bool) (l : list (string * pyval))
           : outcome string :=
           match l with
           | [] => Returned ""
           | (k, x) :: l' =>
               match iterencode (S level) x with
               | Raised e => Raised e
               | Returned tx =>
                   match encode_entries false l' with
                   | Raised e => Raised e
                   | Returned tl =>
                       Returned ((if first then "" else sep)
                                   ++ encode_str k ++ ": " ++ tx ++ tl)
                   end
               end
           end) true entries
      with
      | Raised e => Raised e
      | Returned body =>
          Returned ("{" ++ newline_indent (S level) ++ body
                        ++ newline_indent level ++ "}")
      end
  | PyObject type_name => Raised (not_serializable type_name)
  end.

(** [json.dumps(v, indent=2)]. *)
Definition dumps (v : pyval) : outcome string := iterencode 0 v.

End Json.

(** ** Conversation, trace and the agent's data *)

Inductive role : Type := system | user | assistant.

(** One turn, the dict [{"role": ..., "content": ...}]. *)
Record message : Type := Message { msg_role : role; content : string }.

Inductive log_level : Type := DEBUG | ERROR.

(** What the code does to the outside, in the order it does it. *)
Inductive event : Type :=
| EvLLM (request : list message) (reply : outcome string)
| EvExecute (tool : string) (args : string)
| EvCallback (text : string)
| EvPrint (text : string)
| EvLog (level : log_level) (text : string) (exc_info : option exn).

Section Machine.

Context {World : Type}.

(** [agent/tools/base.py], class [Tool]; [execute] is what a subclass
    supplies. *)
Record Tool : Type := {
  name : string;
  description : string;
  required_args : bool;
  execute : string -> World -> outcome pyval * World
}.

(** The attributes of an [Agent] instance that the loop reads.  [tools] is
    the dict, as its items in insertion order (the keys of a dict are
    distinct); [groq_client] stands for
    [groq_client.chat.completions.create(model, messages, temperature)
    .choices[0].message.content]. *)
Record Agent : Type := {
  tools : list (string * Tool);
  model : string;
  temperature : pyfloat;
  max_iterations : Z;
  debug : bool;
  messages : list message;
  groq_client :
    string -> list message -> pyfloat -> World -> outcome string * World;
  system_prompt : string
}.

Definition set_messages (a : Agent) (m : list message) : Agent :=
  {| tools := tools a; model := model a; temperature := temperature a;
     max_iterations := max_iterations a; debug := debug a;
     messages := m;
     groq_client := groq_client a; system_prompt := system_prompt a |}.

(** [name in tools] and [tools[name]]. *)
Fixpoint lookup (key : string) (d : list (string * Tool)) : option Tool :=
  match d with
  | [] => None
  | (k, t) :: d' => if String.eqb key k then Some t else lookup key d'
  end.

(** [tools.keys()]. *)
Definition keys (d : list (string * Tool)) : list string := map fst d.

(** *** The state the code runs in, and its monad *)

Record state : Type := {
  self : Agent;
  world : World;
  trace : list event
}.

Definition M (A : Type) : Type := state -> outcome A * state.

Definition ret {A} (a : A) : M A := fun s => (Returned a, s).

Definition bind {A B} (m : M A) (f : A -> M B) : M B :=
  fun s =>
    match m s with
    | (Returned a, s') => f a s'
    | (Raised e, s') => (Raised e, s')
    end.

Definition raise {A} (e : exn) : M A := fun s => (Raised e, s).

(** [try: body  except Exception as e: handler(e)]. *)
Definition try_except {A} (body : M A) (handler : exn -> M A) : M A :=
  fun s =>
    match body s with
    | (Returned a, s') => (Returned a, s')
    | (Raised e, s') => handler e s'
    end.

Definition get_self : M Agent := fun s => (Returned (self s), s).

Definition emit (e : event) : M unit :=
  fun s => (Returned tt,
            {| self := self s; world := world s; trace := trace s ++ [e] |}).

(** [self.messages.append(m)]. *)
Definition append_message (m : message) : M unit :=
  fun s => (Returned tt,
            {| self := set_messages (self s) (messages (self s) ++ [m]);
               world := world s; trace := trace s |}).

(** A call into the outside world, which may raise. *)
Definition external {A} (f : World -> outcome A * World) : M A :=
  fun s =>
    let (r, w) := f (world s) in
    (r, {| self := self s; world := w; trace := trace s |}).

Definition when (b : bool) (m : M unit) : M unit :=
  if b then m else ret tt.

End Machine.

Arguments Tool : clear implicits.
Arguments Agent : clear implicits.
Arguments state : clear implicits.
Arguments M : clear implicits.

Notation "x <- m ;; k" := (bind m (fun x => k))
  (at level 61, m at next level, right associativity).
Notation "m ;;; k" := (bind m (fun _ => k))
  (at level 61, right associativity).

(** ** The code *)

Section Code.

Context {World : Type}.

(** The one-character text of a line feed. *)
Definition LF : string := String (ascii_of_nat 10) EmptyString.

(** *** [agent/tools/base.py] *)

(** [Tool.safe_execute].  The logger calls and the call of [execute] are
    entered in the trace. *)
Definition safe_execute (t : Tool World) (args : string) : M World pyval :=
  try_except
    (emit (EvLog DEBUG ("Executing the tool " ++ name t
                          ++ " with args - " ++ args) None) ;;;
     emit (EvExecute (name t) args) ;;;
     external (execute t args))
    (fun e =>
       let err_message :=
         "Error executing the tool " ++ name t ++ " with args " ++ args in
       emit (EvLog ERROR err_message (Some e)) ;;;
       ret (PyDict [("error", PyStr err_message)])).

(** *** [agent/react_agent.py] *)

(** [Agent.reset]. *)
Definition reset : M World unit :=
  fun s =>
    (Returned tt,
     {| self := set_messages (self s)
                  [Message system (system_prompt (self s))];
        world := world s; trace := trace s |}).

(** The client call of [_call_llm], entered in the trace with its result. *)
Definition create_completion : M World string :=
  fun s =>
    let a := self s in
    let (r, w) := groq_client a (model a) (messages a) (temperature a)
                    (world s) in
    (r, {| self := a; world := w;
           trace := trace s ++ [EvLLM (messages a) r] |}).

(** [Agent._call_llm]. *)
Definition _call_llm : M World string :=
  try_except
    create_completion
    (fun e =>
       let error_msg := "Error calling Groq API: " ++ str e in
       emit (EvLog ERROR error_msg None) ;;;
       raise (Exn LLMAPIError error_msg (Some e))).

(** The literal text [lit] of a pattern under [re.IGNORECASE], at the start
    of [s]: what is left of [s] after it. *)
Fixpoint match_literal (lit s : string) : option string :=
  match lit, s with
  | EmptyString, _ => Some s
  | String a lit', String b s' =>
      if Text.eqb_nocase a b then match_literal lit' s' else None
  | String _ _, EmptyString => None
  end.

(** [[a-z_]] under [re.IGNORECASE]. *)
Definition is_name_char (c : ascii) : bool :=
  (Text.is_lower c || Text.is_upper c || Nat.eqb (Text.code c) 95)%bool.

(** [.]: any character but a line feed. *)
Definition is_dot_char (c : ascii) : bool :=
  negb (Nat.eqb (Text.code c) 10).

(** The pattern [Action: ([a-z_]+): (.+?)(?:\n|$)] under [re.IGNORECASE],
    tried at the start of [s]: the groups 1 and 2.  The greedy [[a-z_]+]
    takes the whole run of name characters, for [: ] cannot follow a shorter
    one; the lazy [.+?] stops at the first line feed or at the end, for [.]
    matches no line feed. *)
Definition match_action_at (s : string) : option (string * string) :=
  match match_literal "Action: " s with
  | None => None
  | Some s1 =>
      let (tool, s2) := Text.span is_name_char s1 in
      if String.eqb tool "" then None
      else
        match match_literal ": " s2 with
        | None => None
        | Some s3 =>
            let (args, _) := Text.span is_dot_char s3 in
            if String.eqb args "" then None else Some (tool, args)
        end
  end.

(** [re.search]: the match at the leftmost position that has one. *)
Fixpoint re_search_action (s : string) : option (string * string) :=
  match match_action_at s with
  | Some groups => Some groups
  | None =>
      match s with
      | EmptyString => None
      | String _ s' => re_search_action s'
      end
  end.

(** [Agent._parse_action]: the pair stands for the dict with the keys
    ["tool"] and ["args"]. *)
Definition _parse_action (response : string) : option (string * string) :=
  re_search_action response.

(** [if callback: callback(text)]. *)
Definition call_back (callback : option (string -> World -> World))
           (text : string) : M World unit :=
  match callback with
  | Some f =>
      emit (EvCallback text) ;;;
      external (fun w => (Returned tt, f text w))
  | None => ret tt
  end.

Definition print (text : string) : M World unit := emit (EvPrint text).

(** [max_iterations or self.max_iterations]. *)
Definition effective_max_iterations (override : option Z) (a : Agent World)
  : Z :=
  match override with
  | Some n => if Z.eqb n 0 then max_iterations a else n
  | None => max_iterations a
  end.

Definition could_not_parse : string :=
  "Observation: Could not parse action. Please use the format 'Action: tool_name: arguments'".

Definition expected_action : string :=
  "Observation: Expected 'Action: tool_name: arguments' followed by 'PAUSE'. Please follow the format.".

Definition exceeded_notice : string :=
  LF ++ "Exceeded maximum iterations without reaching an answer.".

(** The text of the observation of lines 261-273: the tool is run when its
    name is a key of the registry. *)
Definition dispatch (tool_name args : string) : M World string :=
  a <- get_self ;;
  match lookup tool_name (tools a) with
  | Some t =>
      try_except
        (result <- safe_execute t args ;;
         match Json.dumps result with
         | Returned text => ret ("Observation: " ++ text)
         | Raised e => raise e
         end)
        (fun e =>
           ret ("Observation: Error executing tool '" ++ tool_name
                  ++ "': " ++ str e))
  | None =>
      let available_tools := Text.join ", " (keys (tools a)) in
      ret ("Observation: Tool '" ++ tool_name
             ++ "' not found. Available tools: " ++ available_tools)
  end.

(** What every branch does with its observation (lines 276-284, 288-296,
    300-308). *)
Definition inject (callback : option (string -> World -> World))
           (observation : string) : M World unit :=
  append_message (Message user observation) ;;;
  call_back callback observation ;;;
  a <- get_self ;;
  when (debug a) (print observation).

(** Lines 256-308: the observation for a reply that is not an answer. *)
Definition observe (callback : option (string -> World -> World))
           (response : string) : M World unit :=
  if Text.contains "PAUSE" response then
    match _parse_action response with
    | Some (tool_name, args) =>
        observation <- dispatch tool_name args ;;
        inject callback observation
    | None => inject callback could_not_parse
    end
  else inject callback expected_action.

(** One pass through the body of the [while] (lines 236-308), [iteration]
    already incremented.  The result is the grown [full_response] and, when
    the body executes [return], the value returned. *)
Definition loop_body (callback : option (string -> World -> World))
           (iteration : Z) (full_response : list string)
  : M World (list string * option string) :=
  response <- _call_llm ;;
  append_message (Message assistant response) ;;;
  let full_response := (full_response ++ [response])%list in
  call_back callback response ;;;
  a <- get_self ;;
  when (debug a)
    (print (LF ++ "--- Iteration " ++ Text.of_int iteration ++ " ---") ;;;
     print response) ;;;
  if Text.contains "Answer:" response then
    ret (full_response, Some (Text.join LF full_response))
  else
    observe callback response ;;;
    ret (full_response, None).

(** The [while iteration < max_iterations] loop with [remaining] passes
    left, that is [max_iterations - iteration] of them, and the [return]
    that follows it. *)
Fixpoint while_loop (callback : option (string -> World -> World))
         (remaining : nat) (iteration : Z) (full_response : list string)
  : M World string :=
  match remaining with
  | O => ret (Text.join LF full_response ++ exceeded_notice)
  | S remaining' =>
      let iteration := iteration + 1 in
      r <- loop_body callback iteration full_response ;;
      match r with
      | (_, Some answer) => ret answer
      | (full_response, None) =>
          while_loop callback remaining' iteration full_response
      end
  end.

(** [not l], for a list. *)
Definition is_empty {A} (l : list A) : bool :=
  match l with
  | [] => true
  | _ :: _ => false
  end.

(** [Agent.run_loop]. *)
Definition run_loop (query : string)
           (callback : option (string -> World -> World))
           (max_iterations : option Z) (reset_conversation : bool)
  : M World string :=
  a <- get_self ;;
  let max_iterations := effective_max_iterations max_iterations a in
  when (reset_conversation || is_empty (messages a)) reset ;;;
  append_message (Message user ("Question: " ++ query)) ;;;
  while_loop callback (Z.to_nat max_iterations) 0 [].

End Code.

(** ** A scripted instance

    The world is the list of results the model client will give, in order;
    the tools are stand-ins with the names of the registry of [main.py]. *)

Module Script.

Definition World : Type := list (outcome string).

(** The client hands out the next scripted result; past the end of the
    script the provider fails. *)
Definition client (_ : string) (_ : list message) (_ : pyfloat) (w : World)
  : outcome string * World :=
  match w with
  | r :: w' => (r, w')
  | [] => (Raised (Exn (Builtin "ConnectionError") "no reply" None), [])
  end.

Definition london : pyval :=
  PyDict [("city", PyStr "London"); ("temperature", PyFloat (PyF "18.5"))].

Definition get_weather : Tool World :=
  {| name := "get_weather";
     description := "Fetches current weather for a city. Usage: get_weather: [city name]";
     required_args := true;
     execute := fun _ w => (Returned london, w) |}.

(** A tool whose [execute] raises on every input. *)
Definition calculate : Tool World :=
  {| name := "calculate";
     description := "Performs mathematical calculations. Usage: calculate: [expression]";
     required_args := true;
     execute := fun args w =>
       (Raised (Exn ToolExecutionError ("Invalid expression: " ++ args) None),
        w) |}.

(** A tool whose result [json.dumps] cannot render. *)
Definition clock : Tool World :=
  {| name := "clock";
     description := "Tells the time. Usage: clock: [city name]";
     required_args := true;
     execute := fun _ w => (Returned (PyDict [("now", PyObject "datetime")]),
                            w) |}.

Definition registry : list (string * Tool World) :=
  [("get_weather", get_weather); ("calculate", calculate)].

Definition agent (ceiling : Z) (conversation : list message) : Agent World :=
  {| tools := registry; model := "llama-3.3-70b-versatile";
     temperature := PyF "0.0"; max_iterations := ceiling; debug := false;
     messages := conversation; groq_client := client;
     system_prompt := "You run in a loop of Thought, Action, PAUSE, Observation." |}.

Definition start (ceiling : Z) (conversation : list message)
           (script : World) : state World :=
  {| self := agent ceiling conversation; world := script; trace := [] |}.

(** A client that goes on thinking whatever it is sent. *)
Definition stubborn (_ : string) (_ : list message) (_ : pyfloat)
           (w : World) : outcome string * World :=
  (Returned "Thought: let me think about it", w).

Definition stubborn_agent (ceiling : Z) : Agent World :=
  {| tools := registry; model := "llama-3.3-70b-versatile";
     temperature := PyF "0.0"; max_iterations := ceiling; debug := true;
     messages := []; groq_client := stubborn;
     system_prompt := "You run in a loop of Thought, Action, PAUSE, Observation." |}.

End Script.

(** ** Views of a trace *)

Local Open Scope list_scope.

(** The results of the model calls, in order. *)
Fixpoint llm_results (t : list event) : list (outcome string) :=
  match t with
  | [] => []
  | EvLLM _ r :: t' => r :: llm_results t'
  | _ :: t' => llm_results t'
  end.

(** The tool executions, in order. *)
Fixpoint executed (t : list event) : list (string * string) :=
  match t with
  | [] => []
  | EvExecute n a :: t' => (n, a) :: executed t'
  | _ :: t' => executed t'
  end.

(** A stretch of trace in which neither the model nor a tool is called. *)
Definition quiet (t : list event) : Prop :=
  llm_results t = [] /\ executed t = [].

(** The number of calls of the model invocation boundary. *)
Definition llm_calls (t : list event) : nat := List.length (llm_results t).

(** ** What the loop relies on, for the statements *)

Section Readings.

Context {World : Type}.

(** What the model client answers when it is called in state [s]. *)
Definition llm_request (s : state World) : outcome string * World :=
  groq_client (self s) (model (self s)) (messages (self s))
              (temperature (self s)) (world s).

(** The world after [if callback: callback(text)]. *)
Definition callback_world (callback : option (string -> World -> World))
           (text : string) (w : World) : World :=
  match callback with
  | Some f => f text w
  | None => w
  end.

(** The mapping [safe_execute] builds when [execute] raises. *)
Definition error_result (t : Tool World) (args : string) : pyval :=
  PyDict [("error",
           PyStr ("Error executing the tool " ++ name t ++ " with args "
                    ++ args)%string)].

(** The observation for the result [result] of the tool [tool_name]. *)
Definition tool_observation (tool_name : string) (result : pyval) : string :=
  match Json.dumps result with
  | Returned text => ("Observation: " ++ text)%string
  | Raised e =>
      ("Observation: Error executing tool '" ++ tool_name ++ "': "
         ++ str e)%string
  end.

(** The observation for a tool name that is not a key of the registry. *)
Definition not_found_observation (tool_name : string)
           (registry : list (string * Tool World)) : string :=
  ("Observation: Tool '" ++ tool_name ++ "' not found. Available tools: "
     ++ Text.join ", " (keys registry))%string.

(** The text the loop injects after the reply [response], not an answer,
    received in state [s]. *)
Definition observation_for (response : string) (s : state World) : string :=
  if Text.contains "PAUSE" response then
    match _parse_action response with
    | Some (tool_name, args) =>
        match lookup tool_name (tools (self s)) with
        | Some t =>
            tool_observation tool_name
              match fst (execute t args (world s)) with
              | Returned v => v
              | Raised _ => error_result t args
              end
        | None => not_found_observation tool_name (tools (self s))
        end
    | None => could_not_parse
    end
  else expected_action.

(** The tool executions that go with it. *)
Definition dispatched (response : string) (s : state World)
  : list (string * string) :=
  if Text.contains "PAUSE" response then
    match _parse_action response with
    | Some (tool_name, args) =>
        match lookup tool_name (tools (self s)) with
        | Some t => [(name t, args)]
        | None => []
        end
    | None => []
    end
  else [].

(** The exception [_call_llm] raises for the client failure [e]. *)
Definition llm_api_error (e : exn) : exn :=
  Exn LLMAPIError ("Error calling Groq API: " ++ str e)%string (Some e).

(** [extends new llm ex s s']: from [s] to [s'] the code appended the
    turns [new] to the conversation and changed no other attribute of the
    agent, and the trace grew by events among which the model calls gave
    [llm] and the tool executions were [ex]. *)
Definition extends (new : list message) (llm : list (outcome string))
           (ex : list (string * string)) (s s' : state World) : Prop :=
  self s' = set_messages (self s) (messages (self s) ++ new) /\
  exists evs, trace s' = trace s ++ evs /\
              llm_results evs = llm /\ executed evs = ex.

(** The state in which the reply [r], received in [s], has been appended,
    shown to the callback and echoed. *)
Definition replied (callback : option (string -> World -> World))
           (r : string) (s s1 : state World) : Prop :=
  self s1 = set_messages (self s)
              (messages (self s) ++ [Message assistant r]) /\
  world s1 = callback_world callback r (snd (llm_request s)) /\
  exists after,
    trace s1 = trace s ++ EvLLM (messages (self s)) (Returned r) :: after /\
    quiet after.

(** The conversation a call of [run_loop] puts the question after: the
    system turn alone when a reset is asked for or there is no turn yet,
    the turns so far otherwise. *)
Definition seeded (reset_conversation : bool) (a : Agent World)
  : list message :=
  if reset_conversation || is_empty (messages a)
  then [Message system (system_prompt a)]
  else messages a.

(** A model client that replies to every request and never with a text
    containing [Answer:]. *)
Definition never_answers
           (client : string -> list message -> pyfloat -> World
                     -> outcome string * World) : Prop :=
  forall m request t w,
  exists r, fst (client m request t w) = Returned r /\
            Text.contains "Answer:" r = false.

End Readings.

(** What may follow the argument text of an action line: the end of the
    reply or a line feed. *)
Definition ends_line (rest : string) : bool :=
  match rest with
  | EmptyString => true
  | String c _ => negb (is_dot_char c)
  end.

(** ** Shapes of a conversation *)

Definition flip (r : role) : role :=
  match r with
  | user => assistant
  | assistant => user
  | system => system
  end.

Definition role_eqb (a b : role) : bool :=
  match a, b with
  | system, system | user, user | assistant, assistant => true
  | _, _ => false
  end.

(** The turns of [l] have the roles [r], [flip r], [r], ... *)
Fixpoint alternates (r : role) (l : list message) : bool :=
  match l with
  | [] => true
  | m :: l' => role_eqb (msg_role m) r && alternates (flip r) l'
  end.

(** A system turn first, then user and assistant turns in strict
    alternation, a user turn first. *)
Definition well_formed (conversation : list message) : bool :=
  match conversation with
  | [] => false
  | m :: l => role_eqb (msg_role m) system && alternates user l
  end.

(** The role of the last turn. *)
Definition last_role (conversation : list message) : option role :=
  match rev conversation with
  | [] => None
  | m :: _ => Some (msg_role m)
  end.

(** A conversation the next question can be appended to: it is well formed
    and does not end on a user turn. *)
Definition closed (conversation : list message) : bool :=
  well_formed conversation &&
  match last_role conversation with
  | Some user => false
  | _ => true
  end.

(** Replies without the marker of an answer. *)
Definition no_answer (rs : list string) : Prop :=
  Forall (fun r => Text.contains "Answer:" r = false) rs.

(** [run acc k evs new res]: the three ways the loop can go when it starts
    with [k] passes left and the replies [acc] collected: the events [evs]
    it adds to the trace, the turns [new] it adds to the conversation and
    its result [res]. *)
Inductive run (acc : list string) (k : nat)
  : list event -> list message -> outcome string -> Prop :=
| run_answered rs r before request after new :
    no_answer rs -> Text.contains "Answer:" r = true ->
    (List.length rs < k)%nat ->
    llm_results before = map Returned rs -> quiet after ->
    alternates assistant new = true -> last_role new = Some assistant ->
    run acc k (before ++ EvLLM request (Returned r) :: after) new
        (Returned (Text.join LF (acc ++ rs ++ [r])))
| run_exhausted rs evs new :
    no_answer rs -> List.length rs = k ->
    llm_results evs = map Returned rs ->
    alternates assistant new = true -> last_role new <> Some assistant ->
    run acc k evs new
        (Returned (Text.join LF (acc ++ rs) ++ exceeded_notice)%string)
| run_failed rs e evs new :
    no_answer rs -> (List.length rs < k)%nat ->
    llm_results evs = map Returned rs ++ [Raised e] ->
    alternates assistant new = true -> last_role new <> Some assistant ->
    run acc k evs new (Raised (llm_api_error e)).

(** ** The rest of [agent/react_agent.py] *)

(** The one-character texts of a double quote and of the code point [n]. *)
Definition DQ : string := String (ascii_of_nat 34) EmptyString.
Definition chr (n : nat) : string := String (ascii_of_nat n) EmptyString.

(** The characters [str.strip()] removes, among the code points 0..255:
    9..13, 28..32, 133 and 160. *)
Definition is_space (c : ascii) : bool :=
  (Text.in_range 9 13 c || Text.in_range 28 32 c
   || Nat.eqb (Text.code c) 133 || Nat.eqb (Text.code c) 160)%bool.

(** [s.lstrip()]. *)
Fixpoint lstrip (s : string) : string :=
  match s with
  | EmptyString => EmptyString
  | String c s' => if is_space c then lstrip s' else s
  end.

(** [s.rstrip()]. *)
Fixpoint rstrip (s : string) : string :=
  match s with
  | EmptyString => EmptyString
  | String c s' =>
      match rstrip s' with
      | EmptyString => if is_space c then EmptyString else String c EmptyString
      | r => String c r
      end
  end.

(** [s.strip()]. *)
Definition strip (s : string) : string := rstrip (lstrip s).

(** [x or y] for an optional text: [None] and the empty text are falsy. *)
Definition or_text (x y : option string) : option string :=
  match x with
  | Some (String _ _) => x
  | _ => y
  end.

(** The template of [_create_system_prompt] up to [{tools_description}],
    line by line. *)
Definition prompt_head : string :=
  Text.join LF
    ["";
     "        You run in a loop of Thought, Action, PAUSE, Observation.";
     "        At the end of the loop you output an Answer.";
     "        ";
     "        Use Thought to describe your thoughts about the question you have been asked.";
     "        Use Action to run one of the actions available to you - then return PAUSE.";
     "        Observation will be the result of running those actions.";
     "        ";
     ("        IMPORTANT: If you receive a greeting or non-weather query like " ++ DQ ++ "hello" ++ DQ ++ ", " ++ DQ ++ "what's up" ++ DQ ++ ", " ++ DQ ++ "how are you" ++ DQ ++ ", simply respond with a friendly greeting and do not use any tools.")%string;
     "        ";
     "        IMPORTANT: If the user doesn't specify a location but has mentioned a location in a previous question, use that location.";
     "";
     "        ";
     "        Your available actions are:";
     "        ";
     "        "].

(** The template after [{tools_description}]. *)
Definition prompt_tail : string :=
  Text.join LF
    ["";
     "        ";
     "        Example session:";
     "        ";
     "        Question: What's the weather in London and what will it be like in 3 days?";
     "        Thought: I need to check the current weather in London.";
     "        Action: get_weather: London";
     "        PAUSE";
     "        ";
     "        You will be called again with this:";
     "        ";
     ("        Observation: {" ++ DQ ++ "city" ++ DQ ++ ": " ++ DQ ++ "London" ++ DQ ++ ", " ++ DQ ++ "country" ++ DQ ++ ": " ++ DQ ++ "GB" ++ DQ ++ ", " ++ DQ ++ "temperature" ++ DQ ++ ": 18.5, " ++ DQ ++ "weather_condition" ++ DQ ++ ": " ++ DQ ++ "Clouds" ++ DQ ++ ", " ++ DQ ++ "humidity" ++ DQ ++ ": 75, " ++ DQ ++ "wind_speed" ++ DQ ++ ": 5.2, " ++ DQ ++ "description" ++ DQ ++ ": " ++ DQ ++ "scattered clouds" ++ DQ ++ ", " ++ DQ ++ "timestamp" ++ DQ ++ ": " ++ DQ ++ "2025-05-05 13:45:22" ++ DQ ++ "}")%string;
     "        ";
     "        Thought: I now have the current weather. To see what it will be like in 3 days, I need the forecast.";
     "        Action: get_forecast: London";
     "        PAUSE";
     "        ";
     "        You will be called again with this:";
     "        ";
     ("        Observation: {" ++ DQ ++ "city" ++ DQ ++ ": " ++ DQ ++ "London" ++ DQ ++ ", " ++ DQ ++ "country" ++ DQ ++ ": " ++ DQ ++ "GB" ++ DQ ++ ", " ++ DQ ++ "forecast" ++ DQ ++ ": [{" ++ DQ ++ "date" ++ DQ ++ ": " ++ DQ ++ "2025-05-05" ++ DQ ++ ", " ++ DQ ++ "temperature" ++ DQ ++ ": 18.5, " ++ DQ ++ "weather_condition" ++ DQ ++ ": " ++ DQ ++ "Clouds" ++ DQ ++ "}, {" ++ DQ ++ "date" ++ DQ ++ ": " ++ DQ ++ "2025-05-06" ++ DQ ++ ", " ++ DQ ++ "temperature" ++ DQ ++ ": 19.2, " ++ DQ ++ "weather_condition" ++ DQ ++ ": " ++ DQ ++ "Clear" ++ DQ ++ "}, {" ++ DQ ++ "date" ++ DQ ++ ": " ++ DQ ++ "2025-05-07" ++ DQ ++ ", " ++ DQ ++ "temperature" ++ DQ ++ ": 17.8, " ++ DQ ++ "weather_condition" ++ DQ ++ ": " ++ DQ ++ "Rain" ++ DQ ++ "}, {" ++ DQ ++ "date" ++ DQ ++ ": " ++ DQ ++ "2025-05-08" ++ DQ ++ ", " ++ DQ ++ "temperature" ++ DQ ++ ": 16.5, " ++ DQ ++ "weather_condition" ++ DQ ++ ": " ++ DQ ++ "Rain" ++ DQ ++ "}, {" ++ DQ ++ "date" ++ DQ ++ ": " ++ DQ ++ "2025-05-09" ++ DQ ++ ", " ++ DQ ++ "temperature" ++ DQ ++ ": 18.0, " ++ DQ ++ "weather_condition" ++ DQ ++ ": " ++ DQ ++ "Clouds" ++ DQ ++ "}]}")%string;
     "        ";
     "        Thought: Let me calculate the temperature difference between today and in 3 days.";
     "        Action: calculate: 17.8 - 18.5";
     "        PAUSE";
     "        ";
     "        You will be called again with this:";
     "        ";
     ("        Observation: {" ++ DQ ++ "result" ++ DQ ++ ": -0.7}")%string;
     "        ";
     ("        Answer: The current weather in London is 18.5" ++ chr 176 ++ "C with scattered clouds. In 3 days (on May 7), it will be 17.8" ++ chr 176 ++ "C and rainy, which is 0.7" ++ chr 176 ++ "C cooler than today. You should plan for rainy conditions if you're going to be in London in 3 days.")%string;
     "        ";
     "        Now it's your turn. I'll give you a question, and you start the loop with your Thought.";
     "        "].

Section Construction.

Context {World : Type}.

(** [d[key] = t]: the value of an existing key is replaced where it stands,
    a new key goes to the end. *)
Fixpoint dict_set (key : string) (t : Tool World)
         (d : list (string * Tool World)) : list (string * Tool World) :=
  match d with
  | [] => [(key, t)]
  | (k, x) :: d' =>
      if String.eqb key k then (k, t) :: d' else (k, x) :: dict_set key t d'
  end.

(** The text one pass of the loop of lines 100-101 adds. *)
Definition prompt_entry (item : string * Tool World) : string :=
  (fst item ++ ":" ++ LF ++ description (snd item) ++ LF ++ LF)%string.

(** The loop of lines 99-101. *)
Definition tools_description (d : list (string * Tool World)) : string :=
  fold_left
    (fun acc item => (acc ++ fst item ++ ":" ++ LF ++ description (snd item)
                          ++ LF ++ LF)%string)
    d ""%string.

(** [Agent._create_system_prompt], from the registry it reads. *)
Definition _create_system_prompt (d : list (string * Tool World)) : string :=
  strip (prompt_head ++ tools_description d ++ prompt_tail)%string.

(** [Agent.add_tool]. *)
Definition add_tool (tool : Tool World) : M World unit :=
  fun s =>
    let a := self s in
    let registry := dict_set (name tool) tool (tools a) in
    (Returned tt,
     {| self := {| tools := registry; model := model a;
                   temperature := temperature a;
                   max_iterations := max_iterations a; debug := debug a;
                   messages := messages a; groq_client := groq_client a;
                   system_prompt := _create_system_prompt registry |};
        world := world s; trace := trace s |}).

(** [Agent._get_default_model]: [os.environ.get("GROQ_MODEL", default)]. *)
Definition _get_default_model (environ : string -> option string) : string :=
  match environ "GROQ_MODEL" with
  | Some m => m
  | None => "llama-3.3-70b-versatile"
  end.

(** [Agent._configure_llm_client]: the key the client is built with, or the
    [ValueError]. *)
Definition _configure_llm_client (api_key : option string)
           (environ : string -> option string) : outcome string :=
  match or_text api_key (environ "GROQ_API_KEY") with
  | Some (String c k) => Returned (String c k)
  | _ => Raised (Exn (Builtin "ValueError") "Groq API key not provided." None)
  end.

(** [Agent.__init__].  [Groq] stands for the constructor of the client,
    [environ] for [os.environ]; the attributes are set in the order of the
    source, so that nothing is built when the key is missing. *)
Definition Agent_init
           (Groq : string -> string -> list message -> pyfloat -> World
                   -> outcome string * World)
           (environ : string -> option string)
           (tools : option (list (string * Tool World)))
           (model api_key : option string) (temperature : pyfloat)
           (max_iterations : Z) (debug : bool) : outcome (Agent World) :=
  let registry := match tools with
                  | Some (item :: d) => item :: d
                  | _ => []
                  end in
  let model := match or_text model None with
               | Some m => m
               | None => _get_default_model environ
               end in
  match _configure_llm_client api_key environ with
  | Raised e => Raised e
  | Returned key =>
      Returned {| tools := registry; model := model;
                  temperature := temperature;
                  max_iterations := max_iterations; debug := debug;
                  messages := []; groq_client := Groq key;
                  system_prompt := _create_system_prompt registry |}
  end.

End Construction.

(** ** More views of a trace *)

(** The texts handed to the callback, in order. *)
Fixpoint callbacks (t : list event) : list string :=
  match t with
  | [] => []
  | EvCallback text :: t' => text :: callbacks t'
  | _ :: t' => callbacks t'
  end.

(** The conversations sent to the model, in order. *)
Fixpoint requests (t : list event) : list (list message) :=
  match t with
  | [] => []
  | EvLLM request _ :: t' => request :: requests t'
  | _ :: t' => requests t'
  end.

(** The texts printed, in order. *)
Fixpoint printed (t : list event) : list string :=
  match t with
  | [] => []
  | EvPrint text :: t' => text :: printed t'
  | _ :: t' => printed t'
  end.

(** What the callback [callback] is shown of the turns [new]. *)
Definition shown {World : Type} (callback : option (string -> World -> World))
           (new : list message) : list string :=
  match callback with
  | Some _ => map content new
  | None => []
  end.

(** [told new cbs reqs s s']: from [s] to [s'] the code appended the turns
    [new] and changed no other attribute of the agent, handed the texts
    [cbs] to the callback, sent the conversations [reqs] to the model, and
    printed nothing if [debug] is off. *)
Definition told {World : Type} (new : list message) (cbs : list string)
           (reqs : list (list message)) (s s' : state World) : Prop :=
  self s' = set_messages (self s) (messages (self s) ++ new) /\
  exists evs, trace s' = trace s ++ evs /\
              callbacks evs = cbs /\ requests evs = reqs /\
              (debug (self s) = false -> printed evs = []).

(** What one pass of the body appends, by how it ends. *)
Definition pass_shape (res : outcome (list string * option string))
           (new : list message) : Prop :=
  match res with
  | Raised _ => new = []
  | Returned (_, Some _) => exists r, new = [Message assistant r]
  | Returned (_, None) =>
      exists r o, new = [Message assistant r; Message user o]
  end.

(** Every request of the loop is the conversation so far: the one the loop
    started from, followed by some of the turns it appended; it ends on a
    user turn. *)
Definition sent_so_far (start new : list message)
           (request : list message) : Prop :=
  exists mid rest,
    request = start ++ mid /\ new = mid ++ rest /\
    last_role request = Some user.

(** ** [agent/tools/calculation.py] *)

(** The syntax trees [ast.parse(_, mode='eval').body] gives, as far as the
    evaluator looks into them. *)
Module Ast.

(** The classes of [ast.operator]. *)
Inductive operator : Type :=
| Add | Sub | Mult | MatMult | Div | Mod | Pow
| LShift | RShift | BitOr | BitXor | BitAnd | FloorDiv.

(** The classes of [ast.unaryop]. *)
Inductive unaryop : Type := Invert | Not | UAdd | USub.

(** The value of a [Constant] node: an [int], a [float], a [bool], or a
    value of another type ([str], [bytes], [complex], [None], [Ellipsis]),
    kept as the text an f-string gives for it. *)
Inductive constant : Type :=
| KInt (z : Z)
| KFloat (f : pyfloat)
| KBool (b : bool)
| KOther (text : string).

(** [Node] is a node of any class other than the four the evaluator has a
    method for, kept as the name of its class. *)
Inductive expr : Type :=
| BinOp (lhs : expr) (op : operator) (rhs : expr)
| UnaryOp (op : unaryop) (operand : expr)
| Constant (value : constant)
| Name (id : string)
| Node (class_name : string).

(** [type(op).__name__]. *)
Definition operator_name (op : operator) : string :=
  match op with
  | Add => "Add" | Sub => "Sub" | Mult => "Mult" | MatMult => "MatMult"
  | Div => "Div" | Mod => "Mod" | Pow => "Pow" | LShift => "LShift"
  | RShift => "RShift" | BitOr => "BitOr" | BitXor => "BitXor"
  | BitAnd => "BitAnd" | FloorDiv => "FloorDiv"
  end.

Definition unaryop_name (op : unaryop) : string :=
  match op with
  | Invert => "Invert" | Not => "Not" | UAdd => "UAdd" | USub => "USub"
  end.

End Ast.

(** The functions of Python's [operator] module that the table [OPERATORS]
    holds, each giving a value or raising. *)
Record Arithmetic : Type := {
  operator_add : pyval -> pyval -> outcome pyval;
  operator_sub : pyval -> pyval -> outcome pyval;
  operator_mul : pyval -> pyval -> outcome pyval;
  operator_truediv : pyval -> pyval -> outcome pyval;
  operator_floordiv : pyval -> pyval -> outcome pyval;
  operator_pow : pyval -> pyval -> outcome pyval;
  operator_mod : pyval -> pyval -> outcome pyval;
  operator_neg : pyval -> outcome pyval
}.

(** [isinstance(e, SyntaxError)]: the class and its two subclasses. *)
Definition is_SyntaxError (e : exn) : bool :=
  match e with
  | Exn (Builtin class_name) _ _ =>
      (String.eqb class_name "SyntaxError"
       || String.eqb class_name "IndentationError"
       || String.eqb class_name "TabError")%bool
  | _ => false
  end.

(** [isinstance(e, ToolExecutionError)]: the class has no subclass. *)
Definition is_ToolExecutionError (e : exn) : bool :=
  match e with
  | Exn ToolExecutionError _ _ => true
  | _ => false
  end.

Section Calculation.

Context {World : Type}.

(** Python's arithmetic, its parser ([ast.parse(expr, mode='eval').body])
    and the module's logger. *)
Context (arithmetic : Arithmetic).
Context (ast_parse : string -> outcome Ast.expr).
Context (logger_warning : string -> World -> World).

(** The interpreter's recursion limit, as the evaluator meets it.  A node
    costs two frames, the one of [NodeVisitor.visit] and the one of the
    method it dispatches to, whatever its class; so the frames left when
    [safe_eval] calls [visit] allow a number of levels of the tree,
    [recursion_limit], and the node that stands one level deeper raises
    the [RecursionError] before anything of it is evaluated.  The text of
    the error is the interpreter's and depends on where the stack ran
    out. *)
Context (recursion_limit : nat).
Context (recursion_text : Ast.expr -> string).

(** The table [OPERATORS], for the operator of a [BinOp]. *)
Definition OPERATORS (op : Ast.operator)
  : option (pyval -> pyval -> outcome pyval) :=
  match op with
  | Ast.Add => Some (operator_add arithmetic)
  | Ast.Sub => Some (operator_sub arithmetic)
  | Ast.Mult => Some (operator_mul arithmetic)
  | Ast.Div => Some (operator_truediv arithmetic)
  | Ast.FloorDiv => Some (operator_floordiv arithmetic)
  | Ast.Pow => Some (operator_pow arithmetic)
  | Ast.Mod => Some (operator_mod arithmetic)
  | _ => None
  end.

(** The table [OPERATORS], for the operator of a [UnaryOp]. *)
Definition OPERATORS_unary (op : Ast.unaryop)
  : option (pyval -> outcome pyval) :=
  match op with
  | Ast.USub => Some (operator_neg arithmetic)
  | _ => None
  end.

Definition tool_execution_error (text : string) : exn :=
  Exn ToolExecutionError text None.

Definition recursion_error (node : Ast.expr) : exn :=
  Exn (Builtin "RecursionError") (recursion_text node) None.

(** [SafeEval().visit]: [visit_BinOp], [visit_UnaryOp], [visit_Constant],
    [visit_Name] and [generic_visit], with [levels] levels of the tree
    left under the recursion limit. *)
Fixpoint visit (levels : nat) (node : Ast.expr) {struct node}
  : outcome pyval :=
  match levels with
  | O => Raised (recursion_error node)
  | S levels' =>
      match node with
      | Ast.BinOp lhs op rhs =>
          match visit levels' lhs with
          | Raised e => Raised e
          | Returned l =>
              match visit levels' rhs with
              | Raised e => Raised e
              | Returned r =>
                  match OPERATORS op with
                  | None =>
                      Raised (tool_execution_error
                                ("Unsupported operator: "
                                   ++ Ast.operator_name op)%string)
                  | Some f => f l r
                  end
              end
          end
      | Ast.UnaryOp op operand =>
          match visit levels' operand with
          | Raised e => Raised e
          | Returned v =>
              match OPERATORS_unary op with
              | None =>
                  Raised (tool_execution_error
                            ("Unsupported unary operator: "
                               ++ Ast.unaryop_name op)%string)
              | Some f => f v
              end
          end
      | Ast.Constant (Ast.KInt z) => Returned (PyInt z)
      | Ast.Constant (Ast.KFloat f) => Returned (PyFloat f)
      | Ast.Constant (Ast.KBool b) => Returned (PyBool b)
      | Ast.Constant (Ast.KOther text) =>
          Raised (tool_execution_error
                    ("Unsupported constant: " ++ text)%string)
      | Ast.Name id =>
          if String.eqb id "pi"
          then Returned (PyFloat (PyF "3.141592653589793"))
          else if String.eqb id "e"
               then Returned (PyFloat (PyF "2.718281828459045"))
               else Raised (tool_execution_error
                              ("Unsupported variable: " ++ id)%string)
      | Ast.Node class_name =>
          Raised (tool_execution_error
                    ("Unsupported expression type: " ++ class_name)%string)
      end
  end.

(** [safe_eval]. *)
Definition safe_eval (expr : string) : outcome pyval :=
  match
    match ast_parse expr with
    | Raised e => Raised e
    | Returned node => visit recursion_limit node
    end
  with
  | Returned v => Returned v
  | Raised e =>
      if is_SyntaxError e
      then Raised (Exn ToolExecutionError
                       ("Syntax error in expression: " ++ str e)%string
                       (Some e))
      else Raised (Exn ToolExecutionError
                       ("Error evaluating expression: " ++ str e)%string
                       (Some e))
  end.

(** [CalculationTool.execute]. *)
Definition calculation_execute (args : string) (w : World)
  : outcome pyval * World :=
  let expression := strip args in
  match safe_eval expression with
  | Returned result => (Returned (PyDict [("result", result)]), w)
  | Raised e =>
      if is_ToolExecutionError e
      then (Returned
              (PyDict [("error",
                        PyStr ("Calculation error: " ++ str e)%string)]),
            logger_warning ("Calculation error: " ++ str e)%string w)
      else (Raised e, w)
  end.

(** [CalculationTool()]. *)
Definition CalculationTool : Tool World :=
  {| name := "calculate";
     description :=
       "Performs mathematical calculations. Usage: calculate: [expression]";
     required_args := true;
     execute := calculation_execute |}.

(** The expressions the evaluator has a value for, as far as their shape
    goes: the seven binary operators and the minus sign over numbers,
    truth values, [pi] and [e]. *)
Fixpoint whitelisted (node : Ast.expr) : bool :=
  match node with
  | Ast.BinOp lhs op rhs =>
      whitelisted lhs && whitelisted rhs &&
      match op with
      | Ast.Add | Ast.Sub | Ast.Mult | Ast.Div | Ast.FloorDiv | Ast.Pow
      | Ast.Mod => true
      | _ => false
      end
  | Ast.UnaryOp Ast.USub operand => whitelisted operand
  | Ast.UnaryOp _ _ => false
  | Ast.Constant (Ast.KOther _) => false
  | Ast.Constant _ => true
  | Ast.Name id => String.eqb id "pi" || String.eqb id "e"
  | Ast.Node _ => false
  end.

End Calculation.

(** The number of nodes on the path the evaluator goes down first: from a
    [BinOp] to its left operand, from a [UnaryOp] to its operand. *)
Fixpoint spine (node : Ast.expr) : nat :=
  match node with
  | Ast.BinOp lhs _ _ => S (spine lhs)
  | Ast.UnaryOp _ operand => S (spine operand)
  | _ => 1
  end.

(** The node at the end of this path, [levels] levels down. *)
Fixpoint spine_node (levels : nat) (node : Ast.expr) : Ast.expr :=
  match levels, node with
  | S levels', Ast.BinOp lhs _ _ => spine_node levels' lhs
  | S levels', Ast.UnaryOp _ operand => spine_node levels' operand
  | _, _ => node
  end.

(** Integer arithmetic as Python does it on [int] and [bool] operands, for
    the operators whose result is an [int]; the other cases, which give a
    [float], are left to [other]. *)
Module IntArithmetic.

Definition as_int (v : pyval) : option Z :=
  match v with
  | PyInt z => Some z
  | PyBool true => Some 1
  | PyBool false => Some 0
  | _ => None
  end.

(** The [ZeroDivisionError] of [//] and [%]; its text is the
    interpreter's. *)
Definition zero_division (text : string) : exn :=
  Exn (Builtin "ZeroDivisionError") text None.

Definition on_ints (f : Z -> Z -> outcome pyval)
           (other : pyval -> pyval -> outcome pyval) (a b : pyval)
  : outcome pyval :=
  match as_int a, as_int b with
  | Some x, Some y => f x y
  | _, _ => other a b
  end.

Definition make (zero_text : string)
           (other : pyval -> pyval -> outcome pyval)
           (other_neg : pyval -> outcome pyval) : Arithmetic :=
  {| operator_add := on_ints (fun x y => Returned (PyInt (x + y))) other;
     operator_sub := on_ints (fun x y => Returned (PyInt (x - y))) other;
     operator_mul := on_ints (fun x y => Returned (PyInt (x * y))) other;
     operator_truediv := other;
     operator_floordiv :=
       on_ints (fun x y =>
                  if Z.eqb y 0
                  then Raised (zero_division zero_text)
                  else Returned (PyInt (x / y))) other;
     operator_pow := fun a b =>
       match as_int a, as_int b with
       | Some x, Some y =>
           if Z.ltb y 0 then other a b else Returned (PyInt (x ^ y))
       | _, _ => other a b
       end;
     operator_mod :=
       on_ints (fun x y =>
                  if Z.eqb y 0
                  then Raised (zero_division zero_text)
                  else Returned (PyInt (x mod y))) other;
     operator_neg := fun a =>
       match as_int a with
       | Some x => Returned (PyInt (- x))
       | None => other_neg a
       end |}.

End IntArithmetic.

(** A stand-in for the parser that knows a few expressions, and a
    calculator built with it and with integer arithmetic. *)
Module CalcScript.

Definition parse (expr : string) : outcome Ast.expr :=
  if String.eqb expr "2 + 3 * 4"
  then Returned (Ast.BinOp (Ast.Constant (Ast.KInt 2)) Ast.Add
                   (Ast.BinOp (Ast.Constant (Ast.KInt 3)) Ast.Mult
                              (Ast.Constant (Ast.KInt 4))))
  else if String.eqb expr "-7 // 2"
  then Returned (Ast.BinOp (Ast.UnaryOp Ast.USub (Ast.Constant (Ast.KInt 7)))
                           Ast.FloorDiv (Ast.Constant (Ast.KInt 2)))
  else if String.eqb expr "+5"
  then Returned (Ast.UnaryOp Ast.UAdd (Ast.Constant (Ast.KInt 5)))
  else if String.eqb expr "abs(-1)"
  then Returned (Ast.Node "Call")
  else Raised (Exn (Builtin "SyntaxError")
                   "invalid syntax (<unknown>, line 1)" None).

Definition no_float (_ _ : pyval) : outcome pyval :=
  Raised (Exn (Builtin "NotImplementedError") "float arithmetic" None).

Definition arithmetic : Arithmetic :=
  IntArithmetic.make "integer division or modulo by zero" no_float
                     (fun _ => Raised (Exn (Builtin "NotImplementedError")
                                           "float arithmetic" None)).

(** A sum of [n] ones after a first one, [1 + 1 + ... + 1], as the parser
    nests it: to the left. *)
Fixpoint ones (n : nat) : Ast.expr :=
  match n with
  | O => Ast.Constant (Ast.KInt 1)
  | S n' => Ast.BinOp (ones n') Ast.Add (Ast.Constant (Ast.KInt 1))
  end.

(** The text of this sum, and a parser that knows it. *)
Fixpoint sum_text (n : nat) : string :=
  match n with
  | O => "1"
  | S n' => sum_text n' ++ " + 1"
  end.

Definition parse_sum (n : nat) (expr : string) : outcome Ast.expr :=
  if String.eqb expr (sum_text n) then Returned (ones n)
  else Raised (Exn (Builtin "SyntaxError")
                   "invalid syntax (<unknown>, line 1)" None).

Definition recursion_text (_ : Ast.expr) : string :=
  "maximum recursion depth exceeded".

Definition calculator : Tool Script.World :=
  CalculationTool arithmetic parse (fun _ w => w) 490 recursion_text.

End CalcScript.

(** ** Subscripts and truth of the values parsed from JSON *)

(** [x[key]] with a text, [x[i]] with an integer. *)
Inductive subscript : Type :=
| Key (k : string)
| Index (i : Z).

(** [repr(k)] for a key without quote, backslash or non-printable
    character, as the keys written in the source are. *)
Definition repr_key (k : string) : string := ("'" ++ k ++ "'")%string.

Definition key_error (text : string) : exn :=
  Exn (Builtin "KeyError") text None.

(** [isinstance(e, KeyError)]: the class has no built-in subclass. *)
Definition is_KeyError (e : exn) : bool :=
  match e with
  | Exn (Builtin class_name) _ _ => String.eqb class_name "KeyError"
  | _ => false
  end.

(** The entry of a key in a mapping. *)
Fixpoint assoc (k : string) (d : list (string * pyval)) : option pyval :=
  match d with
  | [] => None
  | (k', v) :: d' => if String.eqb k k' then Some v else assoc k d'
  end.

(** [l[i]] for a list or the characters of a text: from the end when [i] is
    negative. *)
Definition item_at {A} (l : list A) (i : Z) : option A :=
  let n := Z.of_nat (List.length l) in
  if (0 <=? i)%Z then nth_error l (Z.to_nat i)
  else if (- n <=? i)%Z then nth_error l (Z.to_nat (n + i))
  else None.

Fixpoint characters (s : string) : list pyval :=
  match s with
  | EmptyString => []
  | String c s' => PyStr (String c EmptyString) :: characters s'
  end.

Section Subscription.

(** The texts of the [TypeError] and of the [IndexError] of a subscription,
    which are the interpreter's. *)
Context (subscript_error_text : pyval -> subscript -> string).

Definition type_error (v : pyval) (k : subscript) : exn :=
  Exn (Builtin "TypeError") (subscript_error_text v k) None.

Definition index_error (v : pyval) (k : subscript) : exn :=
  Exn (Builtin "IndexError") (subscript_error_text v k) None.

(** [v[k]]. *)
Definition getitem (v : pyval) (k : subscript) : outcome pyval :=
  match v, k with
  | PyDict d, Key key =>
      match assoc key d with
      | Some x => Returned x
      | None => Raised (key_error (repr_key key))
      end
  | PyDict d, Index i => Raised (key_error (Text.of_int i))
  | PyList l, Index i =>
      match item_at l i with
      | Some x => Returned x
      | None => Raised (index_error v k)
      end
  | PyStr s, Index i =>
      match item_at (characters s) i with
      | Some x => Returned x
      | None => Raised (index_error v k)
      end
  | _, _ => Raised (type_error v k)
  end.

(** [v[k1][k2]...]. *)
Fixpoint getpath (v : pyval) (path : list subscript) : outcome pyval :=
  match path with
  | [] => Returned v
  | k :: path' =>
      match getitem v k with
      | Raised e => Raised e
      | Returned x => getpath x path'
      end
  end.

End Subscription.

(** [bool(v)], a value of another type being true. *)
Definition truthy (v : pyval) : bool :=
  match v with
  | PyNone => false
  | PyBool b => b
  | PyInt z => negb (Z.eqb z 0)
  | PyFloat f =>
      negb (String.eqb (float_repr f) "0.0"
            || String.eqb (float_repr f) "-0.0")
  | PyStr s => negb (String.eqb s "")
  | PyList l => negb (is_empty l)
  | PyDict d => negb (is_empty d)
  | PyObject _ => true
  end.

(** ** [utils/config.py] and the constants read from it *)

(** [load_config(default_values)]; [file] is what opening and parsing
    [config.json] gives. *)
Definition load_config (file : outcome pyval) (default_values : option pyval)
  : pyval :=
  match file with
  | Returned config => config
  | Raised _ =>
      match default_values with
      | Some v => if truthy v then v else PyDict []
      | None => PyDict []
      end
  end.

Definition attribute_error (text : string) : exn :=
  Exn (Builtin "AttributeError") text None.

Section Constants.

Context (subscript_error_text : pyval -> subscript -> string).
Context (no_get_text : pyval -> string).

(** [v.get(key, default)]. *)
Definition dict_get (v : pyval) (key : string) (default : pyval)
  : outcome pyval :=
  match v with
  | PyDict d =>
      match assoc key d with
      | Some x => Returned x
      | None => Returned default
      end
  | _ => Raised (attribute_error (no_get_text v))
  end.

(** [api_config.get("api", {}).get(key, default)] ([utils/api.py],
    lines 14-16). *)
Definition api_setting (api_config : pyval) (key : string) (default : pyval)
  : outcome pyval :=
  match dict_get api_config "api" (PyDict []) with
  | Raised e => Raised e
  | Returned section => dict_get section key default
  end.

(** The module constants [DEFAULT_TIMEOUT], [MAX_RETRIES] and
    [RETRY_DELAY] of [utils/api.py], in this order. *)
Definition api_constants (api_config : pyval)
  : outcome (pyval * pyval * pyval) :=
  match api_setting api_config "default_timeout" (PyInt 15) with
  | Raised e => Raised e
  | Returned timeout =>
      match api_setting api_config "max_retries" (PyInt 3) with
      | Raised e => Raised e
      | Returned retries =>
          match api_setting api_config "retry_delay" (PyInt 1) with
          | Raised e => Raised e
          | Returned delay => Returned (timeout, retries, delay)
          end
      end
  end.

(** The module constants [DEFAULT_BASE_URL] and [DEFAULT_UNITS] of
    [agent/tools/weather/base.py] (lines 13-14), in this order. *)
Definition weather_constants (api_config : pyval) : outcome (pyval * pyval) :=
  match getpath subscript_error_text api_config
                [Key "api"; Key "weather_base_url"] with
  | Raised e => Raised e
  | Returned base_url =>
      match getpath subscript_error_text api_config
                    [Key "api"; Key "units"] with
      | Raised e => Raised e
      | Returned units => Returned (base_url, units)
      end
  end.

End Constants.

(** ** [utils/api.py] *)

(** What the code reads of a [requests.Response]: [json_body] is the value
    of [response.json()], or [None] when that raises its [ValueError];
    [http_error_msg] is the text [raise_for_status] gives its
    [HTTPError]. *)
Record Response : Type := {
  status_code : Z;
  json_body : option pyval;
  response_text : string;
  http_error_msg : string
}.

(** What [requests.request] does: it hands back a response, or raises a
    [RequestException], or raises something else. *)
Inductive request_outcome : Type :=
| Responded (r : Response)
| RequestFailed (e : exn)
| Crashed (e : exn).

(** What [make_request] does to the outside, in order. *)
Inductive api_event : Type :=
| ApiRequest (method url : string)
| ApiSleep (seconds : Z)
| ApiLog (level text : string).

(** [response.raise_for_status()]: the [HTTPError] of a status from 400 to
    599. *)
Definition raise_for_status (r : Response) : option exn :=
  if ((400 <=? status_code r) && (status_code r <? 600))%Z
  then Some (Exn (Builtin "requests.exceptions.HTTPError")
                 (http_error_msg r) None)
  else None.

(** The requests made and the pauses taken, in order. *)
Fixpoint api_requests (log : list api_event) : list (string * string) :=
  match log with
  | [] => []
  | ApiRequest method url :: log' => (method, url) :: api_requests log'
  | _ :: log' => api_requests log'
  end.

Fixpoint api_sleeps (log : list api_event) : list Z :=
  match log with
  | [] => []
  | ApiSleep seconds :: log' => seconds :: api_sleeps log'
  | _ :: log' => api_sleeps log'
  end.

(** The failure an attempt ends on, if it does: a [RequestException] of the
    transport or the [HTTPError] of the status. *)
Definition attempt_failure (o : request_outcome) : option exn :=
  match o with
  | Responded r => raise_for_status r
  | RequestFailed e => Some e
  | Crashed _ => None
  end.

Section Api.

Context {World : Type}.

(** [requests.request(method, url, params, headers, json, timeout)],
    [time.sleep] on the world, and [str.upper]. *)
Context (requests_request :
           string -> string -> list (string * pyval) -> list (string * string)
           -> option pyval -> pyval -> World -> request_outcome * World).
Context (time_passes : Z -> World -> World).
Context (str_upper : string -> string).

Section Request.

Context (url method : string) (params : list (string * pyval))
        (headers : list (string * string)) (json_data : option pyval)
        (timeout : pyval) (retries retry_delay : Z).

(** The [while attempts < retries] loop of [make_request], with
    [remaining] passes left, and the end of the function after it. *)
Fixpoint request_loop (remaining : nat) (attempts : Z) (w : World)
         (log : list api_event) : outcome pyval * World * list api_event :=
  match remaining with
  | O => (Returned PyNone, w, log)
  | S remaining' =>
      let attempts := (attempts + 1)%Z in
      let log := log ++ [ApiLog "debug"
                           ("Making " ++ method ++ " request to " ++ url)
                           %string;
                         ApiRequest method url] in
      let (o, w) := requests_request method url params headers json_data
                                     timeout w in
      let failed (e : exn) (log : list api_event) :=
        let log := log ++ [ApiLog "warning"
                             ("Request failed (attempt "
                                ++ Text.of_int attempts ++ "/"
                                ++ Text.of_int retries ++ "): " ++ str e)
                             %string] in
        if (attempts >=? retries)%Z
        then (Raised (Exn APIError
                          ("Request failed after " ++ Text.of_int retries
                             ++ " attempts: " ++ str e)%string (Some e)),
              w, log)
        else if (retry_delay <? 0)%Z
        then (Raised (Exn (Builtin "ValueError")
                          "sleep length must be non-negative" (Some e)),
              w, log)
        else request_loop remaining' attempts (time_passes retry_delay w)
                          (log ++ [ApiSleep retry_delay]) in
      match o with
      | Crashed e => (Raised e, w, log)
      | RequestFailed e => failed e log
      | Responded r =>
          let log := log ++ [ApiLog "debug"
                               ("Request " ++ method ++ " " ++ url
                                  ++ ": status=" ++ Text.of_int (status_code r))
                               %string] in
          match raise_for_status r with
          | Some e => failed e log
          | None =>
              match json_body r with
              | Some v => (Returned v, w, log)
              | None =>
                  (Returned (PyDict [("text", PyStr (response_text r))]), w,
                   log)
              end
          end
      end
  end.

(** The world in which the attempt number [n], counted from 0, is made when
    the attempts before it failed: each of them was followed by the
    pause. *)
Fixpoint attempt_world (n : nat) (w : World) : World :=
  match n with
  | O => w
  | S n' =>
      attempt_world
        n' (time_passes retry_delay
                        (snd (requests_request method url params headers
                                               json_data timeout w)))
  end.

End Request.

(** [make_request]. *)
Definition make_request (url method : string)
           (params : option (list (string * pyval)))
           (headers : option (list (string * string)))
           (json_data : option pyval) (timeout : pyval)
           (retries retry_delay : Z) (w : World)
  : outcome pyval * World * list api_event :=
  let method := str_upper method in
  let params := match params with Some p => p | None => [] end in
  let headers := match headers with Some h => h | None => [] end in
  request_loop url method params headers json_data timeout retries
               retry_delay (Z.to_nat retries) 0 w [].

End Api.

(** ** [agent/tools/weather/] *)

(** The attributes [BaseWeatherTool.__init__] sets besides the name and the
    description. *)
Record WeatherSettings : Type := {
  weather_api_key : option string;
  base_url : string;
  units : string
}.

(** [BaseWeatherTool.__init__], for these attributes: [environ] is
    [os.environ], the two defaults are the module constants. *)
Definition BaseWeatherTool_init (environ : string -> option string)
           (DEFAULT_BASE_URL DEFAULT_UNITS : string)
           (api_key base_url units : option string) : WeatherSettings :=
  {| weather_api_key := or_text api_key (environ "OPENWEATHERMAP_API_KEY");
     base_url := match or_text base_url None with
                 | Some u => u
                 | None => DEFAULT_BASE_URL
                 end;
     units := match or_text units None with
              | Some u => u
              | None => DEFAULT_UNITS
              end |}.

Definition weather_api_error (text : string) (cause : exn) : exn :=
  Exn WeatherAPIError text (Some cause).

(** The fields the current weather is read from, and the ones of an entry of
    the forecast, in the order of the source. *)
Definition weather_fields : list (string * list subscript) :=
  [("city", [Key "name"]);
   ("country", [Key "sys"; Key "country"]);
   ("temperature", [Key "main"; Key "temp"]);
   ("feels_like", [Key "main"; Key "feels_like"]);
   ("humidity", [Key "main"; Key "humidity"]);
   ("wind_speed", [Key "wind"; Key "speed"]);
   ("weather_condition", [Key "weather"; Index 0; Key "main"]);
   ("description", [Key "weather"; Index 0; Key "description"])].

Definition forecast_fields : list (string * list subscript) :=
  [("temperature", [Key "main"; Key "temp"]);
   ("feels_like", [Key "main"; Key "feels_like"]);
   ("humidity", [Key "main"; Key "humidity"]);
   ("weather_condition", [Key "weather"; Index 0; Key "main"]);
   ("description", [Key "weather"; Index 0; Key "description"])].

(** The date of an entry of the forecast. *)
Definition entry_date (entry : pyval) : option string :=
  match entry with
  | PyDict d =>
      match assoc "date" d with
      | Some (PyStr date) => Some date
      | _ => None
      end
  | _ => None
  end.

(** The keys of a mapping. *)
Definition entry_keys (entry : pyval) : list string :=
  match entry with
  | PyDict d => map fst d
  | _ => []
  end.

Section Weather.

Context {World : Type}.

Context (requests_request :
           string -> string -> list (string * pyval) -> list (string * string)
           -> option pyval -> pyval -> World -> request_outcome * World).
Context (time_passes : Z -> World -> World).
Context (str_upper : string -> string).
Context (subscript_error_text : pyval -> subscript -> string).

(** The module constants of [utils/api.py]. *)
Context (DEFAULT_TIMEOUT : pyval) (MAX_RETRIES RETRY_DELAY : Z).

(** [datetime.now().strftime("%Y-%m-%d %H:%M:%S")]; for a time stamp [ts],
    [datetime.fromtimestamp(ts)] as the pair of its [strftime("%Y-%m-%d")]
    and [strftime("%H:%M")], or the exception it raises; and the text of the
    [TypeError] of a value that cannot be iterated. *)
Context (now_text : World -> string).
Context (fromtimestamp : pyval -> outcome (string * string)).
Context (not_iterable_text : pyval -> string).

(** The values of a mapping literal whose values are read from [data], in
    the order they are written. *)
Fixpoint collect (data : pyval) (fields : list (string * list subscript))
  : outcome (list (string * pyval)) :=
  match fields with
  | [] => Returned []
  | (k, path) :: fields' =>
      match getpath subscript_error_text data path with
      | Raised e => Raised e
      | Returned v =>
          match collect data fields' with
          | Raised e => Raised e
          | Returned rest => Returned ((k, v) :: rest)
          end
      end
  end.

(** [BaseWeatherTool._make_weather_request]. *)
Definition _make_weather_request (self : WeatherSettings)
           (endpoint city : string) (w : World)
  : outcome pyval * World * list api_event :=
  match weather_api_key self with
  | Some (String c k) =>
      let url := (base_url self ++ "/" ++ endpoint)%string in
      let params := [("q", PyStr city); ("appid", PyStr (String c k));
                     ("units", PyStr (units self))] in
      match make_request requests_request time_passes str_upper url "GET"
                         (Some params) None None DEFAULT_TIMEOUT MAX_RETRIES
                         RETRY_DELAY w with
      | (Returned data, w', log) => (Returned data, w', log)
      | (Raised e, w', log) =>
          let text := ("Failed to fetch weather data: " ++ str e)%string in
          (Raised (weather_api_error text e), w',
           log ++ [ApiLog "error" text])
      end
  | _ =>
      (Raised (Exn ConfigurationError "OpenWeatherMap API key is required"
                   None), w, [])
  end.

(** The [except KeyError] of both [execute] methods. *)
Definition unexpected_format (r : outcome pyval) (log : list api_event)
  : outcome pyval * list api_event :=
  match r with
  | Returned v => (Returned v, log)
  | Raised e =>
      if is_KeyError e
      then
        let text := ("Unexpected API response format: " ++ str e)%string in
        (Raised (weather_api_error text e), log ++ [ApiLog "error" text])
      else (Raised e, log)
  end.

(** [WeatherTool.execute], with the log of what it did. *)
Definition weather_execute (self : WeatherSettings) (args : string)
           (w : World) : outcome pyval * World * list api_event :=
  let city := strip args in
  match _make_weather_request self "weather" city w with
  | (Raised e, w', log) =>
      let (r, log) := unexpected_format (Raised e) log in (r, w', log)
  | (Returned data, w', log) =>
      let (r, log) :=
        unexpected_format
          match collect data weather_fields with
          | Raised e => Raised e
          | Returned fields =>
              Returned (PyDict (fields
                                  ++ [("timestamp", PyStr (now_text w'))]))
          end log in
      (r, w', log)
  end.

(** [for item in forecast_list]: the items iterated over. *)
Definition iterate (v : pyval) : outcome (list pyval) :=
  match v with
  | PyList l => Returned l
  | PyDict d => Returned (map (fun item => PyStr (fst item)) d)
  | PyStr s => Returned (characters s)
  | _ => Raised (Exn (Builtin "TypeError") (not_iterable_text v) None)
  end.

(** The loop of [ForecastTool._process_forecast_data] over the items left,
    and the [return] after it. *)
Fixpoint process_items (items : list pyval) (forecast_data : list pyval)
         (dates_processed : list string) : outcome (list pyval) :=
  match items with
  | [] => Returned forecast_data
  | item :: items' =>
      match getitem subscript_error_text item (Key "dt") with
      | Raised e => Raised e
      | Returned ts =>
          match fromtimestamp ts with
          | Raised e => Raised e
          | Returned (date_str, time_str) =>
              match
                if existsb (String.eqb date_str) dates_processed
                then Returned (forecast_data, dates_processed)
                else
                  match collect item forecast_fields with
                  | Raised e => Raised e
                  | Returned fields =>
                      Returned
                        (forecast_data
                           ++ [PyDict (("date", PyStr date_str)
                                         :: ("time", PyStr time_str)
                                         :: fields)],
                         date_str :: dates_processed)
                  end
              with
              | Raised e => Raised e
              | Returned (forecast_data, dates_processed) =>
                  if Nat.leb 5 (List.length forecast_data)
                  then Returned forecast_data
                  else process_items items' forecast_data dates_processed
              end
          end
      end
  end.

(** [ForecastTool._process_forecast_data]. *)
Definition _process_forecast_data (forecast_list : pyval)
  : outcome (list pyval) :=
  match iterate forecast_list with
  | Raised e => Raised e
  | Returned items => process_items items [] []
  end.

(** [ForecastTool.execute], with the log of what it did. *)
Definition forecast_execute (self : WeatherSettings) (args : string)
           (w : World) : outcome pyval * World * list api_event :=
  let city := strip args in
  match _make_weather_request self "forecast" city w with
  | (Raised e, w', log) =>
      let (r, log) := unexpected_format (Raised e) log in (r, w', log)
  | (Returned data, w', log) =>
      let (r, log) :=
        unexpected_format
          match getitem subscript_error_text data (Key "list") with
          | Raised e => Raised e
          | Returned forecast_list =>
              match _process_forecast_data forecast_list with
              | Raised e => Raised e
              | Returned forecast_data =>
                  match collect data
                                [("city", [Key "city"; Key "name"]);
                                 ("country", [Key "city"; Key "country"])]
                  with
                  | Raised e => Raised e
                  | Returned fields =>
                      Returned (PyDict (fields
                                          ++ [("forecast",
                                               PyList forecast_data)]))
                  end
              end
          end log in
      (r, w', log)
  end.

(** [WeatherTool(...)] and [ForecastTool(...)] as tools of the agent. *)
Definition WeatherTool (self : WeatherSettings) : Tool World :=
  {| name := "get_weather";
     description :=
       "Fetches current weather for a city. Usage: get_weather: [city name]";
     required_args := true;
     execute := fun args w =>
                  let '(r, w', _) := weather_execute self args w in (r, w') |}.

Definition ForecastTool (self : WeatherSettings) : Tool World :=
  {| name := "get_forecast";
     description :=
       "Fetches 5-day forecast for a city. Usage: get_forecast: [city name]";
     required_args := true;
     execute := fun args w =>
                  let '(r, w', _) := forecast_execute self args w in (r, w') |}.

End Weather.

(** What a run of the loop of [make_request] adds to the log: one request
    per pass, one pause between two passes, none after the last. *)
Definition paced (method url : string) (retry_delay : Z) (remaining : nat)
           (new : list api_event) : Prop :=
  let n := List.length (api_requests new) in
  (n <= remaining)%nat /\
  (0 < remaining -> 0 < n)%nat /\
  api_sleeps new = repeat retry_delay (n - 1) /\
  Forall (eq (method, url)) (api_requests new).

(** A scripted network: the world is the list of what the next requests
    give; past the end of the script the connection fails. *)
Module ApiScript.

Definition World : Type := list request_outcome.

Definition connection_error : exn :=
  Exn (Builtin "requests.exceptions.ConnectionError") "Connection refused"
      None.

Definition request (_ _ : string) (_ : list (string * pyval))
           (_ : list (string * string)) (_ : option pyval) (_ : pyval)
           (w : World) : request_outcome * World :=
  match w with
  | o :: w' => (o, w')
  | [] => (RequestFailed connection_error, [])
  end.

(** A server that knows no city. *)
Definition not_found : Response :=
  {| status_code := 404; json_body := None;
     response_text := "city not found";
     http_error_msg := "404 Client Error: Not Found for url: https://api.openweathermap.org/data/2.5/weather" |}.

Definition always_404 (_ _ : string) (_ : list (string * pyval))
           (_ : list (string * string)) (_ : option pyval) (_ : pyval)
           (w : World) : request_outcome * World :=
  (Responded not_found, w).

(** A service that is down: the scripted failures of the transport, and
    status 404 otherwise. *)
Definition outage (_ _ : string) (_ : list (string * pyval))
           (_ : list (string * string)) (_ : option pyval) (_ : pyval)
           (w : World) : request_outcome * World :=
  match w with
  | RequestFailed e :: w' => (RequestFailed e, w')
  | _ :: w' => (Responded not_found, w')
  | [] => (Responded not_found, [])
  end.

Definition sleep (_ : Z) (w : World) : World := w.

(** [str.upper] on the letters a to z. *)
Fixpoint upper (s : string) : string :=
  match s with
  | EmptyString => EmptyString
  | String c s' =>
      String (if Text.is_lower c then ascii_of_nat (Text.code c - 32) else c)
             (upper s')
  end.

Definition error_text (_ : pyval) (_ : subscript) : string :=
  "unsupported subscript".

Definition london : pyval :=
  PyDict
    [("name", PyStr "London");
     ("sys", PyDict [("country", PyStr "GB")]);
     ("main", PyDict [("temp", PyFloat (PyF "18.5"));
                      ("feels_like", PyFloat (PyF "18.1"));
                      ("humidity", PyInt 75)]);
     ("wind", PyDict [("speed", PyFloat (PyF "5.2"))]);
     ("weather", PyList [PyDict [("main", PyStr "Clouds");
                                 ("description", PyStr "scattered clouds")]])].

Definition ok (body : pyval) : Response :=
  {| status_code := 200; json_body := Some body; response_text := "";
     http_error_msg := "" |}.

Definition settings (key : option string) : WeatherSettings :=
  {| weather_api_key := key;
     base_url := "https://api.openweathermap.org/data/2.5";
     units := "metric" |}.

(** The day and the time of a time stamp given in whole hours since an
    origin, as a stand-in for the local calendar. *)
Definition fromtimestamp (ts : pyval) : outcome (string * string) :=
  match ts with
  | PyInt z =>
      Returned (("day " ++ Text.of_int (z / 24))%string,
                (Text.of_int (z mod 24) ++ ":00")%string)
  | _ => Raised (Exn (Builtin "TypeError") "an integer is required" None)
  end.

Definition reading (hour : Z) : pyval :=
  PyDict
    [("dt", PyInt hour);
     ("main", PyDict [("temp", PyFloat (PyF "18.5"));
                      ("feels_like", PyFloat (PyF "18.1"));
                      ("humidity", PyInt 75)]);
     ("weather", PyList [PyDict [("main", PyStr "Clouds");
                                 ("description", PyStr "scattered clouds")]])].

(** Four readings over three days. *)
Definition forecast_reply : pyval :=
  PyDict
    [("list", PyList [reading 9; reading 12; reading 33; reading 57]);
     ("city", PyDict [("name", PyStr "London"); ("country", PyStr "GB")])].

Definition now (_ : World) : string := "2026-11-03 12:00:00".

Definition not_iterable (_ : pyval) : string := "object is not iterable".

Definition no_get (_ : pyval) : string := "object has no attribute 'get'".

End ApiScript.

(** * Properties *)

(** ** Texts *)

Lemma prefix_app (n b : string) : String.prefix n (n ++ b) = true.
Proof.
  induction n as [|c n IH]; simpl.
  - destruct b; reflexivity.
  - destruct (ascii_dec c c) as [_|ne]; [exact IH | now elim ne].
Qed.

Lemma contains_prefix (n s : string) :
  String.prefix n s = true -> Text.contains n s = true.
Proof.
  intros H. destruct s; simpl; simpl in H; rewrite H; reflexivity.
Qed.

Lemma contains_app (n a b : string) : Text.contains n (a ++ n ++ b) = true.
Proof.
  induction a as [|c a IH]; simpl.
  - apply contains_prefix, prefix_app.
  - rewrite IH. apply orb_true_r.
Qed.

Lemma append_empty_r (s : string) : (s ++ "")%string = s.
Proof. induction s; simpl; congruence. Qed.

Lemma append_assoc (a b c : string) :
  ((a ++ b) ++ c)%string = (a ++ b ++ c)%string.
Proof. induction a; simpl; congruence. Qed.

(** The join of a list ending in [r] ends in [r]. *)
Lemma join_snoc (sep : string) (l : list string) (r : string) :
  exists pre, Text.join sep (l ++ [r]) = (pre ++ r)%string.
Proof.
  unfold Text.join. induction l as [|x l IH].
  - exists ""%string. reflexivity.
  - destruct IH as [pre IH]. exists (x ++ sep ++ pre)%string.
    change ((x :: l) ++ [r]) with (x :: (l ++ [r])).
    destruct (l ++ [r]) eqn:E.
    + destruct l; discriminate.
    + change (String.concat sep (x :: s :: l0))
        with (x ++ sep ++ String.concat sep (s :: l0))%string.
      rewrite IH. now rewrite !append_assoc.
Qed.

Lemma contains_join_snoc (sep : string) (l : list string) (r : string) :
  Text.contains r (Text.join sep (l ++ [r])) = true.
Proof.
  destruct (join_snoc sep l r) as [pre ->].
  rewrite <- (append_empty_r r) at 2. apply contains_app.
Qed.

(** ** Views of a trace *)

Lemma llm_results_app (a b : list event) :
  llm_results (a ++ b) = llm_results a ++ llm_results b.
Proof.
  induction a as [|[] a IH]; simpl; auto. now rewrite IH.
Qed.

Lemma executed_app (a b : list event) :
  executed (a ++ b) = executed a ++ executed b.
Proof.
  induction a as [|[] a IH]; simpl; auto. now rewrite IH.
Qed.

Lemma quiet_nil : quiet [].
Proof. split; reflexivity. Qed.

Lemma quiet_app (a b : list event) : quiet a -> quiet b -> quiet (a ++ b).
Proof.
  intros [A1 A2] [B1 B2]. split.
  - now rewrite llm_results_app, A1, B1.
  - now rewrite executed_app, A2, B2.
Qed.

(** ** The monad *)

Section Steps.

Context {World : Type}.

Implicit Types (s : state World) (a : Agent World) (t : Tool World).
Implicit Types (callback : option (string -> World -> World)).

Lemma bind_returned {A B} (m : M World A) (f : A -> M World B) s x s1 :
  m s = (Returned x, s1) -> bind m f s = f x s1.
Proof. unfold bind. now intros ->. Qed.

Lemma bind_raised {A B} (m : M World A) (f : A -> M World B) s e s1 :
  m s = (Raised e, s1) -> bind m f s = (Raised e, s1).
Proof. unfold bind. now intros ->. Qed.

Lemma set_messages_same a : set_messages a (messages a) = a.
Proof. now destruct a. Qed.

Lemma extends_intro s new evs w :
  extends new (llm_results evs) (executed evs) s
          {| self := set_messages (self s) (messages (self s) ++ new);
             world := w; trace := trace s ++ evs |}.
Proof. split; [reflexivity | now exists evs]. Qed.

Lemma extends_same s evs w :
  extends [] (llm_results evs) (executed evs) s
          {| self := self s; world := w; trace := trace s ++ evs |}.
Proof.
  split; [|now exists evs].
  simpl. now rewrite app_nil_r, set_messages_same.
Qed.

Lemma extends_events s evs w llm ex :
  llm_results evs = llm -> executed evs = ex ->
  extends [] llm ex s
          {| self := self s; world := w; trace := trace s ++ evs |}.
Proof. intros <- <-. apply extends_same. Qed.

Lemma extends_refl s : extends [] [] [] s s.
Proof.
  split.
  - now rewrite app_nil_r, set_messages_same.
  - exists []. now rewrite app_nil_r.
Qed.

Lemma extends_trans n1 l1 x1 n2 l2 x2 s s1 s2 :
  extends n1 l1 x1 s s1 -> extends n2 l2 x2 s1 s2 ->
  extends (n1 ++ n2) (l1 ++ l2) (x1 ++ x2) s s2.
Proof.
  intros [A1 (e1 & T1 & L1 & X1)] [A2 (e2 & T2 & L2 & X2)]. split.
  - rewrite A2, A1. simpl. now rewrite app_assoc.
  - exists (e1 ++ e2). rewrite T2, T1, app_assoc.
    now rewrite llm_results_app, executed_app, L1, L2, X1, X2.
Qed.

(** Nothing but the conversation changes in the agent. *)
Lemma extends_config new llm ex s s' :
  extends new llm ex s s' ->
  tools (self s') = tools (self s) /\
  model (self s') = model (self s) /\
  temperature (self s') = temperature (self s) /\
  max_iterations (self s') = max_iterations (self s) /\
  debug (self s') = debug (self s) /\
  groq_client (self s') = groq_client (self s) /\
  system_prompt (self s') = system_prompt (self s).
Proof. intros [-> _]. now repeat split. Qed.

(** *** The pieces of the loop body *)

Lemma call_back_extends callback text s :
  exists s', call_back callback text s = (Returned tt, s') /\
             extends [] [] [] s s' /\
             world s' = callback_world callback text (world s).
Proof.
  destruct callback as [f|]; simpl.
  - eexists. split; [reflexivity|]. split; [|reflexivity].
    apply (extends_same s [EvCallback text]).
  - eexists. split; [reflexivity|]. split; [apply extends_refl | reflexivity].
Qed.

Lemma when_print_extends (b : bool) text s :
  exists s', when b (print text) s = (Returned tt, s') /\
             extends [] [] [] s s' /\ world s' = world s.
Proof.
  destruct b; simpl.
  - eexists. split; [reflexivity|]. split; [|reflexivity].
    apply (extends_same s [EvPrint text]).
  - eexists. split; [reflexivity|]. split; [apply extends_refl | reflexivity].
Qed.

Lemma inject_extends callback observation s :
  exists s', inject callback observation s = (Returned tt, s') /\
             extends [Message user observation] [] [] s s' /\
             world s' = callback_world callback observation (world s).
Proof.
  unfold inject.
  set (s1 := {| self := set_messages (self s)
                          (messages (self s) ++ [Message user observation]);
                world := world s; trace := trace s |}).
  assert (E1 : extends [Message user observation] [] [] s s1).
  { unfold s1. rewrite <- (app_nil_r (trace s)).
    apply (extends_intro s [Message user observation] [] (world s)). }
  destruct (call_back_extends callback observation s1) as (s2 & C & E2 & W2).
  destruct (when_print_extends (debug (self s2)) observation s2)
    as (s3 & P & E3 & W3).
  exists s3. split; [|split].
  - erewrite bind_returned by reflexivity. fold s1.
    erewrite bind_returned by exact C.
    erewrite bind_returned by reflexivity. exact P.
  - exact (extends_trans (extends_trans E1 E2) E3).
  - now rewrite W3, W2.
Qed.

(** [safe_execute] returns on every input: with the result of [execute],
    or with the error mapping when [execute] raised. *)
Lemma safe_execute_cases t args s :
  exists s',
    safe_execute t args s =
      (Returned match fst (execute t args (world s)) with
                | Returned v => v
                | Raised _ => error_result t args
                end, s') /\
    extends [] [] [(name t, args)] s s' /\
    world s' = snd (execute t args (world s)).
Proof.
  unfold safe_execute, try_except, bind, emit, external, ret.
  cbn [self world trace].
  destruct (execute t args (world s)) as [[v|e] w];
    cbv beta iota; cbn [self world trace fst snd].
  - eexists. split; [reflexivity|]. split; [|reflexivity].
    rewrite <- app_assoc. now apply extends_events.
  - eexists. split; [reflexivity|]. split; [|reflexivity].
    rewrite <- !app_assoc. now apply extends_events.
Qed.

(** The observation of an action: the tool's, when the name is a key of
    the registry, and the list of the keys otherwise. *)
Lemma dispatch_cases tool_name args s :
  exists observation s',
    dispatch tool_name args s = (Returned observation, s') /\
    match lookup tool_name (tools (self s)) with
    | Some t =>
        observation =
          tool_observation tool_name
            match fst (execute t args (world s)) with
            | Returned v => v
            | Raised _ => error_result t args
            end /\
        extends [] [] [(name t, args)] s s' /\
        world s' = snd (execute t args (world s))
    | None =>
        observation = not_found_observation tool_name (tools (self s)) /\
        extends [] [] [] s s' /\ world s' = world s
    end.
Proof.
  unfold dispatch. erewrite bind_returned by reflexivity.
  destruct (lookup tool_name (tools (self s))) as [t|].
  - destruct (safe_execute_cases t args s) as (s' & E & X & W).
    unfold try_except. erewrite bind_returned by exact E.
    unfold tool_observation.
    destruct (Json.dumps _) as [text|e]; simpl;
      do 2 eexists; (split; [reflexivity|]); auto.
  - do 2 eexists. split; [reflexivity|].
    split; [reflexivity|]. split; [apply extends_refl | reflexivity].
Qed.

(** [_call_llm] hands on the client's reply and turns the client's
    failure into an [LLMAPIError]. *)
Lemma _call_llm_cases s :
  exists s',
    _call_llm s =
      (match fst (llm_request s) with
       | Returned r => Returned r
       | Raised e => Raised (llm_api_error e)
       end, s') /\
    self s' = self s /\ world s' = snd (llm_request s) /\
    exists after,
      trace s' =
        trace s ++ EvLLM (messages (self s)) (fst (llm_request s)) :: after
      /\ quiet after.
Proof.
  unfold _call_llm, try_except, create_completion, llm_request.
  destruct (groq_client _ _ _ _ _) as [[r|e] w]; simpl.
  - eexists. split; [reflexivity|]. repeat split.
    exists []. split; [reflexivity | apply quiet_nil].
  - eexists. split; [reflexivity|]. repeat split.
    exists [EvLog ERROR ("Error calling Groq API: " ++ str e)%string None].
    split; [cbn [trace]; now rewrite <- app_assoc | split; reflexivity].
Qed.

Lemma observe_cases callback response s :
  exists s',
    observe callback response s = (Returned tt, s') /\
    extends [Message user (observation_for response s)] []
            (dispatched response s) s s'.
Proof.
  unfold observe, observation_for, dispatched.
  destruct (Text.contains "PAUSE" response).
  - destruct (_parse_action response) as [[tool_name args]|].
    + destruct (dispatch_cases tool_name args s) as (obs & s1 & D & H).
      destruct (inject_extends callback obs s1) as (s2 & I & E2 & _).
      exists s2. split; [now erewrite bind_returned by exact D|].
      destruct (lookup tool_name (tools (self s))) as [t|];
        destruct H as (-> & E1 & _);
        exact (extends_trans E1 E2).
    + destruct (inject_extends callback could_not_parse s) as (s' & I & E & _).
      now exists s'.
  - destruct (inject_extends callback expected_action s) as (s' & I & E & _).
    now exists s'.
Qed.

Lemma replied_extends callback r s s1 :
  replied callback r s s1 -> extends [Message assistant r] [Returned r] [] s s1.
Proof.
  intros (A & _ & after & T & Q1 & Q2). split; [exact A|].
  exists (EvLLM (messages (self s)) (Returned r) :: after).
  split; [exact T|]. simpl. now rewrite Q1, Q2.
Qed.

(** One pass of the loop body, by the client's result. *)
Lemma loop_body_cases callback iteration full_response s :
  match fst (llm_request s) with
  | Raised e =>
      exists s',
        loop_body callback iteration full_response s
        = (Raised (llm_api_error e), s') /\
        extends [] [Raised e] [] s s'
  | Returned r =>
      exists s1,
        replied callback r s s1 /\
        if Text.contains "Answer:" r then
          loop_body callback iteration full_response s
          = (Returned (full_response ++ [r],
                       Some (Text.join LF (full_response ++ [r]))), s1)
        else
          exists s2,
            loop_body callback iteration full_response s
            = (Returned (full_response ++ [r], None), s2) /\
            extends [Message user (observation_for r s1)] []
                    (dispatched r s1) s1 s2
  end.
Proof.
  destruct (_call_llm_cases s) as (s0 & C & A0 & W0 & after0 & T0 & Q0).
  unfold loop_body.
  destruct (fst (llm_request s)) as [r|e].
  - erewrite bind_returned by exact C.
    erewrite bind_returned by reflexivity.
    set (sa := {| self := _; world := world s0; trace := trace s0 |}).
    destruct (call_back_extends callback r sa) as (sb & CB & Eb & Wb).
    erewrite bind_returned by exact CB.
    erewrite bind_returned by reflexivity.
    assert (P : exists s1,
               when (debug (self sb))
                 (print (LF ++ "--- Iteration " ++ Text.of_int iteration
                            ++ " ---")%string ;;; print r) sb
               = (Returned tt, s1) /\ extends [] [] [] sb s1 /\
               world s1 = world sb).
    { destruct (debug (self sb)).
      - eexists. split; [reflexivity|]. split; [|reflexivity].
        cbn [trace self world]. rewrite <- app_assoc.
        now apply extends_events.
      - eexists. split; [reflexivity|].
        split; [apply extends_refl | reflexivity]. }
    destruct P as (s1 & P & E1 & W1).
    erewrite bind_returned by exact P.
    assert (R : replied callback r s s1).
    { destruct (extends_trans Eb E1) as (A & evs & T & L & X).
      split; [|split].
      - rewrite A. unfold sa. cbn [self]. now rewrite A0, app_nil_r.
      - rewrite W1, Wb. unfold sa. cbn [world]. now rewrite W0.
      - exists (after0 ++ evs). split.
        + rewrite T. unfold sa. cbn [trace]. rewrite T0.
          now rewrite <- app_assoc.
        + apply quiet_app; [exact Q0 | now split]. }
    exists s1. split; [exact R|].
    destruct (Text.contains "Answer:" r); [reflexivity|].
    destruct (observe_cases callback r s1) as (s2 & O & E2).
    exists s2. split; [|exact E2].
    now erewrite bind_returned by exact O.
  - erewrite bind_raised by exact C.
    eexists. split; [reflexivity|]. split.
    + now rewrite A0, app_nil_r, set_messages_same.
    + exists (EvLLM (messages (self s)) (Raised e) :: after0).
      destruct Q0 as [Q1 Q2]. split; [exact T0|]. simpl. now rewrite Q1, Q2.
Qed.

End Steps.

(** ** Shapes of a conversation *)

Lemma last_role_app (l1 l2 : list message) :
  l2 <> [] -> last_role (l1 ++ l2) = last_role l2.
Proof.
  intros N. unfold last_role. rewrite rev_app_distr.
  destruct (rev l2) as [|m l] eqn:E; [|reflexivity].
  apply (f_equal (@rev message)) in E. rewrite rev_involutive in E.
  contradiction.
Qed.

Lemma last_role_snoc (l : list message) (m : message) :
  last_role (l ++ [m]) = Some (msg_role m).
Proof. rewrite last_role_app by discriminate. reflexivity. Qed.

Lemma alternates_app (r : role) (l1 l2 : list message) :
  alternates r (l1 ++ l2)
  = alternates r l1
    && alternates (if Nat.even (List.length l1) then r else flip r) l2.
Proof.
  revert r. induction l1 as [|m l1 IH]; intros r; [reflexivity|].
  cbn [alternates app List.length]. rewrite IH, andb_assoc.
  destruct r; try reflexivity;
    cbn [flip]; rewrite Nat.even_succ, <- Nat.negb_even;
    destruct (Nat.even (List.length l1)); reflexivity.
Qed.

(** In a list that alternates, a turn that is not the assistant's is the
    user's. *)
Lemma alternates_last_role (r : role) (l : list message) :
  r <> system -> alternates r l = true ->
  last_role l = None \/ last_role l = Some user \/ last_role l = Some assistant.
Proof.
  intros R A. destruct (last_role l) as [[]|] eqn:E; auto.
  exfalso. unfold last_role in E.
  destruct (rev l) as [|m l'] eqn:V; [discriminate|].
  injection E as E.
  apply (f_equal (@rev message)) in V. rewrite rev_involutive in V.
  simpl in V. subst l. rewrite alternates_app in A.
  apply andb_true_iff in A as [_ A]. cbn [alternates] in A.
  rewrite E in A.
  destruct (Nat.even _), r; try discriminate; now elim R.
Qed.

(** ** The loop as a whole *)

Lemma run_step (acc : list string) (k : nat) (r observation : string)
      (evs1 evs : list event) (new : list message) (res : outcome string) :
  Text.contains "Answer:" r = false ->
  llm_results evs1 = [Returned r] ->
  run (acc ++ [r]) k evs new res ->
  run acc (S k) (evs1 ++ evs)
      (Message assistant r :: Message user observation :: new) res.
Proof.
  intros NA L1 H.
  assert (Last : forall l, l <> [] ->
                 last_role (Message assistant r :: Message user observation :: l)
                 = last_role l).
  { intros l N.
    apply (last_role_app [Message assistant r; Message user observation] N). }
  destruct H as [rs r0 before request after new NR A0 Len LB Q Alt LR
                |rs evs new NR Len LE Alt LR
                |rs e evs new NR Len LE Alt LR].
  - rewrite <- app_assoc, app_assoc.
    change ([r] ++ rs ++ [r0]) with ((r :: rs) ++ [r0]).
    apply run_answered; auto.
    + now constructor.
    + simpl. lia.
    + rewrite llm_results_app, L1, LB. reflexivity.
    + rewrite Last; [exact LR|]. intros ->. discriminate.
  - rewrite <- app_assoc. change ([r] ++ rs) with (r :: rs).
    apply run_exhausted; auto.
    + now constructor.
    + simpl. lia.
    + rewrite llm_results_app, L1, LE. reflexivity.
    + destruct new; [discriminate|]. rewrite Last by discriminate. exact LR.
  - apply run_failed with (rs := r :: rs); auto.
    + now constructor.
    + simpl. lia.
    + rewrite llm_results_app, L1, LE. reflexivity.
    + destruct new; [discriminate|]. rewrite Last by discriminate. exact LR.
Qed.

Section Loop.

Context {World : Type}.

Implicit Types (s : state World).
Implicit Types (callback : option (string -> World -> World)).

(** A pass that ends on a reply without [Answer:] appends the reply and
    the observation for it, and the loop goes on with one pass less. *)
Lemma while_loop_continue callback remaining iteration full_response s r :
  fst (llm_request s) = Returned r ->
  Text.contains "Answer:" r = false ->
  exists s1 s2,
    replied callback r s s1 /\
    extends [Message user (observation_for r s1)] [] (dispatched r s1)
            s1 s2 /\
    while_loop callback (S remaining) iteration full_response s
    = while_loop callback remaining (iteration + 1) (full_response ++ [r])
                 s2.
Proof.
  intros R NA.
  pose proof (loop_body_cases callback (iteration + 1) full_response s) as H.
  rewrite R, NA in H. destruct H as (s1 & Rep & s2 & B & E).
  exists s1, s2. split; [exact Rep|]. split; [exact E|].
  cbn [while_loop]. now erewrite bind_returned by exact B.
Qed.

(** Every execution of the loop is one of the three runs. *)
Lemma while_loop_run callback remaining :
  forall iteration full_response s,
  exists res s' evs new,
    while_loop callback remaining iteration full_response s = (res, s') /\
    self s' = set_messages (self s) (messages (self s) ++ new) /\
    trace s' = trace s ++ evs /\
    run full_response remaining evs new res.
Proof.
  induction remaining as [|k IH]; intros iteration acc s.
  - exists (Returned (Text.join LF acc ++ exceeded_notice)%string), s, [], [].
    split; [reflexivity|].
    split; [now rewrite app_nil_r, set_messages_same|].
    split; [now rewrite app_nil_r|].
    pose proof (@run_exhausted acc 0 [] [] []) as H.
    rewrite app_nil_r in H. apply H; try reflexivity; try discriminate.
    constructor.
  - pose proof (loop_body_cases callback (iteration + 1) acc s) as H.
    destruct (fst (llm_request s)) as [r|e] eqn:R.
    + destruct H as (s1 & Rep & H).
      destruct (Text.contains "Answer:" r) eqn:A.
      * destruct Rep as (S1 & _ & after & T1 & Q1).
        exists (Returned (Text.join LF (acc ++ [r]))), s1,
               ([] ++ EvLLM (messages (self s)) (Returned r) :: after),
               [Message assistant r].
        split; [cbn [while_loop]; now erewrite bind_returned by exact H|].
        split; [exact S1|]. split; [exact T1|].
        apply (@run_answered acc (S k) [] r []); auto; try reflexivity.
        -- constructor.
        -- simpl. lia.
      * destruct (while_loop_continue callback k iteration acc s R A)
          as (s1' & s2 & Rep' & E2 & W).
        destruct (IH (iteration + 1) (acc ++ [r]) s2)
          as (res & s' & evs & new & WL & S' & T' & Run).
        destruct (extends_trans (replied_extends Rep') E2)
          as (S2 & evs1 & T2 & L2 & _).
        exists res, s',
               (evs1 ++ evs),
               (Message assistant r
                  :: Message user (observation_for r s1') :: new).
        split; [now rewrite W|].
        split; [rewrite S', S2; cbn [messages set_messages];
                now rewrite <- app_assoc|].
        split; [now rewrite T', T2, app_assoc|].
        now apply run_step.
    + destruct H as (s' & B & S' & evs & T & L & _).
      exists (Raised (llm_api_error e)), s', evs, [].
      split; [cbn [while_loop]; now erewrite bind_raised by exact B|].
      split; [exact S'|]. split; [exact T|].
      apply (@run_failed acc (S k) [] e); auto; try discriminate.
      * constructor.
      * simpl. lia.
Qed.

(** [run_loop] seeds the conversation, appends the question and runs the
    loop with no reply collected yet. *)
Lemma run_loop_unfold query callback max_iterations reset_conversation s :
  run_loop query callback max_iterations reset_conversation s
  = while_loop callback
      (Z.to_nat (effective_max_iterations max_iterations (self s))) 0 []
      {| self := set_messages (self s)
                   (seeded reset_conversation (self s)
                      ++ [Message user ("Question: " ++ query)%string]);
         world := world s; trace := trace s |}.
Proof.
  unfold run_loop, seeded.
  erewrite bind_returned by reflexivity.
  destruct (reset_conversation || is_empty (messages (self s))); reflexivity.
Qed.

Lemma run_loop_run query callback max_iterations reset_conversation s :
  exists res s' evs new,
    run_loop query callback max_iterations reset_conversation s = (res, s') /\
    self s' = set_messages (self s)
                (seeded reset_conversation (self s)
                   ++ Message user ("Question: " ++ query)%string :: new) /\
    trace s' = trace s ++ evs /\
    run [] (Z.to_nat (effective_max_iterations max_iterations (self s)))
        evs new res.
Proof.
  rewrite run_loop_unfold.
  match goal with |- context [while_loop _ ?k _ _ ?s0] =>
    destruct (while_loop_run callback k 0 [] s0)
      as (res & s' & evs & new & W & S' & T & R)
  end.
  exists res, s', evs, new. split; [exact W|].
  split; [|split; [exact T | exact R]].
  rewrite S'. cbn [self messages set_messages].
  now rewrite <- app_assoc.
Qed.

End Loop.

(** ** The tool boundary *)

(** C3.  [safe_execute] never raises, whatever the tool and the argument
    text: it returns in every state.  When [execute] raises, the value
    returned is the mapping with the single key ["error"], whose value is the
    non-empty message naming the tool and the arguments; when [execute]
    returns, the value returned is the one [execute] returned. *)
Theorem safe_execute_never_raises {World : Type} (t : Tool World)
        (args : string) (s : state World) :
  exists v s',
    safe_execute t args s = (Returned v, s') /\
    match fst (execute t args (world s)) with
    | Returned result => v = result
    | Raised _ =>
        exists message,
          v = PyDict [("error", PyStr message)] /\
          message <> ""%string /\
          message = ("Error executing the tool " ++ name t ++ " with args "
                       ++ args)%string
    end.
Proof.
  destruct (safe_execute_cases t args s) as (s' & E & _).
  eexists. exists s'. split; [exact E|].
  destruct (fst (execute t args (world s))); [reflexivity|].
  eexists. split; [reflexivity|]. split; [discriminate | reflexivity].
Qed.

(** ** Termination of the loop *)

Lemma in_returned (r : string) (rs : list string) :
  In (Returned r) (map (@Returned string) rs) -> In r rs.
Proof.
  intros H. apply in_map_iff in H as (x & E & I). now injection E as ->.
Qed.

Lemma no_answer_in (r : string) (rs : list string) :
  no_answer rs -> In r rs -> Text.contains "Answer:" r = true -> False.
Proof.
  intros N I A. unfold no_answer in N. rewrite Forall_forall in N.
  specialize (N r I). congruence.
Qed.

(** C1.  In any call of [run_loop], a reply of the model that contains
    [Answer:] (with or without [PAUSE]) is the last thing the run asks of
    the outside: after it neither the model nor a tool is called.  The call
    returns the replies of this run joined by line feeds, that reply last,
    and the text returned contains it. *)
Theorem answer_terminates_run {World : Type} (query : string)
        (callback : option (string -> World -> World))
        (max_iterations : option Z) (reset_conversation : bool)
        (s s' : state World) (res : outcome string) (evs : list event)
        (r : string) :
  run_loop query callback max_iterations reset_conversation s = (res, s') ->
  trace s' = trace s ++ evs ->
  In (Returned r) (llm_results evs) ->
  Text.contains "Answer:" r = true ->
  exists rs before request after,
    evs = before ++ EvLLM request (Returned r) :: after /\
    quiet after /\
    llm_results evs = map Returned (rs ++ [r]) /\
    res = Returned (Text.join LF (rs ++ [r])) /\
    Text.contains r (Text.join LF (rs ++ [r])) = true.
Proof.
  intros Run T I A.
  destruct (run_loop_run query callback max_iterations reset_conversation s)
    as (res0 & s0 & evs0 & new & Run0 & _ & T0 & Shape).
  rewrite Run in Run0. injection Run0 as <- <-.
  rewrite T in T0. apply app_inv_head in T0. subst evs0.
  destruct Shape as [rs r0 before request after new NR A0 Len LB [QL QX] Alt LR
                    |rs evs new NR Len LE Alt LR
                    |rs e evs new NR Len LE Alt LR].
  - assert (L : llm_results (before ++ EvLLM request (Returned r0) :: after)
                = map Returned (rs ++ [r0])).
    { rewrite llm_results_app, LB, map_app. simpl. now rewrite QL. }
    rewrite L, map_app in I. apply in_app_or in I as [I|I].
    + apply in_returned in I. exact (False_ind _ (@no_answer_in r rs NR I A)).
    + destruct I as [I|[]]. injection I as <-.
      exists rs, before, request, after.
      repeat split; auto. apply contains_join_snoc.
  - rewrite LE in I. apply in_returned in I. exact (False_ind _ (@no_answer_in r rs NR I A)).
  - rewrite LE in I. apply in_app_or in I as [I|I].
    + apply in_returned in I. exact (False_ind _ (@no_answer_in r rs NR I A)).
    + destruct I as [I|[]]. discriminate.
Qed.

Lemma answer_terminates_run_witness :
  let r := ("Action: get_forecast: London" ++ LF ++ "PAUSE" ++ LF
              ++ "Answer: It is 18.5 degrees in London.")%string in
  let s := Script.start 10 []
             [Returned ("Thought: I need the weather." ++ LF
                          ++ "Action: get_weather: London" ++ LF ++ "PAUSE")
                %string;
              Returned r] in
  let result := run_loop "What's the weather in London?" None None false s in
  (In (Returned r) (llm_results (trace (snd result))) /\
   Text.contains "Answer:" r = true /\ Text.contains "PAUSE" r = true) /\
  exists rs before request after,
    trace (snd result) = before ++ EvLLM request (Returned r) :: after /\
    quiet after /\
    llm_results (trace (snd result)) = map Returned (rs ++ [r]) /\
    fst result = Returned (Text.join LF (rs ++ [r])) /\
    Text.contains r (Text.join LF (rs ++ [r])) = true.
Proof.
  intros r s result.
  assert (I : In (Returned r) (llm_results (trace (snd result)))).
  { vm_compute. right. left. reflexivity. }
  split; [split; [exact I | split; reflexivity]|].
  apply (@answer_terminates_run Script.World "What's the weather in London?"
           None None false s (snd result) (fst result) (trace (snd result)) r).
  - reflexivity.
  - reflexivity.
  - exact I.
  - reflexivity.
Defined.

Section Budget.

Context {World : Type}.

Implicit Types (s : state World).
Implicit Types (callback : option (string -> World -> World)).

Lemma while_loop_never_answers callback remaining :
  forall iteration full_response s,
    never_answers (groq_client (self s)) ->
    exists rs s' evs,
      while_loop callback remaining iteration full_response s
      = (Returned (Text.join LF (full_response ++ rs) ++ exceeded_notice)
           %string, s') /\
      trace s' = trace s ++ evs /\
      llm_results evs = map Returned rs /\
      List.length rs = remaining /\
      no_answer rs.
Proof.
  induction remaining as [|k IH]; intros iteration acc s Never.
  - exists [], s, []. rewrite !app_nil_r.
    repeat split; constructor.
  - destruct (Never (model (self s)) (messages (self s))
                    (temperature (self s)) (world s)) as (r & R & NA).
    destruct (while_loop_continue callback k iteration acc s R NA)
      as (s1 & s2 & Rep & E2 & W).
    pose proof (extends_trans (replied_extends Rep) E2) as E.
    destruct (extends_config E) as (_ & _ & _ & _ & _ & G & _).
    destruct E as (_ & evs1 & T1 & L1 & _).
    destruct (IH (iteration + 1) (acc ++ [r]) s2)
      as (rs & s' & evs & WL & T & L & Len & NR);
      [now rewrite G|].
    exists (r :: rs), s', (evs1 ++ evs).
    split; [rewrite W, WL, <- app_assoc; reflexivity|].
    split; [now rewrite T, T1, app_assoc|].
    split; [now rewrite llm_results_app, L1, L|].
    split; [simpl; now rewrite Len | now constructor].
Qed.

Lemma run_calls_bound acc k evs new res :
  run acc k evs new res -> (llm_calls evs <= k)%nat.
Proof.
  unfold llm_calls.
  intros [rs r before request after new' NR A Len LB [QL QX] Alt LR
         |rs evs' new' NR Len LE Alt LR
         |rs e evs' new' NR Len LE Alt LR].
  - rewrite llm_results_app, LB. simpl. rewrite QL.
    rewrite length_app, length_map. simpl. lia.
  - rewrite LE, length_map. lia.
  - rewrite LE, length_app, length_map. simpl. lia.
Qed.

End Budget.

(** C2.  With a positive iteration ceiling [N] (the override, or the
    agent's own ceiling when there is none) and a model none of whose replies
    contains [Answer:], [run_loop] returns after exactly [N] calls of the
    model, and what it returns is the replies of the run joined by line
    feeds, followed by the notice that the budget was exceeded. *)
Theorem budget_exhausted_after_ceiling {World : Type} (query : string)
        (callback : option (string -> World -> World))
        (max_iterations : option Z) (reset_conversation : bool)
        (s : state World) (N : Z) :
  effective_max_iterations max_iterations (self s) = N ->
  (0 < N)%Z ->
  never_answers (groq_client (self s)) ->
  exists rs s' evs,
    run_loop query callback max_iterations reset_conversation s
    = (Returned
         (Text.join LF rs ++ LF
            ++ "Exceeded maximum iterations without reaching an answer.")
         %string, s') /\
    trace s' = trace s ++ evs /\
    llm_results evs = map Returned rs /\
    Z.of_nat (llm_calls evs) = N /\
    Z.of_nat (List.length rs) = N.
Proof.
  intros EN Pos Never. rewrite run_loop_unfold, EN.
  match goal with |- context [while_loop _ _ _ _ ?s0] =>
    destruct (while_loop_never_answers callback (Z.to_nat N) 0 [] s0 Never)
      as (rs & s' & evs & W & T & L & Len & _)
  end.
  exists rs, s', evs. split; [exact W|]. split; [exact T|].
  split; [exact L|]. unfold llm_calls. rewrite L, length_map, Len. lia.
Qed.

Lemma budget_exhausted_after_ceiling_witness :
  let s := {| self := Script.stubborn_agent 10; world := []; trace := [] |} in
  (effective_max_iterations (Some 3) (self s) = 3 /\ (0 < 3)%Z /\
   never_answers (groq_client (self s))) /\
  exists rs s' evs,
    run_loop "hello" None (Some 3) false s
    = (Returned
         (Text.join LF rs ++ LF
            ++ "Exceeded maximum iterations without reaching an answer.")
         %string, s') /\
    trace s' = trace s ++ evs /\
    llm_results evs = map Returned rs /\
    Z.of_nat (llm_calls evs) = 3 /\
    Z.of_nat (List.length rs) = 3.
Proof.
  intros s.
  assert (Never : never_answers (groq_client (self s))).
  { intros m request t w. eexists. split; reflexivity. }
  split; [split; [reflexivity | split; [lia | exact Never]]|].
  apply (@budget_exhausted_after_ceiling Script.World "hello" None (Some 3)
           false s 3); [reflexivity | lia | exact Never].
Defined.

(** ** Failures *)

(** C9.  A failure of the model client leaves [_call_llm] as an
    [LLMAPIError] that carries the failure as its cause and its text in the
    message, and [run_loop] does not absorb it: if a model call of the run
    failed with [e], the call of [run_loop] raises that [LLMAPIError].
    Nothing else leaves [run_loop] as an exception: whatever [run_loop]
    raises is the error of a failed model call of the run, so that no
    failure of a tool propagates; the observation of an action is computed
    without raising whatever the tool does. *)
Theorem model_failure_propagates {World : Type} (query : string)
        (callback : option (string -> World -> World))
        (max_iterations : option Z) (reset_conversation : bool)
        (s s' : state World) (res : outcome string) (evs : list event) :
  run_loop query callback max_iterations reset_conversation s = (res, s') ->
  trace s' = trace s ++ evs ->
  (forall (s0 : state World) e, fst (llm_request s0) = Raised e ->
     fst (_call_llm s0)
     = Raised (Exn LLMAPIError ("Error calling Groq API: " ++ str e)%string
                   (Some e))) /\
  (forall e, In (Raised e) (llm_results evs) ->
     res = Raised (Exn LLMAPIError ("Error calling Groq API: " ++ str e)%string
                       (Some e))) /\
  (forall x, res = Raised x ->
     exists e, In (Raised e) (llm_results evs) /\
               x = Exn LLMAPIError ("Error calling Groq API: " ++ str e)%string
                       (Some e)) /\
  (forall tool_name args (s0 : state World),
     exists observation, fst (dispatch tool_name args s0) = Returned observation).
Proof.
  intros Run T.
  destruct (run_loop_run query callback max_iterations reset_conversation s)
    as (res0 & s0 & evs0 & new & Run0 & _ & T0 & Shape).
  rewrite Run in Run0. injection Run0 as <- <-.
  rewrite T in T0. apply app_inv_head in T0. subst evs0.
  split; [|split; [|split]].
  - intros s0 e R. destruct (_call_llm_cases s0) as (s1 & C & _).
    rewrite C, R. reflexivity.
  - intros e I.
    destruct Shape as [rs r0 before request after new NR A0 Len LB [QL QX] Alt LR
                      |rs evs new NR Len LE Alt LR
                      |rs e0 evs new NR Len LE Alt LR].
    + rewrite llm_results_app, LB in I. simpl in I. rewrite QL in I.
      apply in_app_or in I as [I|[I|[]]]; [|discriminate].
      apply in_map_iff in I as (x & E & _). discriminate.
    + rewrite LE in I. apply in_map_iff in I as (x & E & _). discriminate.
    + rewrite LE in I. apply in_app_or in I as [I|[I|[]]].
      * apply in_map_iff in I as (x & E & _). discriminate.
      * now injection I as ->.
  - intros x E.
    destruct Shape as [rs r0 before request after new NR A0 Len LB [QL QX] Alt LR
                      |rs evs new NR Len LE Alt LR
                      |rs e0 evs new NR Len LE Alt LR]; try discriminate.
    injection E as <-. exists e0. split; [|reflexivity].
    rewrite LE. apply in_or_app. right. now left.
  - intros tool_name args s0.
    destruct (dispatch_cases tool_name args s0) as (obs & s1 & D & _).
    exists obs. now rewrite D.
Qed.

Lemma model_failure_propagates_witness :
  let outage := Exn (Builtin "APIConnectionError") "Connection error." None in
  let s := Script.start 10 []
             [Returned ("Action: calculate: 1 +" ++ LF ++ "PAUSE")%string;
              Raised outage] in
  let result := run_loop "What is 1 + ?" None None false s in
  fst result
  = Raised (Exn LLMAPIError "Error calling Groq API: Connection error."
                (Some outage)) /\
  executed (trace (snd result)) = [("calculate", "1 +"%string)].
Proof.
  intros outage s result. split; [|reflexivity].
  refine (proj1 (proj2 (@model_failure_propagates Script.World
                          "What is 1 + ?" None None false s (snd result)
                          (fst result) (trace (snd result)) _ _))
                outage _).
  - reflexivity.
  - reflexivity.
  - vm_compute. right. left. reflexivity.
Defined.

(** ** The iteration ceiling *)

(** C10.  An override of [0] counts as no override: the ceiling is the
    agent's own [max_iterations], and the call behaves in every respect as
    the call without override.  It calls the model at most that many times,
    and exactly that many times when the model never answers. *)
Theorem zero_override_uses_default {World : Type} (query : string)
        (callback : option (string -> World -> World))
        (reset_conversation : bool) (s : state World) :
  effective_max_iterations (Some 0) (self s) = max_iterations (self s) /\
  run_loop query callback (Some 0) reset_conversation s
  = run_loop query callback None reset_conversation s /\
  exists evs,
    trace (snd (run_loop query callback (Some 0) reset_conversation s))
    = trace s ++ evs /\
    (llm_calls evs <= Z.to_nat (max_iterations (self s)))%nat /\
    (never_answers (groq_client (self s)) ->
     llm_calls evs = Z.to_nat (max_iterations (self s))).
Proof.
  split; [reflexivity|]. split; [now rewrite !run_loop_unfold|].
  destruct (run_loop_run query callback (Some 0) reset_conversation s)
    as (res & s' & evs & new & Run & _ & T & Shape).
  exists evs. rewrite Run. split; [exact T|].
  split; [exact (run_calls_bound Shape)|].
  intros Never. rewrite run_loop_unfold in Run.
  match type of Run with while_loop _ ?k _ _ ?s0 = _ =>
    destruct (while_loop_never_answers callback k 0 [] s0 Never)
      as (rs & s1 & evs1 & W & T1 & L & Len & _)
  end.
  rewrite Run in W. injection W as _ <-.
  cbn [trace] in T1. rewrite T in T1. apply app_inv_head in T1. subst evs1.
  unfold llm_calls. now rewrite L, length_map, Len.
Qed.

Lemma zero_override_uses_default_witness :
  let s := {| self := Script.stubborn_agent 2; world := []; trace := [] |} in
  never_answers (groq_client (self s)) /\
  llm_calls (trace (snd (run_loop "hello" None (Some 0) false s))) = 2%nat.
Proof.
  intros s.
  assert (Never : never_answers (groq_client (self s))).
  { intros m request t w. eexists. split; reflexivity. }
  split; [exact Never|].
  destruct (@zero_override_uses_default Script.World "hello" None false s)
    as (_ & _ & evs & T & _ & Exact).
  cbn [trace s app] in T. rewrite T. exact (Exact Never).
Defined.

(** ** Observations *)

Section Observations.

Context {World : Type}.

Implicit Types (s : state World).
Implicit Types (callback : option (string -> World -> World)).

(** A pass on a reply that is not an answer, as the body of the loop does
    it: the reply and the observation for it are appended, in this order,
    and the loop goes on from the state the body leaves. *)
Lemma loop_body_observes callback remaining iteration full_response s r :
  fst (llm_request s) = Returned r ->
  Text.contains "Answer:" r = false ->
  exists s1 s2 evs,
    tools (self s1) = tools (self s) /\
    world s1 = callback_world callback r (snd (llm_request s)) /\
    loop_body callback (iteration + 1) full_response s
    = (Returned (full_response ++ [r], None), s2) /\
    while_loop callback (S remaining) iteration full_response s
    = while_loop callback remaining (iteration + 1) (full_response ++ [r])
                 s2 /\
    messages (self s2)
    = messages (self s)
        ++ [Message assistant r; Message user (observation_for r s1)] /\
    trace s2 = trace s ++ evs /\
    llm_results evs = [Returned r] /\
    executed evs = dispatched r s1.
Proof.
  intros R NA.
  pose proof (loop_body_cases callback (iteration + 1) full_response s) as H.
  rewrite R, NA in H. destruct H as (s1 & Rep & s2 & B & E2).
  destruct (extends_config (replied_extends Rep)) as (Tools & _).
  destruct (extends_trans (replied_extends Rep) E2)
    as (S2 & evs & T & L & X).
  exists s1, s2, evs.
  split; [exact Tools|]. split; [apply Rep|]. split; [exact B|].
  split; [cbn [while_loop]; now erewrite bind_returned by exact B|].
  split; [now rewrite S2|]. split; [exact T|]. split; [exact L | exact X].
Qed.

End Observations.

(** C5.  When the reply contains [PAUSE] and not [Answer:] and the action
    parsed from it names a tool that is not a key of the registry, the pass
    through the body of the loop appends the reply and then, as a user
    turn, the text [Observation: Tool '<name>' not found. Available tools: ]
    followed by the keys of the registry, in the order of the registry,
    joined by [", "]; the model was called once, no tool is executed, and
    the loop goes on from the state the body leaves. *)
Theorem unknown_tool_observation {World : Type}
        (callback : option (string -> World -> World)) (remaining : nat)
        (iteration : Z) (full_response : list string) (s : state World)
        (r tool_name args : string) :
  fst (llm_request s) = Returned r ->
  Text.contains "Answer:" r = false ->
  Text.contains "PAUSE" r = true ->
  _parse_action r = Some (tool_name, args) ->
  lookup tool_name (tools (self s)) = None ->
  exists s2 evs,
    loop_body callback (iteration + 1) full_response s
    = (Returned (full_response ++ [r], None), s2) /\
    messages (self s2)
    = messages (self s)
        ++ [Message assistant r;
            Message user
              ("Observation: Tool '" ++ tool_name
                 ++ "' not found. Available tools: "
                 ++ Text.join ", " (keys (tools (self s))))%string] /\
    trace s2 = trace s ++ evs /\
    llm_results evs = [Returned r] /\
    executed evs = [] /\
    while_loop callback (S remaining) iteration full_response s
    = while_loop callback remaining (iteration + 1) (full_response ++ [r]) s2.
Proof.
  intros R NA P A L.
  destruct (loop_body_observes callback remaining iteration full_response
                               s R NA)
    as (s1 & s2 & evs & Tools & _ & B & W & Msgs & T & LL & X).
  exists s2, evs.
  unfold observation_for in Msgs. unfold dispatched in X.
  rewrite P, A, Tools, L in Msgs, X. auto 10.
Qed.

Lemma unknown_tool_observation_witness :
  let r := ("Action: get_time: London" ++ LF ++ "PAUSE")%string in
  let s := Script.start 10
             [Message system "You run in a loop.";
              Message user "Question: What time is it in London?"]
             [Returned r] in
  exists s2 evs,
    loop_body None 1 [] s = (Returned ([r], None), s2) /\
    messages (self s2)
    = messages (self s)
        ++ [Message assistant r;
            Message user
              "Observation: Tool 'get_time' not found. Available tools: get_weather, calculate"]
    /\ trace s2 = trace s ++ evs /\ llm_results evs = [Returned r]
    /\ executed evs = []
    /\ while_loop None 1 0 [] s
       = (Returned (r ++ LF
                      ++ "Exceeded maximum iterations without reaching an answer.")
                   %string, s2).
Proof.
  intros r s.
  apply (@unknown_tool_observation Script.World None 0 0 [] s r
           "get_time" "London"); reflexivity.
Defined.

(** C6.  A reply without [Answer:] from which nothing can be dispatched,
    because it does not contain [PAUSE] or because no action can be parsed
    from it, is answered by a fixed text, appended by the body of the loop
    as the next user turn right after the reply: the text asking for the
    format of an action when the reply contains [PAUSE], and the text asking
    for an action followed by [PAUSE] when it does not.  No tool is
    executed and the loop goes on from the state the body leaves. *)
Theorem malformed_reply_corrected {World : Type}
        (callback : option (string -> World -> World)) (remaining : nat)
        (iteration : Z) (full_response : list string) (s : state World)
        (r : string) :
  fst (llm_request s) = Returned r ->
  Text.contains "Answer:" r = false ->
  (Text.contains "PAUSE" r = true -> _parse_action r = None) ->
  exists s2 evs,
    loop_body callback (iteration + 1) full_response s
    = (Returned (full_response ++ [r], None), s2) /\
    messages (self s2)
    = messages (self s)
        ++ [Message assistant r;
            Message user
              (if Text.contains "PAUSE" r
               then "Observation: Could not parse action. Please use the format 'Action: tool_name: arguments'"
               else "Observation: Expected 'Action: tool_name: arguments' followed by 'PAUSE'. Please follow the format.")
              %string] /\
    trace s2 = trace s ++ evs /\
    llm_results evs = [Returned r] /\
    executed evs = [] /\
    while_loop callback (S remaining) iteration full_response s
    = while_loop callback remaining (iteration + 1) (full_response ++ [r]) s2.
Proof.
  intros R NA M.
  destruct (loop_body_observes callback remaining iteration full_response
                               s R NA)
    as (s1 & s2 & evs & _ & _ & B & W & Msgs & T & LL & X).
  exists s2, evs.
  unfold observation_for in Msgs. unfold dispatched in X.
  destruct (Text.contains "PAUSE" r).
  - rewrite (M eq_refl) in Msgs, X. auto 10.
  - auto 10.
Qed.

Lemma malformed_reply_corrected_witness :
  let r1 := "Thought: I should look it up. PAUSE"%string in
  let r2 := "Thought: I should look up the time in London."%string in
  let s (r : string) :=
    Script.start 10
      [Message system "You run in a loop.";
       Message user "Question: What time is it in London?"]
      [Returned r] in
  (exists s2 evs,
     loop_body None 1 [] (s r1) = (Returned ([r1], None), s2) /\
     messages (self s2)
     = messages (self (s r1))
         ++ [Message assistant r1;
             Message user
               "Observation: Could not parse action. Please use the format 'Action: tool_name: arguments'"]
     /\ trace s2 = trace (s r1) ++ evs /\ llm_results evs = [Returned r1]
     /\ executed evs = []
     /\ while_loop None 1 0 [] (s r1)
        = (Returned (r1 ++ LF
                       ++ "Exceeded maximum iterations without reaching an answer.")
                    %string, s2)) /\
  (exists s2 evs,
     loop_body None 1 [] (s r2) = (Returned ([r2], None), s2) /\
     messages (self s2)
     = messages (self (s r2))
         ++ [Message assistant r2;
             Message user
               "Observation: Expected 'Action: tool_name: arguments' followed by 'PAUSE'. Please follow the format."]
     /\ trace s2 = trace (s r2) ++ evs /\ llm_results evs = [Returned r2]
     /\ executed evs = []
     /\ while_loop None 1 0 [] (s r2)
        = (Returned (r2 ++ LF
                       ++ "Exceeded maximum iterations without reaching an answer.")
                    %string, s2)).
Proof.
  intros r1 r2 s. split.
  - apply (@malformed_reply_corrected Script.World None 0 0 [] (s r1) r1);
      reflexivity.
  - apply (@malformed_reply_corrected Script.World None 0 0 [] (s r2) r2);
      solve [reflexivity | discriminate].
Defined.

(** ** The action line *)

Section Parser.

Lemma span_app (p : ascii -> bool) (run rest : string) :
  Text.all p run = true ->
  match rest with
  | EmptyString => True
  | String c _ => p c = false
  end ->
  Text.span p (run ++ rest) = (run, rest).
Proof.
  intros A R. induction run as [|c run IH]; cbn [append Text.span].
  - destruct rest as [|c rest]; cbn [Text.span]; [reflexivity|].
    now rewrite R.
  - cbn [Text.all] in A. apply andb_true_iff in A as [-> A].
    now rewrite (IH A).
Qed.

Lemma re_search_here (s : string) (groups : string * string) :
  match_action_at s = Some groups -> re_search_action s = Some groups.
Proof. intros H. destruct s; cbn [re_search_action]; now rewrite H. Qed.

(** An action line at the start of the reply is parsed into the name and
    the argument text as they are written; the name may mix upper and
    lower case. *)
Lemma parse_action_line (tool args rest : string) :
  tool <> ""%string -> Text.all is_name_char tool = true ->
  args <> ""%string -> Text.all is_dot_char args = true ->
  ends_line rest = true ->
  _parse_action ("Action: " ++ tool ++ ": " ++ args ++ rest)%string
  = Some (tool, args).
Proof.
  intros NT AT NA AA E. unfold _parse_action. apply re_search_here.
  unfold match_action_at.
  change (match_literal "Action: " ("Action: " ++ tool ++ ": " ++ args ++ rest))
    with (Some (tool ++ ": " ++ args ++ rest)%string).
  cbv beta iota.
  rewrite (span_app is_name_char tool (": " ++ args ++ rest) AT)
    by reflexivity.
  destruct (String.eqb_spec tool "") as [->|_]; [now elim NT|].
  change (match_literal ": " (": " ++ args ++ rest))
    with (Some (args ++ rest)%string).
  cbv beta iota.
  rewrite (span_app is_dot_char args rest AA).
  - destruct (String.eqb_spec args "") as [->|_]; [now elim NA | reflexivity].
  - destruct rest as [|c rest]; [exact I|].
    cbn [ends_line] in E. now apply negb_true_iff in E.
Qed.

End Parser.

(** ** How a tool name is matched *)

Lemma lookup_in {World : Type} (key : string) (d : list (string * Tool World))
      (t : Tool World) :
  lookup key d = Some t -> In (key, t) d.
Proof.
  induction d as [|[k t'] d IH]; [discriminate|].
  cbn [lookup]. destruct (String.eqb_spec key k) as [->|_].
  - intros E. injection E as ->. now left.
  - intros H. right. now apply IH.
Qed.

Lemma lookup_not_in {World : Type} (key : string)
      (d : list (string * Tool World)) :
  lookup key d = None -> ~ In key (keys d).
Proof.
  induction d as [|[k t] d IH]; [intros _ []|].
  cbn [lookup]. destruct (String.eqb_spec key k) as [->|N]; [discriminate|].
  intros H [E|I]; [now elim N | now apply IH].
Qed.

(** C4, as the code has it.  The name parsed from the action line is looked
    up in the registry as it is written, letter case included.  When it is
    itself a key, the body of the loop executes the tool registered under
    it with the argument text, in the world the callback left, and appends
    the observation for its result; when it is not a key (also when it
    differs from a key in letter case only) no tool is executed and the
    tool-not-found observation, with the name as written, is appended.
    The loop goes on from the state the body leaves. *)
Theorem tool_name_matched_exactly {World : Type}
        (callback : option (string -> World -> World)) (remaining : nat)
        (iteration : Z) (full_response : list string) (s : state World)
        (r tool_name args : string) :
  fst (llm_request s) = Returned r ->
  Text.contains "Answer:" r = false ->
  Text.contains "PAUSE" r = true ->
  _parse_action r = Some (tool_name, args) ->
  exists s2 evs,
    loop_body callback (iteration + 1) full_response s
    = (Returned (full_response ++ [r], None), s2) /\
    trace s2 = trace s ++ evs /\
    llm_results evs = [Returned r] /\
    while_loop callback (S remaining) iteration full_response s
    = while_loop callback remaining (iteration + 1) (full_response ++ [r]) s2
    /\
    match lookup tool_name (tools (self s)) with
    | Some t =>
        In (tool_name, t) (tools (self s)) /\
        executed evs = [(name t, args)] /\
        messages (self s2)
        = messages (self s)
            ++ [Message assistant r;
                Message user
                  (tool_observation tool_name
                     match
                       fst (execute t args
                                    (callback_world callback r
                                                    (snd (llm_request s))))
                     with
                     | Returned v => v
                     | Raised _ => error_result t args
                     end)]
    | None =>
        ~ In tool_name (keys (tools (self s))) /\
        executed evs = [] /\
        messages (self s2)
        = messages (self s)
            ++ [Message assistant r;
                Message user
                  ("Observation: Tool '" ++ tool_name
                     ++ "' not found. Available tools: "
                     ++ Text.join ", " (keys (tools (self s))))%string]
    end.
Proof.
  intros R NA P A.
  destruct (loop_body_observes callback remaining iteration full_response
                               s R NA)
    as (s1 & s2 & evs & Tools & W1 & B & W & Msgs & T & LL & X).
  exists s2, evs.
  split; [exact B|]. split; [exact T|]. split; [exact LL|]. split; [exact W|].
  unfold observation_for in Msgs. unfold dispatched in X.
  rewrite P, A, Tools in Msgs, X.
  destruct (lookup tool_name (tools (self s))) as [t|] eqn:L.
  - rewrite W1 in Msgs. split; [now apply lookup_in|]. now split.
  - split; [now apply lookup_not_in|]. now split.
Qed.

Lemma tool_name_matched_exactly_witness :
  let r1 := ("Action: Get_Weather: London" ++ LF ++ "PAUSE")%string in
  let r2 := ("Action: get_weather: London" ++ LF ++ "PAUSE")%string in
  let s (r : string) :=
    Script.start 10
      [Message system "You run in a loop.";
       Message user "Question: What's the weather in London?"]
      [Returned r] in
  (exists s2 evs,
     loop_body None 1 [] (s r1) = (Returned ([r1], None), s2) /\
     trace s2 = trace (s r1) ++ evs /\
     llm_results evs = [Returned r1] /\
     while_loop None 1 0 [] (s r1)
     = (Returned (r1 ++ LF
                    ++ "Exceeded maximum iterations without reaching an answer.")
                 %string, s2) /\
     ~ In "Get_Weather"%string (keys (tools (self (s r1)))) /\
     executed evs = [] /\
     messages (self s2)
     = messages (self (s r1))
         ++ [Message assistant r1;
             Message user
               "Observation: Tool 'Get_Weather' not found. Available tools: get_weather, calculate"])
  /\
  (exists s2 evs,
     loop_body None 1 [] (s r2) = (Returned ([r2], None), s2) /\
     trace s2 = trace (s r2) ++ evs /\
     llm_results evs = [Returned r2] /\
     while_loop None 1 0 [] (s r2)
     = (Returned (r2 ++ LF
                    ++ "Exceeded maximum iterations without reaching an answer.")
                 %string, s2) /\
     In ("get_weather"%string, Script.get_weather) (tools (self (s r2))) /\
     executed evs = [("get_weather", "London")%string] /\
     messages (self s2)
     = messages (self (s r2))
         ++ [Message assistant r2;
             Message user
               ("Observation: {" ++ LF ++ "  " ++ DQ ++ "city" ++ DQ ++ ": "
                  ++ DQ ++ "London" ++ DQ ++ "," ++ LF ++ "  " ++ DQ
                  ++ "temperature" ++ DQ ++ ": 18.5" ++ LF ++ "}")%string]).
Proof.
  intros r1 r2 s. split.
  - apply (@tool_name_matched_exactly Script.World None 0 0 [] (s r1) r1
             "Get_Weather" "London"); reflexivity.
  - apply (@tool_name_matched_exactly Script.World None 0 0 [] (s r2) r2
             "get_weather" "London"); reflexivity.
Defined.

(** C4, as the specification words it, fails.  The registry holds the key
    [get_weather]; the reply names [Get_Weather], which the pattern accepts
    and which differs from the key in letter case only.  No tool is
    executed, and the observation injected is the tool-not-found one. *)
Lemma case_insensitive_match_counterexample :
  let r := ("Action: Get_Weather: London" ++ LF ++ "PAUSE")%string in
  let s := Script.start 10 [] [Returned r] in
  let result := run_loop "What's the weather in London?" None (Some 1) false
                         s in
  Text.contains "PAUSE" r = true /\
  _parse_action r = Some ("Get_Weather", "London")%string /\
  Text.lower "Get_Weather" = Text.lower "get_weather" /\
  (exists t, lookup "get_weather" (tools (self s)) = Some t) /\
  executed (trace (snd result)) <> [("get_weather", "London")%string] /\
  executed (trace (snd result)) = [] /\
  messages (self (snd result))
  = [Message system (system_prompt (self s));
     Message user "Question: What's the weather in London?";
     Message assistant r;
     Message user
       "Observation: Tool 'Get_Weather' not found. Available tools: get_weather, calculate"].
Proof.
  intros r s result.
  split; [reflexivity|]. split; [reflexivity|]. split; [reflexivity|].
  split; [eexists; reflexivity|]. split; [discriminate|].
  split; reflexivity.
Qed.

(** ** The conversation *)

Lemma last_role_none (l : list message) : last_role l = None -> l = [].
Proof.
  unfold last_role. destruct (rev l) as [|m l'] eqn:E; [|discriminate].
  intros _. apply (f_equal (@rev message)) in E.
  now rewrite rev_involutive in E.
Qed.

(** A conversation that alternates from [user] on and does not end on a user
    turn has as many user turns as assistant turns. *)
Lemma closed_even (l : list message) :
  alternates user l = true ->
  last_role l <> Some user ->
  Nat.even (List.length l) = true.
Proof.
  intros A L. destruct (rev l) as [|m l'] eqn:E.
  - apply (f_equal (@rev message)) in E. rewrite rev_involutive in E.
    now subst l.
  - apply (f_equal (@rev message)) in E. rewrite rev_involutive in E.
    simpl in E. subst l. rewrite last_role_snoc in L.
    rewrite alternates_app in A. apply andb_true_iff in A as [_ A].
    rewrite length_app, Nat.add_1_r, Nat.even_succ, <- Nat.negb_even.
    cbn [alternates flip] in A.
    destruct (Nat.even (List.length (rev l'))); [|reflexivity].
    destruct (msg_role m); try discriminate. now elim L.
Qed.

(** The question and the turns of a run, put after a closed conversation,
    give a well-formed conversation, which ends as the run's turns do. *)
Lemma well_formed_extended (base new : list message) (question : string) :
  closed base = true ->
  alternates assistant new = true ->
  well_formed (base ++ Message user question :: new) = true /\
  last_role (base ++ Message user question :: new)
  = match new with [] => Some user | _ => last_role new end.
Proof.
  intros C A. unfold closed in C. apply andb_true_iff in C as [WF LR].
  destruct base as [|m l]; [discriminate|].
  cbn [well_formed] in WF. apply andb_true_iff in WF as [Sys Alt].
  assert (Ev : Nat.even (List.length l) = true).
  { apply closed_even; [exact Alt|].
    destruct l as [|x l]; [discriminate|].
    change (m :: x :: l) with ([m] ++ x :: l) in LR.
    rewrite last_role_app in LR by discriminate.
    intros E. rewrite E in LR. discriminate. }
  split.
  - cbn [app well_formed]. rewrite Sys, alternates_app, Alt, Ev.
    cbn [alternates role_eqb msg_role flip andb]. exact A.
  - destruct new as [|x new].
    + apply last_role_snoc.
    + change (Message user question :: x :: new)
        with ([Message user question] ++ x :: new).
      rewrite app_assoc. apply last_role_app. discriminate.
Qed.

Lemma seeded_closed {World : Type} (reset_conversation : bool)
      (a : Agent World) :
  reset_conversation = true \/ messages a = [] \/ closed (messages a) = true ->
  closed (seeded reset_conversation a) = true.
Proof.
  unfold seeded. intros [->|[E|C]]; [reflexivity| |].
  - rewrite E, orb_true_r. reflexivity.
  - destruct reset_conversation; [reflexivity|].
    destruct (messages a); [reflexivity | exact C].
Qed.

(** C7, as the code has it.  A call of [run_loop] that resets, or that
    finds no conversation, or that finds a well-formed conversation not
    ending on a user turn, leaves a conversation whose first turn is the
    system turn and whose later turns alternate strictly, a user turn first.
    That conversation again does not end on a user turn exactly when a reply
    of the run contained [Answer:]: so the alternation is an invariant of
    any sequence of calls that each end on an answer. *)
Theorem conversation_alternates {World : Type} (query : string)
        (callback : option (string -> World -> World))
        (max_iterations : option Z) (reset_conversation : bool)
        (s s' : state World) (res : outcome string) (evs : list event) :
  run_loop query callback max_iterations reset_conversation s = (res, s') ->
  trace s' = trace s ++ evs ->
  reset_conversation = true \/ messages (self s) = [] \/
  closed (messages (self s)) = true ->
  well_formed (messages (self s')) = true /\
  (exists rest,
     messages (self s')
     = (if reset_conversation || is_empty (messages (self s))
        then Message system (system_prompt (self s))
        else hd (Message system (system_prompt (self s)))
                (messages (self s))) :: rest) /\
  (closed (messages (self s')) = true <->
   exists r, In (Returned r) (llm_results evs) /\
             Text.contains "Answer:" r = true).
Proof.
  intros Run T Start.
  destruct (run_loop_run query callback max_iterations reset_conversation s)
    as (res0 & s0 & evs0 & new & Run0 & S' & T0 & Shape).
  rewrite Run in Run0. injection Run0 as <- <-.
  rewrite T in T0. apply app_inv_head in T0. subst evs0.
  apply (f_equal (@messages World)) in S'. cbn [messages set_messages] in S'.
  pose proof (@seeded_closed World reset_conversation (self s) Start) as C.
  assert (Alt : alternates assistant new = true) by now destruct Shape.
  destruct (@well_formed_extended (seeded reset_conversation (self s)) new
              ("Question: " ++ query) C Alt) as [WF LR].
  rewrite <- S' in WF, LR.
  split; [exact WF|]. split.
  - rewrite S'. unfold seeded.
    destruct (reset_conversation || is_empty (messages (self s))) eqn:E.
    + eexists. reflexivity.
    + destruct (messages (self s)) as [|m l].
      * now rewrite orb_true_r in E.
      * eexists. reflexivity.
  - unfold closed. rewrite WF, LR. cbn [andb].
    destruct Shape as [rs r0 before request after new NR A0 Len LB [QL QX] _ LN
                      |rs evs new NR Len LE _ LN
                      |rs e evs new NR Len LE _ LN].
    + assert (N : new <> []) by (intros ->; discriminate).
      destruct new as [|x new]; [now elim N|]. rewrite LN. split; [|auto].
      intros _. exists r0. split; [|exact A0].
      rewrite llm_results_app. apply in_or_app. right. now left.
    + split.
      * intros H. exfalso. destruct new as [|x new]; [discriminate|].
        destruct (@alternates_last_role assistant (x :: new))
          as [N|[U|A]]; auto; try discriminate.
        -- apply last_role_none in N. discriminate.
        -- rewrite U in H. discriminate.
      * intros (r & I & A). rewrite LE in I. apply in_returned in I.
        exact (False_ind _ (@no_answer_in r rs NR I A)).
    + split.
      * intros H. exfalso. destruct new as [|x new]; [discriminate|].
        destruct (@alternates_last_role assistant (x :: new))
          as [N|[U|A]]; auto; try discriminate.
        -- apply last_role_none in N. discriminate.
        -- rewrite U in H. discriminate.
      * intros (r & I & A). rewrite LE in I.
        apply in_app_or in I as [I|[I|[]]]; [|discriminate].
        apply in_returned in I.
        exact (False_ind _ (@no_answer_in r rs NR I A)).
Qed.

Lemma conversation_alternates_witness :
  let s := Script.start 10 []
             [Returned ("Action: get_weather: London" ++ LF ++ "PAUSE")%string;
              Returned "Answer: It is 18.5 degrees in London."] in
  let result := run_loop "What's the weather in London?" None None false s in
  (messages (self s) = [] /\
   map msg_role (messages (self (snd result)))
   = [system; user; assistant; user; assistant]) /\
  well_formed (messages (self (snd result))) = true.
Proof.
  intros s result. split; [split; reflexivity|].
  refine (proj1 (@conversation_alternates Script.World
                   "What's the weather in London?" None None false s
                   (snd result) (fst result) (trace (snd result)) _ _ _)).
  - reflexivity.
  - reflexivity.
  - right. left. reflexivity.
Defined.

(** C7, as the specification words it, fails.  With a ceiling of one pass
    the first call ends on the budget, its observation being the last turn;
    the second call, without reset, appends its question right after it, and
    two user turns follow each other. *)
Lemma strict_alternation_counterexample :
  let s0 := Script.start 1 []
              [Returned "Thought: I am not sure."; Returned "Answer: Hello!"] in
  let s1 := snd (run_loop "hello" None None false s0) in
  let s2 := snd (run_loop "are you there?" None None false s1) in
  map msg_role (messages (self s1)) = [system; user; assistant; user] /\
  map msg_role (messages (self s2))
  = [system; user; assistant; user; user; assistant] /\
  well_formed (messages (self s2)) = false.
Proof.
  intros s0 s1 s2. split; [reflexivity|]. split; reflexivity.
Qed.

(** C8.  Of two calls of [run_loop] in a row, the second without reset, the
    second leaves the turns of the first where they are and appends its own:
    its question, then its replies and observations.  The first call starts
    from the system turn alone when it is asked to reset or finds no turn,
    and from the conversation as it is otherwise. *)
Theorem conversation_persists {World : Type} (query1 query2 : string)
        (callback1 callback2 : option (string -> World -> World))
        (max_iterations1 max_iterations2 : option Z)
        (reset_conversation : bool)
        (s s1 s2 : state World) (res1 res2 : outcome string) :
  run_loop query1 callback1 max_iterations1 reset_conversation s
  = (res1, s1) ->
  run_loop query2 callback2 max_iterations2 false s1 = (res2, s2) ->
  exists new1 new2,
    messages (self s1)
    = (if reset_conversation || is_empty (messages (self s))
       then [Message system (system_prompt (self s))]
       else messages (self s))
        ++ Message user ("Question: " ++ query1)%string :: new1 /\
    messages (self s2)
    = messages (self s1)
        ++ Message user ("Question: " ++ query2)%string :: new2.
Proof.
  intros Run1 Run2.
  destruct (run_loop_run query1 callback1 max_iterations1 reset_conversation s)
    as (r1 & t1 & evs1 & new1 & E1 & S1 & _).
  rewrite Run1 in E1. injection E1 as <- <-.
  destruct (run_loop_run query2 callback2 max_iterations2 false s1)
    as (r2 & t2 & evs2 & new2 & E2 & S2 & _).
  rewrite Run2 in E2. injection E2 as <- <-.
  apply (f_equal (@messages World)) in S1, S2.
  cbn [messages set_messages] in S1, S2.
  exists new1, new2. split; [exact S1|].
  rewrite S2. unfold seeded. cbn [orb].
  destruct (messages (self s1)) as [|m l]; [|reflexivity].
  destruct (seeded reset_conversation (self s)); discriminate.
Qed.

Lemma conversation_persists_witness :
  let s := Script.start 10 []
             [Returned ("Action: get_weather: London" ++ LF ++ "PAUSE")%string;
              Returned "Answer: It is 18.5 degrees in London.";
              Returned "Answer: Still 18.5 degrees."] in
  let first := run_loop "What's the weather in London?" None None false s in
  let second := run_loop "And now?" None None false (snd first) in
  exists new1 new2,
    messages (self (snd first))
    = [Message system (system_prompt (self s))]
        ++ Message user "Question: What's the weather in London?" :: new1 /\
    messages (self (snd second))
    = messages (self (snd first))
        ++ Message user "Question: And now?" :: new2.
Proof.
  intros s first second.
  apply (@conversation_persists Script.World
           "What's the weather in London?" "And now?" None None None None
           false s (snd first) (snd second) (fst first) (fst second));
    reflexivity.
Defined.

(** ** Runs of the scripted instance *)

(** The observation for a weather lookup is the indented rendering of the
    tool's mapping. *)
Example london_observation :
  let s := Script.start 10 []
             [Returned ("Thought: I need the current weather." ++ LF
                          ++ "Action: get_weather: London" ++ LF ++ "PAUSE")
                %string] in
  let result := run_loop "What's the weather in London?" None (Some 1) false
                         s in
  exists observation,
    nth_error (messages (self (snd result))) 3
    = Some (Message user ("Observation: " ++ observation)) /\
    Json.dumps Script.london = Returned observation /\
    Text.contains (Json.encode_str "city" ++ ": " ++ Json.encode_str "London")
                  observation = true /\
    Text.contains (Json.encode_str "temperature" ++ ": 18.5") observation
    = true /\
    executed (trace (snd result)) = [("get_weather", "London")%string].
Proof.
  eexists. split; [reflexivity|]. repeat split.
Qed.

(** A greeting answered at once ends the run on its first pass. *)
Example hello_answered :
  let s := Script.start 10 [] [Returned "Answer: Hi there!"] in
  let result := run_loop "hello" None None false s in
  fst result = Returned "Answer: Hi there!"%string /\
  llm_calls (trace (snd result)) = 1%nat /\
  executed (trace (snd result)) = [].
Proof. repeat split. Qed.

(** A tool that raises gives an observation, and the run goes on. *)
Example failing_tool_observed :
  let s := Script.start 10 []
             [Returned ("Action: calculate: 1 +" ++ LF ++ "PAUSE")%string;
              Returned "Answer: I cannot compute that."] in
  let result := run_loop "What is 1 + ?" None None false s in
  fst result
  = Returned ("Action: calculate: 1 +" ++ LF ++ "PAUSE" ++ LF
                ++ "Answer: I cannot compute that.")%string /\
  exists observation,
    nth_error (messages (self (snd result))) 3
    = Some (Message user ("Observation: " ++ observation)) /\
    Json.dumps (error_result Script.calculate "1 +") = Returned observation.
Proof. split; [reflexivity|]. eexists. split; reflexivity. Qed.

(** A result that cannot be rendered gives the observation of line 270. *)
Example unrenderable_result_observed :
  let a := Script.agent 10 [] in
  let s := {| self :=
                {| tools := [("clock", Script.clock)]; model := model a;
                   temperature := temperature a; max_iterations := 1;
                   debug := true; messages := [];
                   groq_client := groq_client a;
                   system_prompt := system_prompt a |};
              world := [Returned ("Action: clock: London" ++ LF ++ "PAUSE")
                          %string];
              trace := [] |} in
  let result := run_loop "What time is it?" None None false s in
  nth_error (messages (self (snd result))) 3
  = Some (Message user
            "Observation: Error executing tool 'clock': Object of type datetime is not JSON serializable")
  /\
  In (EvPrint (LF ++ "--- Iteration 1 ---")) (trace (snd result)).
Proof.
  split; [reflexivity|]. vm_compute. right. left. reflexivity.
Qed.

(** Two runs that both end on an answer leave a conversation that
    alternates, ready for a third question. *)
Example answered_runs_alternate :
  let s := Script.start 10 []
             [Returned ("Action: get_weather: London" ++ LF ++ "PAUSE")%string;
              Returned "Answer: It is 18.5 degrees in London.";
              Returned "Answer: Still 18.5 degrees."] in
  let s1 := snd (run_loop "What's the weather in London?" None None false s) in
  let s2 := snd (run_loop "And now?" None None false s1) in
  closed (messages (self s1)) = true /\
  closed (messages (self s2)) = true /\
  map msg_role (messages (self s2))
  = [system; user; assistant; user; assistant; user; assistant].
Proof. repeat split. Qed.

(** * Further properties *)

(** ** What [_parse_action] finds *)

Lemma code_of_nat (n : nat) : (n < 256)%nat -> Text.code (ascii_of_nat n) = n.
Proof. intros H. unfold Text.code. now apply nat_ascii_embedding. Qed.

(** Lowering changes upper-case letters only, and into lower-case ones. *)
Lemma to_lower_fixed (c d : ascii) :
  Text.to_lower c = d -> Text.is_lower d = false -> c = d.
Proof.
  unfold Text.to_lower. destruct (Text.is_upper c) eqn:U; [|auto].
  intros <- L. exfalso.
  unfold Text.is_upper, Text.in_range in U.
  apply andb_true_iff in U as [U1 U2].
  apply Nat.leb_le in U1, U2.
  unfold Text.is_lower, Text.in_range in L.
  rewrite code_of_nat in L by lia.
  apply andb_false_iff in L as [L|L]; apply Nat.leb_gt in L; lia.
Qed.

Lemma match_literal_sound (lit s rest : string) :
  match_literal lit s = Some rest ->
  exists x, s = (x ++ rest)%string /\ Text.lower x = Text.lower lit.
Proof.
  revert s. induction lit as [|a lit IH]; intros s H.
  - exists ""%string. cbn in H. injection H as ->. now split.
  - destruct s as [|b s]; [discriminate|]. cbn [match_literal] in H.
    destruct (Text.eqb_nocase a b) eqn:E; [|discriminate].
    destruct (IH s H) as (x & -> & L). exists (String b x).
    split; [reflexivity|]. cbn [Text.lower]. rewrite L.
    unfold Text.eqb_nocase in E. apply Ascii.eqb_eq in E. now rewrite E.
Qed.

Lemma match_literal_complete (lit x rest : string) :
  Text.lower x = Text.lower lit ->
  match_literal lit (x ++ rest) = Some rest.
Proof.
  revert x. induction lit as [|a lit IH]; intros x L.
  - destruct x; [reflexivity | discriminate].
  - destruct x as [|b x]; [discriminate|].
    cbn [Text.lower] in L. injection L as C L.
    cbn [append match_literal]. unfold Text.eqb_nocase.
    rewrite C, Ascii.eqb_refl. now apply IH.
Qed.

Lemma span_sound (p : ascii -> bool) (s run rest : string) :
  Text.span p s = (run, rest) ->
  s = (run ++ rest)%string /\ Text.all p run = true /\
  match rest with
  | EmptyString => True
  | String c _ => p c = false
  end.
Proof.
  revert run rest. induction s as [|c s IH]; intros run rest H.
  - cbn in H. injection H as <- <-. now repeat split.
  - cbn [Text.span] in H. destruct (p c) eqn:P.
    + destruct (Text.span p s) as [run' rest'] eqn:E.
      injection H as <- <-. destruct (IH run' rest' eq_refl) as (-> & A & R).
      repeat split; auto. cbn [Text.all]. now rewrite P, A.
    + injection H as <- <-. now repeat split.
Qed.

Lemma lower_colon_space (x : string) :
  Text.lower x = Text.lower ": " -> x = ": "%string.
Proof.
  destruct x as [|a [|b [|c x]]]; try discriminate.
  cbn. intros H. injection H as A B.
  apply to_lower_fixed in A; [|reflexivity].
  apply to_lower_fixed in B; [|reflexivity].
  now subst.
Qed.

Lemma match_action_at_sound (s tool args : string) :
  match_action_at s = Some (tool, args) ->
  exists lit post,
    s = (lit ++ tool ++ ": " ++ args ++ post)%string /\
    Text.lower lit = "action: "%string /\
    tool <> ""%string /\ Text.all is_name_char tool = true /\
    args <> ""%string /\ Text.all is_dot_char args = true /\
    ends_line post = true.
Proof.
  unfold match_action_at. intros H.
  destruct (match_literal "Action: " s) as [s1|] eqn:L1; [|discriminate].
  destruct (Text.span is_name_char s1) as [t s2] eqn:S1.
  destruct (String.eqb_spec t "") as [|NT]; [discriminate|].
  destruct (match_literal ": " s2) as [s3|] eqn:L2; [|discriminate].
  destruct (Text.span is_dot_char s3) as [a post] eqn:S2.
  destruct (String.eqb_spec a "") as [|NA]; [discriminate|].
  injection H as <- <-.
  destruct (match_literal_sound _ _ L1) as (lit & -> & LL).
  destruct (span_sound _ _ S1) as (-> & AT & _).
  destruct (match_literal_sound _ _ L2) as (sep & -> & LS).
  apply lower_colon_space in LS. subst sep.
  destruct (span_sound _ _ S2) as (-> & AA & E).
  exists lit, post. repeat split; auto.
  destruct post as [|c post]; [reflexivity|].
  cbn [ends_line]. now rewrite E.
Qed.

Lemma re_search_sound (s : string) (groups : string * string) :
  re_search_action s = Some groups ->
  exists pre post, s = (pre ++ post)%string /\
                   match_action_at post = Some groups.
Proof.
  induction s as [|c s IH]; cbn [re_search_action].
  - destruct (match_action_at "") eqn:E; [|discriminate].
    intros H. injection H as <-. now exists ""%string, ""%string.
  - destruct (match_action_at (String c s)) eqn:E.
    + intros H. injection H as <-. now exists ""%string, (String c s).
    + intros H. destruct (IH H) as (pre & post & -> & M).
      now exists (String c pre), post.
Qed.

Lemma re_search_found (pre s : string) :
  re_search_action s <> None -> re_search_action (pre ++ s) <> None.
Proof.
  intros H. induction pre as [|c pre IH]; [exact H|].
  cbn [append re_search_action].
  destruct (match_action_at (String c (pre ++ s))); [discriminate | exact IH].
Qed.

(** X1.  Whatever [_parse_action] returns stands in the reply: after some
    spelling of [Action: ] come the name, made of letters and underscores
    only and not empty, then [: ], then the argument text, not empty and
    free of line feeds, which runs to the end of its line. *)
Theorem parse_action_sound (response tool args : string) :
  _parse_action response = Some (tool, args) ->
  exists pre lit post,
    response = (pre ++ lit ++ tool ++ ": " ++ args ++ post)%string /\
    Text.lower lit = "action: "%string /\
    tool <> ""%string /\ Text.all is_name_char tool = true /\
    args <> ""%string /\ Text.all is_dot_char args = true /\
    ends_line post = true.
Proof.
  intros H. destruct (re_search_sound _ H) as (pre & s & -> & M).
  destruct (match_action_at_sound _ M) as (lit & post & -> & R).
  now exists pre, lit, post.
Qed.

Lemma parse_action_sound_witness :
  let response := ("Thought: rain?" ++ LF ++ "ACTION: Get_forecast: New York"
                     ++ LF ++ "PAUSE")%string in
  exists pre lit post,
    response = (pre ++ lit ++ "Get_forecast" ++ ": " ++ "New York" ++ post)
                 %string /\
    Text.lower lit = "action: "%string /\
    "Get_forecast"%string <> ""%string /\
    Text.all is_name_char "Get_forecast" = true /\
    "New York"%string <> ""%string /\
    Text.all is_dot_char "New York" = true /\
    ends_line post = true.
Proof.
  intros response.
  apply (@parse_action_sound response "Get_forecast" "New York").
  reflexivity.
Defined.

(** X2.  [_parse_action] finds an action whenever the reply holds an action
    line, wherever it stands: some spelling of [Action: ], a name of letters
    and underscores, [: ] and an argument text of at least one character
    that runs to the end of the line.  So the could-not-parse correction is
    given only for replies without such a line. *)
Theorem parse_action_complete (pre lit tool args post : string) :
  Text.lower lit = "action: "%string ->
  tool <> ""%string -> Text.all is_name_char tool = true ->
  args <> ""%string -> Text.all is_dot_char args = true ->
  ends_line post = true ->
  _parse_action (pre ++ lit ++ tool ++ ": " ++ args ++ post)%string <> None.
Proof.
  intros LL NT AT NA AA E. unfold _parse_action. apply re_search_found.
  assert (M : match_action_at (lit ++ tool ++ ": " ++ args ++ post)
              = Some (tool, args)).
  { unfold match_action_at.
    rewrite (@match_literal_complete "Action: " lit _ LL).
    rewrite (span_app is_name_char tool (": " ++ args ++ post) AT)
      by reflexivity.
    destruct (String.eqb_spec tool "") as [->|_]; [now elim NT|].
    rewrite (@match_literal_complete ": " ": " _ eq_refl).
    rewrite (span_app is_dot_char args post AA).
    - destruct (String.eqb_spec args "") as [->|_]; [now elim NA | reflexivity].
    - destruct post as [|c post]; [exact I|].
      cbn [ends_line] in E. now apply negb_true_iff in E. }
  rewrite (re_search_here _ M). discriminate.
Qed.

Lemma parse_action_complete_witness :
  _parse_action ("I will check." ++ LF ++ "action: calculate: 2 * 3" ++ LF
                   ++ "PAUSE")%string <> None.
Proof.
  apply (@parse_action_complete ("I will check." ++ LF) "action: "
           "calculate" "2 * 3" (LF ++ "PAUSE")); try reflexivity;
    discriminate.
Defined.

(** ** The registry and the prompt *)

Section Registry.

Context {World : Type}.

Implicit Types (d : list (string * Tool World)) (t : Tool World).

Lemma lookup_dict_set_same key t d : lookup key (dict_set key t d) = Some t.
Proof.
  induction d as [|[k x] d IH]; cbn [dict_set lookup].
  - now rewrite String.eqb_refl.
  - destruct (String.eqb key k) eqn:E; cbn [lookup]; rewrite E; auto.
Qed.

Lemma lookup_dict_set_other key k t d :
  k <> key -> lookup k (dict_set key t d) = lookup k d.
Proof.
  intros N. induction d as [|[k' x] d IH]; cbn [dict_set lookup].
  - destruct (String.eqb_spec k key); [contradiction | reflexivity].
  - destruct (String.eqb_spec key k') as [->|N']; cbn [lookup].
    + destruct (String.eqb_spec k k'); [contradiction | reflexivity].
    + now rewrite IH.
Qed.

Lemma keys_dict_set key t d :
  keys (dict_set key t d)
  = if existsb (String.eqb key) (keys d) then keys d else keys d ++ [key].
Proof.
  unfold keys. induction d as [|[k x] d IH]; [reflexivity|].
  cbn [dict_set map fst existsb].
  destruct (String.eqb key k); [reflexivity|].
  cbn [map fst orb]. rewrite IH.
  now destruct (existsb (String.eqb key) (map fst d)).
Qed.

Lemma existsb_eqb_in key (l : list string) :
  existsb (String.eqb key) l = true <-> In key l.
Proof.
  rewrite existsb_exists. split.
  - intros (x & I & E). apply String.eqb_eq in E. now subst.
  - intros I. exists key. split; [exact I | apply String.eqb_refl].
Qed.

Lemma nodup_dict_set key t d : NoDup (keys d) -> NoDup (keys (dict_set key t d)).
Proof.
  intros N. rewrite keys_dict_set.
  destruct (existsb (String.eqb key) (keys d)) eqn:E; [exact N|].
  apply NoDup_app; repeat constructor; auto.
  intros x I [<-|[]].
  apply existsb_eqb_in in I. congruence.
Qed.

Lemma lstrip_app (a b : string) :
  lstrip a <> ""%string -> lstrip (a ++ b) = (lstrip a ++ b)%string.
Proof.
  induction a as [|c a IH]; cbn [lstrip append]; [now intros []|].
  destruct (is_space c); auto.
Qed.

Lemma rstrip_app (a b : string) :
  rstrip b <> ""%string -> rstrip (a ++ b) = (a ++ rstrip b)%string.
Proof.
  intros N. induction a as [|c a IH]; [reflexivity|].
  cbn [append rstrip]. rewrite IH.
  destruct (a ++ rstrip b)%string eqn:E; [|reflexivity].
  destruct a; [now elim N | discriminate].
Qed.

Lemma tools_description_concat d :
  tools_description d = String.concat "" (map prompt_entry d).
Proof.
  unfold tools_description.
  assert (G : forall acc,
             fold_left (fun a item => (a ++ prompt_entry item)%string) d acc
             = (acc ++ String.concat "" (map prompt_entry d))%string).
  { induction d as [|x d IH]; intros acc; cbn [fold_left map].
    - now rewrite append_empty_r.
    - rewrite IH, append_assoc. f_equal.
      destruct (map prompt_entry d); [now rewrite append_empty_r | reflexivity]. }
  exact (G ""%string).
Qed.

Lemma entry_in_concat key t d :
  In (key, t) d ->
  exists a b,
    String.concat "" (map prompt_entry d)
    = (a ++ prompt_entry (key, t) ++ b)%string.
Proof.
  induction d as [|x d IH]; [intros []|].
  assert (C : String.concat "" (map prompt_entry (x :: d))
              = (prompt_entry x ++ String.concat "" (map prompt_entry d))
                  %string).
  { cbn [map]. destruct (map prompt_entry d);
      [now rewrite append_empty_r | reflexivity]. }
  rewrite C. intros [->|I].
  - now exists ""%string, (String.concat "" (map prompt_entry d)).
  - destruct (IH I) as (a & b & ->).
    exists (prompt_entry x ++ a)%string, b. now rewrite append_assoc.
Qed.

Lemma create_system_prompt_shape d :
  _create_system_prompt d
  = (lstrip prompt_head ++ String.concat "" (map prompt_entry d)
       ++ rstrip prompt_tail)%string.
Proof.
  unfold _create_system_prompt, strip.
  rewrite tools_description_concat.
  rewrite lstrip_app by (vm_compute; discriminate).
  assert (T : rstrip prompt_tail <> ""%string) by (vm_compute; discriminate).
  set (td := String.concat "" (map prompt_entry d)).
  assert (R : rstrip (td ++ prompt_tail) = (td ++ rstrip prompt_tail)%string)
    by apply (rstrip_app td prompt_tail T).
  rewrite rstrip_app; rewrite R; [reflexivity|].
  intros E. destruct td; [now apply T | discriminate].
Qed.

Lemma create_system_prompt_entry key t d :
  In (key, t) d ->
  Text.contains (key ++ ":" ++ LF ++ description t ++ LF ++ LF)
                (_create_system_prompt d) = true.
Proof.
  intros I. rewrite create_system_prompt_shape.
  destruct (entry_in_concat key t d I) as (a & b & ->).
  change (key ++ ":" ++ LF ++ description t ++ LF ++ LF)%string
    with (prompt_entry (key, t)).
  replace (lstrip prompt_head ++ (a ++ prompt_entry (key, t) ++ b)
             ++ rstrip prompt_tail)%string
    with ((lstrip prompt_head ++ a) ++ prompt_entry (key, t)
            ++ (b ++ rstrip prompt_tail))%string
    by now rewrite !append_assoc.
  apply contains_app.
Qed.

End Registry.

(** X3.  [add_tool] makes the tool the one registered under its name and
    leaves every other name as it was; the name keeps its place among the
    keys when it was registered already and goes last otherwise, and keys
    that were distinct stay distinct. *)
Theorem add_tool_registers {World : Type} (tool : Tool World)
        (s : state World) :
  let a := self s in
  let a' := self (snd (add_tool tool s)) in
  lookup (name tool) (tools a') = Some tool /\
  (forall key, key <> name tool -> lookup key (tools a') = lookup key (tools a))
  /\
  keys (tools a')
  = (if existsb (String.eqb (name tool)) (keys (tools a))
     then keys (tools a) else keys (tools a) ++ [name tool]) /\
  (NoDup (keys (tools a)) -> NoDup (keys (tools a'))).
Proof.
  cbn [add_tool snd self tools]. split; [apply lookup_dict_set_same|].
  split; [intros key N; now apply lookup_dict_set_other|].
  split; [apply keys_dict_set | apply nodup_dict_set].
Qed.

Lemma add_tool_registers_witness :
  let s := Script.start 10 [] [] in
  let a' := self (snd (add_tool Script.clock s)) in
  NoDup (keys (tools (self s))) /\
  keys (tools a') = ["get_weather"; "calculate"; "clock"]%string /\
  NoDup (keys (tools a')).
Proof.
  intros s a'.
  assert (N : NoDup (keys (tools (self s)))).
  { repeat constructor; cbn; intuition discriminate. }
  destruct (@add_tool_registers Script.World Script.clock s)
    as (_ & _ & K & D).
  split; [exact N|]. split; [exact K | exact (D N)].
Defined.

(** X4.  The system prompt is the fixed preamble, then for every item of the
    registry, in the order of the registry, the key, a colon, a line feed,
    the tool's description and two line feeds, then the fixed example
    session.  [strip] takes nothing away from the entries: it only removes
    the blank start of the preamble and the blank end of the example, so
    the prompt begins with the first sentence of the preamble and contains
    the entry of every registered tool. *)
Theorem system_prompt_lists_tools {World : Type}
        (d : list (string * Tool World)) :
  _create_system_prompt d
  = (lstrip prompt_head ++ String.concat "" (map prompt_entry d)
       ++ rstrip prompt_tail)%string /\
  String.prefix "You run in a loop of Thought, Action, PAUSE, Observation."
                (_create_system_prompt d) = true /\
  forall key t,
    In (key, t) d ->
    Text.contains (key ++ ":" ++ LF ++ description t ++ LF ++ LF)
                  (_create_system_prompt d) = true.
Proof.
  split; [apply create_system_prompt_shape|]. split.
  - rewrite create_system_prompt_shape.
    generalize (String.concat "" (map prompt_entry d) ++ rstrip prompt_tail)
                 %string.
    intros rest. vm_compute. reflexivity.
  - intros key t. apply create_system_prompt_entry.
Qed.

Lemma system_prompt_lists_tools_witness :
  Text.contains ("calculate:" ++ LF
                   ++ "Performs mathematical calculations. Usage: calculate: [expression]"
                   ++ LF ++ LF)
                (_create_system_prompt Script.registry) = true.
Proof.
  apply (proj2 (proj2 (@system_prompt_lists_tools Script.World
                         Script.registry))
               "calculate"%string Script.calculate).
  right. left. reflexivity.
Defined.

(** ** What a run tells the callback and the model *)

Lemma callbacks_app (a b : list event) :
  callbacks (a ++ b) = callbacks a ++ callbacks b.
Proof. induction a as [|[] a IH]; simpl; auto. now rewrite IH. Qed.

Lemma requests_app (a b : list event) :
  requests (a ++ b) = requests a ++ requests b.
Proof. induction a as [|[] a IH]; simpl; auto. now rewrite IH. Qed.

Lemma printed_app (a b : list event) :
  printed (a ++ b) = printed a ++ printed b.
Proof. induction a as [|[] a IH]; simpl; auto. now rewrite IH. Qed.

Section Telling.

Context {World : Type}.

Implicit Types (s : state World) (t : Tool World).
Implicit Types (callback : option (string -> World -> World)).

Lemma shown_app callback (n1 n2 : list message) :
  shown callback (n1 ++ n2) = shown callback n1 ++ shown callback n2.
Proof. destruct callback; [apply map_app | reflexivity]. Qed.

Lemma told_refl s : told [] [] [] s s.
Proof.
  split; [now rewrite app_nil_r, set_messages_same|].
  exists []. rewrite app_nil_r. now repeat split.
Qed.

Lemma told_trans n1 c1 r1 n2 c2 r2 s s1 s2 :
  told n1 c1 r1 s s1 -> told n2 c2 r2 s1 s2 ->
  told (n1 ++ n2) (c1 ++ c2) (r1 ++ r2) s s2.
Proof.
  intros [A1 (e1 & T1 & C1 & R1 & P1)] [A2 (e2 & T2 & C2 & R2 & P2)]. split.
  - rewrite A2, A1. simpl. now rewrite app_assoc.
  - exists (e1 ++ e2). rewrite T2, T1, app_assoc.
    rewrite callbacks_app, requests_app, C1, C2, R1, R2.
    repeat split. intros D. rewrite printed_app, (P1 D).
    rewrite A1 in P2. now rewrite (P2 D).
Qed.

(** Events that are neither a callback nor a request nor a print. *)
Lemma told_events s evs w :
  callbacks evs = [] -> requests evs = [] -> printed evs = [] ->
  told [] [] [] s {| self := self s; world := w; trace := trace s ++ evs |}.
Proof.
  intros C R P. split; [cbn; now rewrite app_nil_r, set_messages_same|].
  exists evs. now repeat split.
Qed.

Lemma call_back_told callback text s :
  exists s', call_back callback text s = (Returned tt, s') /\
             told [] (shown callback [Message user text]) [] s s'.
Proof.
  destruct callback as [f|]; cbn.
  - eexists. split; [reflexivity|]. split.
    + cbn. now rewrite app_nil_r, set_messages_same.
    + exists [EvCallback text]. now repeat split.
  - eexists. split; [reflexivity | apply told_refl].
Qed.

Lemma inject_told callback observation s :
  exists s', inject callback observation s = (Returned tt, s') /\
             told [Message user observation]
                  (shown callback [Message user observation]) [] s s'.
Proof.
  unfold inject.
  set (s1 := {| self := set_messages (self s)
                          (messages (self s) ++ [Message user observation]);
                world := world s; trace := trace s |}).
  assert (E1 : told [Message user observation] [] [] s s1).
  { split; [reflexivity|]. exists []. cbn. rewrite app_nil_r.
    now repeat split. }
  destruct (call_back_told callback observation s1) as (s2 & C & E2).
  assert (P : exists s3,
             when (debug (self s2)) (print observation) s2 = (Returned tt, s3)
             /\ told [] [] [] s2 s3).
  { destruct (debug (self s2)) eqn:D.
    - eexists. split; [reflexivity|]. split.
      + cbn. now rewrite app_nil_r, set_messages_same.
      + exists [EvPrint observation]. repeat split. congruence.
    - eexists. split; [reflexivity | apply told_refl]. }
  destruct P as (s3 & P & E3).
  exists s3. split.
  - erewrite bind_returned by reflexivity. fold s1.
    erewrite bind_returned by exact C.
    erewrite bind_returned by reflexivity. exact P.
  - pose proof (told_trans (told_trans E1 E2) E3) as T.
    cbn [app] in T. now rewrite !app_nil_r in T.
Qed.

Lemma safe_execute_told t args s :
  exists v s', safe_execute t args s = (Returned v, s') /\ told [] [] [] s s'.
Proof.
  unfold safe_execute, try_except, bind, emit, external, ret.
  cbn [self world trace].
  destruct (execute t args (world s)) as [[v|e] w];
    cbv beta iota; cbn [self world trace fst snd].
  - do 2 eexists. split; [reflexivity|].
    rewrite <- app_assoc. now apply told_events.
  - do 2 eexists. split; [reflexivity|].
    rewrite <- !app_assoc. now apply told_events.
Qed.

Lemma dispatch_told tool_name args s :
  exists observation s',
    dispatch tool_name args s = (Returned observation, s') /\
    told [] [] [] s s'.
Proof.
  unfold dispatch. erewrite bind_returned by reflexivity.
  destruct (lookup tool_name (tools (self s))) as [t|].
  - destruct (safe_execute_told t args s) as (v & s' & E & T).
    unfold try_except. erewrite bind_returned by exact E.
    destruct (Json.dumps v); do 2 eexists; split; try reflexivity; exact T.
  - do 2 eexists. split; [reflexivity | apply told_refl].
Qed.

Lemma observe_told callback response s :
  exists observation s',
    observe callback response s = (Returned tt, s') /\
    told [Message user observation]
         (shown callback [Message user observation]) [] s s'.
Proof.
  unfold observe. destruct (Text.contains "PAUSE" response).
  - destruct (_parse_action response) as [[tool_name args]|].
    + destruct (dispatch_told tool_name args s) as (obs & s1 & D & T1).
      destruct (inject_told callback obs s1) as (s2 & I & T2).
      exists obs, s2. split; [now erewrite bind_returned by exact D|].
      exact (told_trans T1 T2).
    + destruct (inject_told callback could_not_parse s) as (s' & I & T).
      now exists could_not_parse, s'.
  - destruct (inject_told callback expected_action s) as (s' & I & T).
    now exists expected_action, s'.
Qed.

Lemma _call_llm_told s :
  exists res s', _call_llm s = (res, s') /\
                 told [] [] [messages (self s)] s s'.
Proof.
  unfold _call_llm, try_except, create_completion.
  destruct (groq_client _ _ _ _ _) as [[r|e] w]; cbn.
  - do 2 eexists. split; [reflexivity|]. split.
    + cbn. now rewrite app_nil_r, set_messages_same.
    + eexists [_]. now repeat split.
  - do 2 eexists. split; [reflexivity|]. split.
    + cbn. now rewrite app_nil_r, set_messages_same.
    + eexists [_; _]. cbn. rewrite <- app_assoc. now repeat split.
Qed.

Lemma loop_body_told callback iteration full_response s :
  exists res s' new,
    loop_body callback iteration full_response s = (res, s') /\
    told new (shown callback new) [messages (self s)] s s' /\
    pass_shape res new.
Proof.
  destruct (_call_llm_told s) as (res0 & s0 & C & T0).
  unfold loop_body. destruct res0 as [r|e].
  - erewrite bind_returned by exact C.
    erewrite bind_returned by reflexivity.
    set (sa := {| self := set_messages (self s0)
                            (messages (self s0) ++ [Message assistant r]);
                  world := world s0; trace := trace s0 |}).
    assert (Ta : told [Message assistant r] [] [] s0 sa).
    { split; [reflexivity|]. exists []. cbn. rewrite app_nil_r.
      now repeat split. }
    destruct (call_back_told callback r sa) as (sb & CB & Tb).
    erewrite bind_returned by exact CB.
    erewrite bind_returned by reflexivity.
    assert (P : exists s1,
               when (debug (self sb))
                 (print (LF ++ "--- Iteration " ++ Text.of_int iteration
                            ++ " ---")%string ;;; print r) sb
               = (Returned tt, s1) /\ told [] [] [] sb s1).
    { destruct (debug (self sb)) eqn:D.
      - eexists. split; [reflexivity|]. split.
        + cbn. now rewrite app_nil_r, set_messages_same.
        + eexists [_; _]. cbn. rewrite <- app_assoc.
          repeat split. congruence.
      - eexists. split; [reflexivity | apply told_refl]. }
    destruct P as (s1 & P & T1).
    erewrite bind_returned by exact P.
    pose proof (told_trans (told_trans (told_trans T0 Ta) Tb) T1) as T.
    cbn [app] in T. rewrite !app_nil_r in T.
    assert (Sh : shown callback [Message user r]
                 = shown callback [Message assistant r])
      by now destruct callback.
    rewrite Sh in T.
    destruct (Text.contains "Answer:" r).
    + do 3 eexists. split; [reflexivity|]. split; [exact T|].
      now exists r.
    + destruct (observe_told callback r s1) as (obs & s2 & O & T2).
      erewrite bind_returned by exact O.
      do 3 eexists. split; [reflexivity|]. split.
      * pose proof (told_trans T T2) as T'.
        rewrite <- shown_app in T'. exact T'.
      * now exists r, obs.
  - erewrite bind_raised by exact C.
    exists (Raised e), s0, []. split; [reflexivity|].
    split; [|reflexivity]. destruct callback; exact T0.
Qed.

End Telling.

Section History.

Context {World : Type}.

Implicit Types (s : state World).
Implicit Types (callback : option (string -> World -> World)).

Lemma while_loop_told callback remaining :
  forall iteration full_response s,
    last_role (messages (self s)) = Some user ->
    exists res s' new evs,
      while_loop callback remaining iteration full_response s = (res, s') /\
      self s' = set_messages (self s) (messages (self s) ++ new) /\
      trace s' = trace s ++ evs /\
      callbacks evs = shown callback new /\
      (debug (self s) = false -> printed evs = []) /\
      Forall (sent_so_far (messages (self s)) new) (requests evs).
Proof.
  induction remaining as [|k IH]; intros iteration acc s U.
  - do 2 eexists. exists [], []. split; [reflexivity|].
    rewrite !app_nil_r, set_messages_same.
    repeat split; auto. now destruct callback.
  - destruct (loop_body_told callback (iteration + 1) acc s)
      as (res & s1 & new1 & B & (S1 & evs1 & T1 & C1 & R1 & P1) & Sh).
    assert (First : sent_so_far (messages (self s)) new1 (messages (self s))).
    { exists [], new1. now rewrite app_nil_r. }
    cbn [while_loop].
    destruct res as [[acc' [answer|]]|e].
    + erewrite bind_returned by exact B.
      exists (Returned answer), s1, new1, evs1.
      repeat split; auto. rewrite R1. now constructor.
    + erewrite bind_returned by exact B.
      destruct Sh as (r & o & ->).
      assert (U1 : last_role (messages (self s1)) = Some user).
      { rewrite S1. cbn [messages set_messages].
        rewrite last_role_app by discriminate. reflexivity. }
      destruct (IH (iteration + 1) acc' s1 U1)
        as (res & s' & new & evs & W & S' & T' & C' & P' & R').
      exists res, s', ([Message assistant r; Message user o] ++ new),
             (evs1 ++ evs).
      split; [exact W|].
      split; [rewrite S', S1; cbn [messages set_messages];
              now rewrite <- app_assoc|].
      split; [now rewrite T', T1, app_assoc|].
      split; [now rewrite callbacks_app, C1, C', shown_app|].
      split.
      * intros D. rewrite printed_app, (P1 D).
        rewrite S1 in P'. now rewrite (P' D).
      * rewrite requests_app, R1. apply Forall_app. split.
        -- constructor; [|constructor].
           exists [], ([Message assistant r; Message user o] ++ new).
           now rewrite app_nil_r.
        -- rewrite S1 in R'. cbn [messages set_messages] in R'.
           eapply Forall_impl; [|exact R'].
           intros req (mid & rest & -> & -> & L).
           exists ([Message assistant r; Message user o] ++ mid), rest.
           rewrite <- !app_assoc in *. now repeat split.
    + erewrite bind_raised by exact B.
      exists (Raised e), s1, new1, evs1.
      repeat split; auto. rewrite R1. now constructor.
Qed.

Lemma run_loop_told query callback max_iterations reset_conversation s :
  exists res s' new evs,
    run_loop query callback max_iterations reset_conversation s = (res, s') /\
    messages (self s')
    = (seeded reset_conversation (self s)
         ++ [Message user ("Question: " ++ query)%string]) ++ new /\
    trace s' = trace s ++ evs /\
    callbacks evs = shown callback new /\
    (debug (self s) = false -> printed evs = []) /\
    Forall (sent_so_far
              (seeded reset_conversation (self s)
                 ++ [Message user ("Question: " ++ query)%string]) new)
           (requests evs).
Proof.
  rewrite run_loop_unfold.
  match goal with |- context [while_loop _ ?k _ _ ?s0] =>
    destruct (while_loop_told callback k 0 [] s0)
      as (res & s' & new & evs & W & S' & T & C & P & R);
      [apply last_role_snoc|]
  end.
  exists res, s', new, evs. split; [exact W|].
  split; [now rewrite S'|]. auto.
Qed.

End History.

(** X5.  The callback is handed exactly the contents of the turns the run
    appends after the question, each reply and each observation once and in
    the order of the conversation; the question itself is not handed over,
    and without a callback nothing is.  Nothing is printed unless [debug]
    is set. *)
Theorem callback_sees_every_turn {World : Type} (query : string)
        (callback : option (string -> World -> World))
        (max_iterations : option Z) (reset_conversation : bool)
        (s s' : state World) (res : outcome string) (evs : list event) :
  run_loop query callback max_iterations reset_conversation s = (res, s') ->
  trace s' = trace s ++ evs ->
  exists new,
    messages (self s')
    = (if reset_conversation || is_empty (messages (self s))
       then [Message system (system_prompt (self s))]
       else messages (self s))
        ++ Message user ("Question: " ++ query)%string :: new /\
    callbacks evs = match callback with
                    | Some _ => map content new
                    | None => []
                    end /\
    (debug (self s) = false -> printed evs = []).
Proof.
  intros Run T.
  destruct (run_loop_told query callback max_iterations reset_conversation s)
    as (res0 & s0 & new & evs0 & Run0 & M & T0 & C & P & _).
  rewrite Run in Run0. injection Run0 as <- <-.
  rewrite T in T0. apply app_inv_head in T0. subst evs0.
  exists new. split; [now rewrite M, <- app_assoc|]. now split.
Qed.

Lemma callback_sees_every_turn_witness :
  let s := Script.start 10 []
             [Returned ("Action: get_weather: London" ++ LF ++ "PAUSE")%string;
              Returned "Answer: It is 18.5 degrees in London."] in
  let result := run_loop "What's the weather in London?"
                         (Some (fun _ w => w)) None false s in
  exists new,
    messages (self (snd result))
    = [Message system (system_prompt (self s))]
        ++ Message user "Question: What's the weather in London?" :: new /\
    callbacks (trace (snd result)) = map content new /\
    (debug (self s) = false -> printed (trace (snd result)) = []).
Proof.
  intros s result.
  apply (@callback_sees_every_turn Script.World
           "What's the weather in London?" (Some (fun _ w => w)) None false
           s (snd result) (fst result) (trace (snd result)));
    reflexivity.
Defined.

(** X6.  Every request a run sends to the model is the whole conversation
    at that moment: the conversation the run started from, the question,
    and the turns appended so far, and it is a prefix of the conversation
    the run leaves.  It always ends on a user turn. *)
Theorem model_sent_whole_conversation {World : Type} (query : string)
        (callback : option (string -> World -> World))
        (max_iterations : option Z) (reset_conversation : bool)
        (s s' : state World) (res : outcome string) (evs : list event)
        (request : list message) :
  run_loop query callback max_iterations reset_conversation s = (res, s') ->
  trace s' = trace s ++ evs ->
  In request (requests evs) ->
  exists mid rest,
    request
    = (if reset_conversation || is_empty (messages (self s))
       then [Message system (system_prompt (self s))]
       else messages (self s))
        ++ Message user ("Question: " ++ query)%string :: mid /\
    messages (self s') = request ++ rest /\
    last_role request = Some user.
Proof.
  intros Run T I.
  destruct (run_loop_told query callback max_iterations reset_conversation s)
    as (res0 & s0 & new & evs0 & Run0 & M & T0 & _ & _ & R).
  rewrite Run in Run0. injection Run0 as <- <-.
  rewrite T in T0. apply app_inv_head in T0. subst evs0.
  rewrite Forall_forall in R.
  destruct (R request I) as (mid & rest & -> & -> & L).
  exists mid, rest. split; [now rewrite <- app_assoc|].
  split; [now rewrite M, app_assoc | exact L].
Qed.

Lemma model_sent_whole_conversation_witness :
  let s := Script.start 10 []
             [Returned ("Action: get_weather: London" ++ LF ++ "PAUSE")%string;
              Returned "Answer: It is 18.5 degrees in London."] in
  let result := run_loop "What's the weather in London?" None None false s in
  (exists request, nth_error (requests (trace (snd result))) 1 = Some request
                   /\ List.length request = 4%nat) /\
  forall request,
    In request (requests (trace (snd result))) ->
    exists mid rest,
      request
      = [Message system (system_prompt (self s))]
          ++ Message user "Question: What's the weather in London?" :: mid /\
      messages (self (snd result)) = request ++ rest /\
      last_role request = Some user.
Proof.
  intros s result. split; [eexists; split; reflexivity|].
  intros request I.
  apply (@model_sent_whole_conversation Script.World
           "What's the weather in London?" None None false s (snd result)
           (fst result) (trace (snd result)) request);
    [reflexivity | reflexivity | exact I].
Defined.

(** ** Edges of [run_loop] *)

(** X7.  With a ceiling that is zero or negative (a negative override, or
    an agent whose [max_iterations] is not positive), [run_loop] calls
    neither the model nor a tool nor the callback: it returns the notice
    alone, after a line feed, and leaves the question as the last turn of
    the conversation. *)
Theorem nonpositive_ceiling_asks_nothing {World : Type} (query : string)
        (callback : option (string -> World -> World))
        (max_iterations : option Z) (reset_conversation : bool)
        (s : state World) :
  (effective_max_iterations max_iterations (self s) <= 0)%Z ->
  run_loop query callback max_iterations reset_conversation s
  = (Returned
       (LF ++ "Exceeded maximum iterations without reaching an answer.")
       %string,
     {| self :=
          set_messages (self s)
            ((if reset_conversation || is_empty (messages (self s))
              then [Message system (system_prompt (self s))]
              else messages (self s))
               ++ [Message user ("Question: " ++ query)%string]);
        world := world s; trace := trace s |}).
Proof.
  intros H. rewrite run_loop_unfold.
  replace (Z.to_nat (effective_max_iterations max_iterations (self s)))
    with 0%nat by lia.
  reflexivity.
Qed.

Lemma nonpositive_ceiling_asks_nothing_witness :
  let s := Script.start 10 [] [Returned "Answer: Hi there!"] in
  (effective_max_iterations (Some (-1)%Z) (self s) <= 0)%Z /\
  fst (run_loop "hello" None (Some (-1)%Z) false s)
  = Returned (LF ++ "Exceeded maximum iterations without reaching an answer.")
      %string.
Proof.
  intros s.
  assert (H : (effective_max_iterations (Some (-1)%Z) (self s) <= 0)%Z)
    by (cbn; lia).
  split; [exact H|].
  now rewrite (@nonpositive_ceiling_asks_nothing Script.World "hello" None
                 (Some (-1)%Z) false s H).
Defined.

(** X8.  When the tool named by the action raises, the observation is the
    rendering of the mapping [safe_execute] builds: it names the tool by its
    own [name] and quotes the argument text, and it is the same whatever the
    exception was, whose text is not shown to the model.  The branch of
    line 270 is not taken for a tool that raises. *)
Theorem raising_tool_observation {World : Type} (tool_name args : string)
        (s : state World) (t : Tool World) (e : exn) :
  lookup tool_name (tools (self s)) = Some t ->
  fst (execute t args (world s)) = Raised e ->
  fst (dispatch tool_name args s)
  = Returned
      ("Observation: {" ++ LF ++ "  " ++ Json.encode_str "error" ++ ": "
         ++ Json.encode_str ("Error executing the tool " ++ name t
                               ++ " with args " ++ args)
         ++ LF ++ "}")%string.
Proof.
  intros L R.
  destruct (dispatch_cases tool_name args s) as (obs & s' & D & H).
  rewrite L, R in H. destruct H as (-> & _). rewrite D.
  cbn [fst]. f_equal.
  unfold tool_observation, error_result, Json.dumps.
  cbn [Json.iterencode]. unfold Json.newline_indent.
  cbn [Text.replicate append]. rewrite !append_empty_r.
  reflexivity.
Qed.

Lemma raising_tool_observation_witness :
  let s := Script.start 10 [] [] in
  fst (dispatch "calculate" "1 +" s)
  = Returned
      ("Observation: {" ++ LF ++ "  " ++ Json.encode_str "error" ++ ": "
         ++ Json.encode_str "Error executing the tool calculate with args 1 +"
         ++ LF ++ "}")%string.
Proof.
  intros s.
  apply (@raising_tool_observation Script.World "calculate" "1 +" s
           Script.calculate
           (Exn ToolExecutionError "Invalid expression: 1 +" None));
    reflexivity.
Defined.

(** ** Constructing and extending an agent *)

(** X9.  Constructing an agent fails exactly when there is no key: the
    [api_key] argument is absent or empty and so is [GROQ_API_KEY] in the
    environment.  It then raises the [ValueError] of
    [_configure_llm_client].  Otherwise the client is built with the
    argument when that is a non-empty text, and with the environment's key
    when it is not. *)
Theorem agent_needs_key {World : Type}
        (Groq : string -> string -> list message -> pyfloat -> World
                -> outcome string * World)
        (environ : string -> option string)
        (tools : option (list (string * Tool World)))
        (model api_key : option string) (temperature : pyfloat)
        (max_iterations : Z) (debug : bool) :
  let built := Agent_init Groq environ tools model api_key temperature
                          max_iterations debug in
  let missing (k : option string) := k = None \/ k = Some ""%string in
  (missing api_key /\ missing (environ "GROQ_API_KEY"%string) ->
   built = Raised (Exn (Builtin "ValueError") "Groq API key not provided."
                       None)) /\
  (forall key, api_key = Some key -> key <> ""%string ->
     exists a, built = Returned a /\ groq_client a = Groq key) /\
  (forall key, missing api_key ->
     environ "GROQ_API_KEY"%string = Some key -> key <> ""%string ->
     exists a, built = Returned a /\ groq_client a = Groq key) /\
  (forall e, built = Raised e ->
     missing api_key /\ missing (environ "GROQ_API_KEY"%string)).
Proof.
  intros built missing. unfold built, Agent_init, _configure_llm_client.
  split; [|split; [|split]].
  - intros [[->| ->] [->| ->]]; reflexivity.
  - intros key -> N. destruct key as [|c k]; [now elim N|].
    eexists. split; reflexivity.
  - intros key M -> N. destruct key as [|c k]; [now elim N|].
    destruct M as [->| ->]; eexists; split; reflexivity.
  - intros e. unfold missing.
    destruct api_key as [[|c k]|];
      destruct (environ "GROQ_API_KEY"%string) as [[|c' k']|];
      cbn; intros H; try discriminate; auto.
Qed.

Lemma agent_needs_key_witness :
  let environ := fun key : string =>
                   if String.eqb key "GROQ_API_KEY" then Some "gsk_env"%string
                   else None in
  exists a,
    Agent_init (fun _ => Script.client) environ (Some Script.registry) None
               (Some ""%string) (PyF "0.0") 10 false
    = Returned a /\
    groq_client a = (fun _ => Script.client) "gsk_env"%string.
Proof.
  intros environ.
  refine (proj1 (proj2 (proj2 (@agent_needs_key Script.World
            (fun _ => Script.client) environ (Some Script.registry) None
            (Some ""%string) (PyF "0.0") 10 false)))
          "gsk_env"%string _ _ _).
  - right. reflexivity.
  - reflexivity.
  - discriminate.
Defined.

(** X10.  The first call of [run_loop] on an agent as constructed starts the
    conversation, whether or not a reset is asked for, with the system turn
    holding the prompt of the agent's registry, followed by the question;
    the prompt holds the entry of every tool the agent was constructed
    with. *)
Theorem fresh_agent_conversation {World : Type}
        (Groq : string -> string -> list message -> pyfloat -> World
                -> outcome string * World)
        (environ : string -> option string)
        (registry : option (list (string * Tool World)))
        (model api_key : option string) (temperature : pyfloat)
        (ceiling : Z) (debug : bool) (a : Agent World)
        (query : string) (callback : option (string -> World -> World))
        (max_iterations : option Z) (reset_conversation : bool)
        (s s' : state World) (res : outcome string) :
  Agent_init Groq environ registry model api_key temperature ceiling debug
  = Returned a ->
  self s = a ->
  run_loop query callback max_iterations reset_conversation s = (res, s') ->
  exists new,
    messages (self s')
    = Message system (_create_system_prompt (tools a))
        :: Message user ("Question: " ++ query)%string :: new /\
    tools a = match registry with Some d => d | None => [] end /\
    forall key t,
      In (key, t) (tools a) ->
      Text.contains (key ++ ":" ++ LF ++ description t ++ LF ++ LF)
                    (_create_system_prompt (tools a)) = true.
Proof.
  intros Init Self Run.
  destruct (run_loop_run query callback max_iterations reset_conversation s)
    as (res0 & s0 & evs & new & Run0 & S' & _).
  rewrite Run in Run0. injection Run0 as <- <-.
  unfold Agent_init in Init.
  destruct (_configure_llm_client api_key environ) as [k|e];
    [|discriminate].
  injection Init as <-.
  exists new. split; [|split].
  - rewrite S', Self. unfold seeded. cbn [messages set_messages is_empty].
    rewrite orb_true_r. reflexivity.
  - cbn [tools]. now destruct registry as [[|item d]|].
  - intros key t. apply create_system_prompt_entry.
Qed.

Lemma fresh_agent_conversation_witness :
  let environ := fun _ : string => Some "gsk_env"%string in
  let built := Agent_init (fun _ => Script.client) environ
                          (Some Script.registry) None None (PyF "0.0") 10
                          false in
  exists a,
    built = Returned a /\
    let s := {| self := a; world := [Returned "Answer: Hi there!"];
                trace := [] |} in
    exists new,
      messages (self (snd (run_loop "hello" None None false s)))
      = Message system (_create_system_prompt (tools a))
          :: Message user "Question: hello" :: new.
Proof.
  intros environ built. eexists. split; [reflexivity|].
  intros s.
  destruct (@fresh_agent_conversation Script.World (fun _ => Script.client)
              environ (Some Script.registry) None None (PyF "0.0") 10 false
              (self s) "hello" None None false s
              (snd (run_loop "hello" None None false s))
              (fst (run_loop "hello" None None false s))
              eq_refl eq_refl)
    as (new & M & _).
  - apply surjective_pairing.
  - exists new. exact M.
Defined.

(** X11.  After [add_tool] the tool is registered at once and the prompt
    attribute holds its entry, but a conversation under way is not touched:
    the next [run_loop] without reset appends to it, so that its system turn
    still holds the prompt from before; only a reset (or an empty
    conversation) puts the new prompt first. *)
Theorem add_tool_then_run {World : Type} (tool : Tool World)
        (query : string) (callback : option (string -> World -> World))
        (max_iterations : option Z) (reset_conversation : bool)
        (s s' : state World) (res : outcome string) :
  run_loop query callback max_iterations reset_conversation
           (snd (add_tool tool s)) = (res, s') ->
  let prompt := _create_system_prompt
                  (dict_set (name tool) tool (tools (self s))) in
  exists new,
    messages (self s')
    = (if reset_conversation || is_empty (messages (self s))
       then [Message system prompt]
       else messages (self s))
        ++ Message user ("Question: " ++ query)%string :: new /\
    system_prompt (self s') = prompt /\
    lookup (name tool) (tools (self s')) = Some tool /\
    Text.contains (name tool ++ ":" ++ LF ++ description tool ++ LF ++ LF)
                  prompt = true.
Proof.
  intros Run prompt.
  destruct (run_loop_run query callback max_iterations reset_conversation
                         (snd (add_tool tool s)))
    as (res0 & s0 & evs & new & Run0 & S' & _).
  rewrite Run in Run0. injection Run0 as <- <-.
  exists new. rewrite S'. cbn [add_tool snd self].
  split; [reflexivity|]. split; [reflexivity|].
  split; [apply lookup_dict_set_same|].
  apply create_system_prompt_entry, lookup_in, lookup_dict_set_same.
Qed.

Lemma add_tool_then_run_witness :
  let s := Script.start 10
             [Message system "old prompt"; Message user "Question: hi";
              Message assistant "Answer: Hello!"]
             [Returned "Answer: It is noon."] in
  let result := run_loop "What time is it?" None None false
                         (snd (add_tool Script.clock s)) in
  exists new,
    messages (self (snd result))
    = messages (self s) ++ Message user "Question: What time is it?" :: new
    /\ lookup "clock" (tools (self (snd result))) = Some Script.clock.
Proof.
  intros s result.
  destruct (@add_tool_then_run Script.World Script.clock "What time is it?"
              None None false s (snd result) (fst result))
    as (new & M & _ & L & _).
  - apply surjective_pairing.
  - exists new. split; [exact M | exact L].
Defined.

(** ** The calculator *)

Section Calculator.

Context {World : Type}.
Context (arithmetic : Arithmetic).
Context (ast_parse : string -> outcome Ast.expr).
Context (logger_warning : string -> World -> World).
Context (recursion_limit : nat).
Context (recursion_text : Ast.expr -> string).

Lemma visit_whitelisted (node : Ast.expr) :
  forall levels v,
    visit arithmetic recursion_text levels node = Returned v ->
    whitelisted node = true.
Proof.
  induction node as [l IHl op r IHr|op x IHx|k|id|c];
    intros [|levels] v; cbn [visit whitelisted]; try discriminate.
  - destruct (visit arithmetic recursion_text levels l) as [a|e] eqn:L;
      [|discriminate].
    destruct (visit arithmetic recursion_text levels r) as [b|e] eqn:R;
      [|discriminate].
    rewrite (IHl _ _ L), (IHr _ _ R).
    destruct op; cbn; intros H; try discriminate; reflexivity.
  - destruct (visit arithmetic recursion_text levels x) as [a|e] eqn:X;
      [|discriminate].
    destruct op; cbn; intros H; try discriminate. exact (IHx _ _ X).
  - destruct k; intros H; try discriminate; reflexivity.
  - destruct (String.eqb id "pi"); [reflexivity|].
    destruct (String.eqb id "e"); [reflexivity | discriminate].
Qed.

(** A tree whose first path is longer than the levels left runs into the
    recursion limit at the node of this path that stands one level too
    deep. *)
Lemma visit_too_deep (node : Ast.expr) :
  forall levels,
    (levels < spine node)%nat ->
    visit arithmetic recursion_text levels node
    = Raised (recursion_error recursion_text (spine_node levels node)).
Proof.
  induction node as [l IHl op r IHr|op x IHx|k|id|c];
    intros [|levels] D; cbn [visit spine spine_node] in *;
    try reflexivity; try lia.
  - rewrite IHl by lia. reflexivity.
  - rewrite IHx by lia. reflexivity.
Qed.

(** Whatever goes wrong, [safe_eval] raises a [ToolExecutionError]. *)
Lemma safe_eval_cases (expr : string) :
  match
    match ast_parse expr with
    | Raised e => Raised e
    | Returned node => visit arithmetic recursion_text recursion_limit node
    end
  with
  | Returned v =>
      safe_eval arithmetic ast_parse recursion_limit recursion_text expr
      = Returned v
  | Raised e =>
      safe_eval arithmetic ast_parse recursion_limit recursion_text expr
      = Raised (Exn ToolExecutionError
                    ((if is_SyntaxError e
                      then "Syntax error in expression: "
                      else "Error evaluating expression: ") ++ str e)%string
                    (Some e))
  end.
Proof.
  unfold safe_eval.
  destruct (match ast_parse expr with
            | Returned node =>
                visit arithmetic recursion_text recursion_limit node
            | Raised e => Raised e
            end) as [v|e]; [reflexivity|].
  destruct (is_SyntaxError e); reflexivity.
Qed.

Lemma calculation_execute_cases (args : string) (w : World) :
  match
    match ast_parse (strip args) with
    | Raised e => Raised e
    | Returned node => visit arithmetic recursion_text recursion_limit node
    end
  with
  | Returned result =>
      calculation_execute arithmetic ast_parse logger_warning recursion_limit
                          recursion_text args w
      = (Returned (PyDict [("result", result)]), w)
  | Raised e =>
      let text := ("Calculation error: "
                     ++ (if is_SyntaxError e
                         then "Syntax error in expression: "
                         else "Error evaluating expression: ") ++ str e)
                    %string in
      calculation_execute arithmetic ast_parse logger_warning recursion_limit
                          recursion_text args w
      = (Returned (PyDict [("error", PyStr text)]), logger_warning text w)
  end.
Proof.
  unfold calculation_execute.
  pose proof (safe_eval_cases (strip args)) as H.
  destruct (match ast_parse (strip args) with
            | Returned node =>
                visit arithmetic recursion_text recursion_limit node
            | Raised e => Raised e
            end) as [v|e]; rewrite H; reflexivity.
Qed.

End Calculator.

(** X12.  [CalculationTool.execute] never raises.  It returns the mapping
    with the key ["result"] when the expression is parsed and evaluated,
    and otherwise the mapping with the key ["error"] whose text is
    [Calculation error: ], then [Syntax error in expression: ] for a
    [SyntaxError] and [Error evaluating expression: ] for anything else,
    then the text of the failure; the evaluator's own rejections
    ([Unsupported ...]) and the recursion limit get the second prefix like
    any other failure. *)
Theorem calculate_never_raises {World : Type} (arithmetic : Arithmetic)
        (ast_parse : string -> outcome Ast.expr)
        (logger_warning : string -> World -> World)
        (recursion_limit : nat) (recursion_text : Ast.expr -> string)
        (args : string) (w : World) :
  exists v w',
    execute (CalculationTool arithmetic ast_parse logger_warning
                             recursion_limit recursion_text) args w
    = (Returned v, w') /\
    match
      match ast_parse (strip args) with
      | Raised e => Raised e
      | Returned node => visit arithmetic recursion_text recursion_limit node
      end
    with
    | Returned result => v = PyDict [("result", result)]
    | Raised e =>
        v = PyDict
              [("error",
                PyStr ("Calculation error: "
                         ++ (if is_SyntaxError e
                             then "Syntax error in expression: "
                             else "Error evaluating expression: ")
                         ++ str e)%string)]
    end.
Proof.
  cbn [execute CalculationTool].
  pose proof (calculation_execute_cases arithmetic ast_parse logger_warning
                                        recursion_limit recursion_text
                                        args w) as H.
  destruct (match ast_parse (strip args) with
            | Returned node =>
                visit arithmetic recursion_text recursion_limit node
            | Raised e => Raised e
            end) as [v|e]; rewrite H; do 2 eexists; split; reflexivity.
Qed.

(** X13.  The evaluator gives a value only to expressions of the white
    list: the operators [+ - * / // ** %] and the minus sign, over
    numbers, truth values and the names [pi] and [e].  Anything else in the
    tree (a call, an attribute, a comparison, a string, another name, the
    plus sign, a bit operator) makes [calculate] return an error mapping,
    wherever in the tree it stands and whatever the recursion limit. *)
Theorem calculate_whitelist {World : Type} (arithmetic : Arithmetic)
        (ast_parse : string -> outcome Ast.expr)
        (logger_warning : string -> World -> World)
        (recursion_limit : nat) (recursion_text : Ast.expr -> string)
        (args : string) (w : World) (node : Ast.expr) :
  ast_parse (strip args) = Returned node ->
  whitelisted node = false ->
  (forall levels v,
     visit arithmetic recursion_text levels node <> Returned v) /\
  exists text,
    fst (execute (CalculationTool arithmetic ast_parse logger_warning
                                  recursion_limit recursion_text)
                 args w)
    = Returned (PyDict [("error", PyStr ("Calculation error: " ++ text)
                                    %string)]).
Proof.
  intros P W.
  assert (N : forall levels v,
             visit arithmetic recursion_text levels node <> Returned v).
  { intros levels v H. apply visit_whitelisted in H. congruence. }
  split; [exact N|].
  cbn [execute CalculationTool].
  pose proof (calculation_execute_cases arithmetic ast_parse logger_warning
                                        recursion_limit recursion_text
                                        args w) as H.
  rewrite P in H.
  destruct (visit arithmetic recursion_text recursion_limit node) as [v|e]
    eqn:V.
  - now elim (N _ _ V).
  - cbv zeta in H. rewrite H. eexists. reflexivity.
Qed.

Lemma calculate_whitelist_witness :
  (forall levels v,
     visit CalcScript.arithmetic CalcScript.recursion_text levels
           (Ast.UnaryOp Ast.UAdd (Ast.Constant (Ast.KInt 5)))
     <> Returned v) /\
  exists text,
    fst (execute CalcScript.calculator " +5 " [])
    = Returned (PyDict [("error", PyStr ("Calculation error: " ++ text)
                                    %string)]).
Proof.
  apply (@calculate_whitelist Script.World CalcScript.arithmetic
           CalcScript.parse (fun _ w => w) 490 CalcScript.recursion_text
           " +5 " []
           (Ast.UnaryOp Ast.UAdd (Ast.Constant (Ast.KInt 5))));
    reflexivity.
Defined.

(** X14.  Run through [safe_execute], the calculator hands on its own
    mapping: [safe_execute] never has a failure of the calculator to
    absorb, so the model is shown [Calculation error: ...] and never the
    [Error executing the tool ...] of [safe_execute]. *)
Theorem calculate_through_safe_execute {World : Type}
        (arithmetic : Arithmetic) (ast_parse : string -> outcome Ast.expr)
        (logger_warning : string -> World -> World)
        (recursion_limit : nat) (recursion_text : Ast.expr -> string)
        (args : string) (s : state World) :
  let calculator := CalculationTool arithmetic ast_parse logger_warning
                                    recursion_limit recursion_text in
  exists v s',
    safe_execute calculator args s = (Returned v, s') /\
    fst (execute calculator args (world s)) = Returned v /\
    v <> error_result calculator args /\
    ((exists result, v = PyDict [("result", result)]) \/
     (exists text,
        v = PyDict [("error", PyStr ("Calculation error: " ++ text)
                                %string)])).
Proof.
  intros calculator.
  destruct (safe_execute_cases calculator args s) as (s' & E & _).
  pose proof (calculation_execute_cases arithmetic ast_parse logger_warning
                                        recursion_limit recursion_text
                                        args (world s)) as H.
  change (execute calculator args (world s))
    with (calculation_execute arithmetic ast_parse logger_warning
                              recursion_limit recursion_text args
                              (world s)) in *.
  destruct (match ast_parse (strip args) with
            | Returned node =>
                visit arithmetic recursion_text recursion_limit node
            | Raised e => Raised e
            end) as [r|e]; cbv zeta in H; rewrite H in E |- *;
    cbn [fst] in E |- *.
  - do 2 eexists. split; [exact E|]. split; [reflexivity|].
    split; [discriminate|]. left. now exists r.
  - do 2 eexists. split; [exact E|]. split; [reflexivity|].
    split; [discriminate|]. right. eexists. reflexivity.
Qed.

(** X15.  The calculator evaluates down to the recursion limit and no
    further.  An expression whose first path (from a binary operation to
    its left operand, from a sign to its operand) has more nodes than the
    levels the interpreter's stack allows is not given a value, whatever
    the operators and operands: [calculate] returns the mapping with
    [Calculation error: Error evaluating expression: ] and the text of the
    [RecursionError].  A long sum [1 + 1 + ... + 1], which the parser
    nests to the left, is such an expression. *)
Theorem calculate_stops_at_recursion_limit {World : Type}
        (arithmetic : Arithmetic) (ast_parse : string -> outcome Ast.expr)
        (logger_warning : string -> World -> World)
        (recursion_limit : nat) (recursion_text : Ast.expr -> string)
        (args : string) (w : World) (node : Ast.expr) :
  ast_parse (strip args) = Returned node ->
  (recursion_limit < spine node)%nat ->
  execute (CalculationTool arithmetic ast_parse logger_warning
                           recursion_limit recursion_text) args w
  = (Returned
       (PyDict
          [("error",
            PyStr ("Calculation error: Error evaluating expression: "
                     ++ recursion_text (spine_node recursion_limit node))
                  %string)]),
     logger_warning
       ("Calculation error: Error evaluating expression: "
          ++ recursion_text (spine_node recursion_limit node))%string w).
Proof.
  intros P D. cbn [execute CalculationTool].
  pose proof (calculation_execute_cases arithmetic ast_parse logger_warning
                                        recursion_limit recursion_text
                                        args w) as H.
  rewrite P, (visit_too_deep arithmetic recursion_text node D) in H.
  exact H.
Qed.

Lemma calculate_stops_at_recursion_limit_witness :
  execute (CalculationTool CalcScript.arithmetic (CalcScript.parse_sum 600)
                           (fun _ w => w) 490 CalcScript.recursion_text)
          (CalcScript.sum_text 600) ([] : Script.World)
  = (Returned
       (PyDict
          [("error",
            PyStr "Calculation error: Error evaluating expression: maximum recursion depth exceeded")]),
     []).
Proof.
  apply (@calculate_stops_at_recursion_limit Script.World
           CalcScript.arithmetic (CalcScript.parse_sum 600)
           (fun _ w => w) 490 CalcScript.recursion_text
           (CalcScript.sum_text 600) [] (CalcScript.ones 600)).
  - vm_compute. reflexivity.
  - vm_compute. lia.
Defined.

(** ** Requests and their retries *)

Lemma api_requests_app (a b : list api_event) :
  api_requests (a ++ b) = api_requests a ++ api_requests b.
Proof. induction a as [|[] a IH]; simpl; auto. now rewrite IH. Qed.

Lemma api_sleeps_app (a b : list api_event) :
  api_sleeps (a ++ b) = api_sleeps a ++ api_sleeps b.
Proof. induction a as [|[] a IH]; simpl; auto. now rewrite IH. Qed.

Section Retries.

Context {World : Type}.
Context (requests_request :
           string -> string -> list (string * pyval) -> list (string * string)
           -> option pyval -> pyval -> World -> request_outcome * World).
Context (time_passes : Z -> World -> World).
Context (url method : string) (params : list (string * pyval))
        (headers : list (string * string)) (json_data : option pyval)
        (timeout : pyval) (retries retry_delay : Z).

Let loop := request_loop requests_request time_passes url method params
                         headers json_data timeout retries retry_delay.

Lemma paced_last (remaining : nat) (events : list api_event) :
  api_requests events = [(method, url)] -> api_sleeps events = [] ->
  paced method url retry_delay (S remaining) events.
Proof.
  intros R S0. unfold paced. rewrite R, S0. cbn.
  repeat split; try lia. now constructor.
Qed.

Lemma request_loop_paced (remaining : nat) :
  forall attempts w log res w' log',
    Z.of_nat remaining = (retries - attempts)%Z ->
    loop remaining attempts w log = (res, w', log') ->
    exists new, log' = log ++ new /\ paced method url retry_delay remaining new.
Proof.
  unfold loop.
  induction remaining as [|k IH]; intros attempts w log res w' log' Inv.
  - cbn. intros H. injection H as <- <- <-. exists [].
    rewrite app_nil_r. split; [reflexivity|].
    unfold paced. cbn. repeat split; try lia. constructor.
  - cbn [request_loop].
    destruct (requests_request method url params headers json_data timeout w)
      as [o w1].
    set (log1 := log ++ [ApiLog "debug" _; ApiRequest method url]).
    assert (Failed : forall e mid,
               api_requests mid = [] -> api_sleeps mid = [] ->
               (if (attempts + 1 >=? retries)%Z
                then (Raised (Exn APIError
                                  ("Request failed after "
                                     ++ Text.of_int retries
                                     ++ " attempts: " ++ str e)%string
                                  (Some e)),
                      w1,
                      (log1 ++ mid)
                        ++ [ApiLog "warning"
                              ("Request failed (attempt "
                                 ++ Text.of_int (attempts + 1) ++ "/"
                                 ++ Text.of_int retries ++ "): " ++ str e)
                              %string])
                else if (retry_delay <? 0)%Z
                then (Raised (Exn (Builtin "ValueError")
                                  "sleep length must be non-negative"
                                  (Some e)),
                      w1,
                      (log1 ++ mid)
                        ++ [ApiLog "warning"
                              ("Request failed (attempt "
                                 ++ Text.of_int (attempts + 1) ++ "/"
                                 ++ Text.of_int retries ++ "): " ++ str e)
                              %string])
                else request_loop requests_request time_passes url method
                                  params headers json_data timeout retries
                                  retry_delay k (attempts + 1)
                                  (time_passes retry_delay w1)
                                  (((log1 ++ mid)
                                      ++ [ApiLog "warning"
                                            ("Request failed (attempt "
                                               ++ Text.of_int (attempts + 1)
                                               ++ "/" ++ Text.of_int retries
                                               ++ "): " ++ str e)%string])
                                     ++ [ApiSleep retry_delay]))
               = (res, w', log') ->
               exists new, log' = log ++ new /\ paced method url retry_delay (S k) new).
    { intros e mid RM SM H.
      destruct (attempts + 1 >=? retries)%Z eqn:G.
      - injection H as <- <- <-. unfold log1.
        eexists. rewrite <- !app_assoc. split; [reflexivity|].
        apply paced_last.
        + cbn. rewrite api_requests_app, RM. reflexivity.
        + cbn. rewrite api_sleeps_app, SM. reflexivity.
      - destruct (retry_delay <? 0)%Z.
        + injection H as <- <- <-. unfold log1.
          eexists. rewrite <- !app_assoc. split; [reflexivity|].
          apply paced_last.
          * cbn. rewrite api_requests_app, RM. reflexivity.
          * cbn. rewrite api_sleeps_app, SM. reflexivity.
        + apply IH in H; [|lia].
          destruct H as (new & -> & N & P & SL & F).
          assert (K : (0 < k)%nat) by lia. specialize (P K).
          unfold log1. eexists. rewrite <- !app_assoc.
          split; [reflexivity|]. unfold paced.
          cbn [app api_requests api_sleeps List.length].
          rewrite api_requests_app, api_sleeps_app, RM, SM.
          cbn [app api_requests api_sleeps List.length].
          repeat split; try lia.
          * rewrite SL.
            replace (S (List.length (api_requests new)) - 1)%nat
              with (S (List.length (api_requests new) - 1)) by lia.
            reflexivity.
          * now constructor. }
    destruct o as [r|e|e].
    + cbv zeta. destruct (raise_for_status r) as [e|].
      * intros H.
        apply (Failed e [ApiLog "debug"
                           ("Request " ++ method ++ " " ++ url
                              ++ ": status=" ++ Text.of_int (status_code r))
                           %string]); auto.
      * intros H.
        assert (E : log' = log1 ++ [ApiLog "debug"
                                      ("Request " ++ method ++ " " ++ url
                                         ++ ": status="
                                         ++ Text.of_int (status_code r))
                                      %string])
          by (destruct (json_body r); now injection H).
        rewrite E. unfold log1. eexists. rewrite <- !app_assoc.
        split; [reflexivity|]. now apply paced_last.
    + cbv zeta. intros H. apply (Failed e []); auto.
      rewrite app_nil_r. exact H.
    + intros H. injection H as <- <- <-. unfold log1.
      eexists. split; [reflexivity|]. now apply paced_last.
Qed.

End Retries.

(** X16.  [make_request] paces its attempts.  It makes at most [retries]
    requests, all with the upper-cased method and the same URL, and none
    when [retries] is not positive; it pauses [retry_delay] seconds between
    two requests and never after the last one, however the call ends. *)
Theorem make_request_paces {World : Type}
        (requests_request :
           string -> string -> list (string * pyval) -> list (string * string)
           -> option pyval -> pyval -> World -> request_outcome * World)
        (time_passes : Z -> World -> World) (str_upper : string -> string)
        (url method : string) (params : option (list (string * pyval)))
        (headers : option (list (string * string)))
        (json_data : option pyval) (timeout : pyval)
        (retries retry_delay : Z) (w w' : World) (res : outcome pyval)
        (log : list api_event) :
  make_request requests_request time_passes str_upper url method params
               headers json_data timeout retries retry_delay w
  = (res, w', log) ->
  let n := List.length (api_requests log) in
  (Z.of_nat n <= Z.max retries 0)%Z /\
  ((0 < retries)%Z -> (0 < n)%nat) /\
  api_sleeps log = repeat retry_delay (n - 1) /\
  Forall (eq (str_upper method, url)) (api_requests log).
Proof.
  unfold make_request. intros H.
  destruct (Z.leb_spec retries 0) as [NP|P].
  - replace (Z.to_nat retries) with 0%nat in H by lia.
    cbn in H. injection H as <- <- <-. cbn.
    repeat split; try lia. constructor.
  - apply request_loop_paced in H; [|lia].
    destruct H as (new & -> & N & Q & SL & F). cbn [app].
    repeat split; auto; try lia.
Qed.

Section Exhaustion.

Context {World : Type}.
Context (requests_request :
           string -> string -> list (string * pyval) -> list (string * string)
           -> option pyval -> pyval -> World -> request_outcome * World).
Context (time_passes : Z -> World -> World).
Context (url method : string) (params : list (string * pyval))
        (headers : list (string * string)) (json_data : option pyval)
        (timeout : pyval) (retries retry_delay : Z).

Let loop := request_loop requests_request time_passes url method params
                         headers json_data timeout retries retry_delay.

Let attempt (w : World) : request_outcome * World :=
  requests_request method url params headers json_data timeout w.

Let world_of := attempt_world requests_request time_passes url method params
                              headers json_data timeout retry_delay.

(** When every attempt fails, the loop gives up with the failure of its
    last attempt. *)
Lemma request_loop_last_failure (remaining : nat) :
  forall attempts w log,
    (0 < remaining)%nat ->
    Z.of_nat remaining = (retries - attempts)%Z ->
    (0 <= retry_delay)%Z ->
    (forall w0, attempt_failure (fst (attempt w0)) <> None) ->
    exists e new,
      attempt_failure (fst (attempt (world_of (remaining - 1)%nat w)))
      = Some e /\
      loop remaining attempts w log
      = (Raised (Exn APIError
                     ("Request failed after " ++ Text.of_int retries
                        ++ " attempts: " ++ str e)%string (Some e)),
         snd (attempt (world_of (remaining - 1)%nat w)), log ++ new) /\
      List.length (api_requests new) = remaining /\
      api_sleeps new = repeat retry_delay (remaining - 1).
Proof.
  unfold loop, attempt, world_of.
  induction remaining as [|k IH]; intros attempts w log Pos Inv Delay Fails;
    [lia|].
  cbn [request_loop]. pose proof (Fails w) as F.
  replace (S k - 1)%nat with k by lia.
  destruct (requests_request method url params headers json_data timeout w)
    as [o w1] eqn:Q.
  cbn [fst] in F.
  set (log1 := log ++ [ApiLog "debug" _; ApiRequest method url]).
  assert (Failed : forall e mid,
             attempt_failure o = Some e ->
             api_requests mid = [] -> api_sleeps mid = [] ->
             exists e' new,
               attempt_failure
                 (fst (requests_request
                         method url params headers json_data timeout
                         (attempt_world requests_request time_passes url
                                        method params headers json_data
                                        timeout retry_delay k w)))
               = Some e' /\
               (if (attempts + 1 >=? retries)%Z
                then (Raised (Exn APIError
                                  ("Request failed after "
                                     ++ Text.of_int retries
                                     ++ " attempts: " ++ str e)%string
                                  (Some e)),
                      w1,
                      (log1 ++ mid)
                        ++ [ApiLog "warning"
                              ("Request failed (attempt "
                                 ++ Text.of_int (attempts + 1) ++ "/"
                                 ++ Text.of_int retries ++ "): " ++ str e)
                              %string])
                else if (retry_delay <? 0)%Z
                then (Raised (Exn (Builtin "ValueError")
                                  "sleep length must be non-negative"
                                  (Some e)),
                      w1,
                      (log1 ++ mid)
                        ++ [ApiLog "warning"
                              ("Request failed (attempt "
                                 ++ Text.of_int (attempts + 1) ++ "/"
                                 ++ Text.of_int retries ++ "): " ++ str e)
                              %string])
                else request_loop requests_request time_passes url method
                                  params headers json_data timeout retries
                                  retry_delay k (attempts + 1)
                                  (time_passes retry_delay w1)
                                  (((log1 ++ mid)
                                      ++ [ApiLog "warning"
                                            ("Request failed (attempt "
                                               ++ Text.of_int (attempts + 1)
                                               ++ "/" ++ Text.of_int retries
                                               ++ "): " ++ str e)%string])
                                     ++ [ApiSleep retry_delay]))
               = (Raised (Exn APIError
                              ("Request failed after " ++ Text.of_int retries
                                 ++ " attempts: " ++ str e')%string
                              (Some e')),
                  snd (requests_request
                         method url params headers json_data timeout
                         (attempt_world requests_request time_passes url
                                        method params headers json_data
                                        timeout retry_delay k w)),
                  log ++ new) /\
               List.length (api_requests new) = S k /\
               api_sleeps new = repeat retry_delay k).
  { intros e mid AF RM SM.
    destruct (attempts + 1 >=? retries)%Z eqn:G.
    - assert (K : k = 0%nat) by lia. subst k.
      cbn [attempt_world]. rewrite Q. cbn [fst snd].
      exists e. eexists. unfold log1. rewrite <- !app_assoc.
      split; [exact AF|]. split; [reflexivity|].
      cbn [app api_requests api_sleeps List.length].
      rewrite api_requests_app, api_sleeps_app, RM, SM. now split.
    - replace (retry_delay <? 0)%Z with false by lia.
      destruct k as [|k']; [lia|].
      destruct (IH (attempts + 1)%Z (time_passes retry_delay w1)
                   (((log1 ++ mid)
                       ++ [ApiLog "warning"
                             ("Request failed (attempt "
                                ++ Text.of_int (attempts + 1) ++ "/"
                                ++ Text.of_int retries ++ "): " ++ str e)
                             %string])
                      ++ [ApiSleep retry_delay]))
        as (e' & new & AF' & E & N & SL); auto; try lia.
      replace (S k' - 1)%nat with k' in AF', E by lia.
      cbn [attempt_world]. rewrite Q. cbn [snd].
      exists e'. eexists. rewrite E. unfold log1.
      rewrite <- !app_assoc. split; [exact AF'|]. split; [reflexivity|].
      cbn [app api_requests api_sleeps List.length].
      rewrite api_requests_app, api_sleeps_app, RM, SM.
      cbn [app api_requests api_sleeps List.length].
      rewrite N, SL. split; [reflexivity|].
      replace (S k' - 1)%nat with k' by lia. reflexivity. }
  clearbody log1.
  destruct o as [r|e|e]; cbn [attempt_failure] in F.
  - cbv zeta. destruct (raise_for_status r) as [e|] eqn:RS; [|now elim F].
    apply (Failed e [ApiLog "debug"
                       ("Request " ++ method ++ " " ++ url
                          ++ ": status=" ++ Text.of_int (status_code r))
                       %string]); try reflexivity.
    exact RS.
  - cbv zeta.
    destruct (Failed e [] eq_refl eq_refl eq_refl) as (e' & new & AF & E & R).
    rewrite app_nil_r in E. now exists e', new.
  - now elim F.
Qed.

End Exhaustion.

(** X17.  When every attempt fails, by the transport or by a status from
    400 to 599, [make_request] with a positive [retries] and a delay that is
    not negative gives up after exactly [retries] requests and
    [retries - 1] pauses.  It raises the [APIError] that tells the number of
    attempts and the text of the failure of the last attempt, the one made
    after [retries - 1] failed attempts and pauses, and it carries this
    failure as its cause; the world is left as that attempt left it. *)
Theorem make_request_gives_up {World : Type}
        (requests_request :
           string -> string -> list (string * pyval) -> list (string * string)
           -> option pyval -> pyval -> World -> request_outcome * World)
        (time_passes : Z -> World -> World) (str_upper : string -> string)
        (url method : string) (params : option (list (string * pyval)))
        (headers : option (list (string * string)))
        (json_data : option pyval) (timeout : pyval)
        (retries retry_delay : Z) (w : World) :
  (0 < retries)%Z ->
  (0 <= retry_delay)%Z ->
  (forall m u p h j t w0,
     attempt_failure (fst (requests_request m u p h j t w0)) <> None) ->
  let last_attempt :=
    requests_request
      (str_upper method) url
      match params with Some p => p | None => [] end
      match headers with Some h => h | None => [] end
      json_data timeout
      (attempt_world requests_request time_passes url (str_upper method)
                     match params with Some p => p | None => [] end
                     match headers with Some h => h | None => [] end
                     json_data timeout retry_delay
                     (Z.to_nat retries - 1) w) in
  exists e log,
    attempt_failure (fst last_attempt) = Some e /\
    make_request requests_request time_passes str_upper url method params
                 headers json_data timeout retries retry_delay w
    = (Raised (Exn APIError
                   ("Request failed after " ++ Text.of_int retries
                      ++ " attempts: " ++ str e)%string (Some e)),
       snd last_attempt, log) /\
    Z.of_nat (List.length (api_requests log)) = retries /\
    api_sleeps log = repeat retry_delay (Z.to_nat retries - 1).
Proof.
  intros P D F last_attempt. unfold make_request.
  match goal with |- context [request_loop _ _ ?u ?m ?p ?h ?j ?t _ _ _ _ _ _] =>
    destruct (@request_loop_last_failure World requests_request time_passes
                u m p h j t retries retry_delay (Z.to_nat retries) 0 w [])
      as (e & new & AF & E & N & SL)
  end; try lia.
  - intros w0. apply F.
  - exists e, new. cbn [app] in E. split; [exact AF|]. split; [exact E|].
    split; [lia | exact SL].
Qed.

Lemma make_request_paces_witness :
  let result :=
    make_request ApiScript.request ApiScript.sleep ApiScript.upper
                 "https://api.openweathermap.org/data/2.5/weather" "get"
                 None None None (PyInt 15) 3 1
                 [RequestFailed ApiScript.connection_error;
                  Responded (ApiScript.ok ApiScript.london)] in
  fst (fst result) = Returned ApiScript.london /\
  let n := List.length (api_requests (snd result)) in
  (Z.of_nat n <= Z.max 3 0)%Z /\
  ((0 < 3)%Z -> (0 < n)%nat) /\
  api_sleeps (snd result) = repeat 1%Z (n - 1) /\
  Forall (eq ("GET"%string,
              "https://api.openweathermap.org/data/2.5/weather"%string))
         (api_requests (snd result)).
Proof.
  intros result. split; [reflexivity|].
  apply (@make_request_paces ApiScript.World ApiScript.request
           ApiScript.sleep ApiScript.upper
           "https://api.openweathermap.org/data/2.5/weather" "get"
           None None None (PyInt 15) 3 1
           [RequestFailed ApiScript.connection_error;
            Responded (ApiScript.ok ApiScript.london)]
           (snd (fst result)) (fst (fst result)) (snd result)).
  reflexivity.
Defined.

Lemma make_request_gives_up_witness :
  exists log,
    make_request ApiScript.outage ApiScript.sleep ApiScript.upper
                 "https://api.openweathermap.org/data/2.5/weather" "get"
                 None None None (PyInt 15) 2 1
                 [RequestFailed ApiScript.connection_error]
    = (Raised (Exn APIError
                   "Request failed after 2 attempts: 404 Client Error: Not Found for url: https://api.openweathermap.org/data/2.5/weather"
                   (Some (Exn (Builtin "requests.exceptions.HTTPError")
                              "404 Client Error: Not Found for url: https://api.openweathermap.org/data/2.5/weather"
                              None))),
       [], log) /\
    Z.of_nat (List.length (api_requests log)) = 2%Z /\
    api_sleeps log = [1%Z].
Proof.
  destruct (@make_request_gives_up ApiScript.World ApiScript.outage
              ApiScript.sleep ApiScript.upper
              "https://api.openweathermap.org/data/2.5/weather" "get"
              None None None (PyInt 15) 2 1
              [RequestFailed ApiScript.connection_error])
    as (e & log & AF & E & N & SL); try lia.
  - intros m u p h j t [|[r|x|x] w0]; cbn; discriminate.
  - cbn in AF. injection AF as <-. exists log. split; [exact E|].
    split; [exact N | exact SL].
Defined.

(** ** The weather tools *)

Lemma make_request_paced {World : Type}
      (requests_request :
         string -> string -> list (string * pyval) -> list (string * string)
         -> option pyval -> pyval -> World -> request_outcome * World)
      (time_passes : Z -> World -> World) (str_upper : string -> string)
      (url method : string) (params : option (list (string * pyval)))
      (headers : option (list (string * string)))
      (json_data : option pyval) (timeout : pyval)
      (retries retry_delay : Z) (w w' : World) (res : outcome pyval)
      (log : list api_event) :
  make_request requests_request time_passes str_upper url method params
               headers json_data timeout retries retry_delay w
  = (res, w', log) ->
  paced (str_upper method) url retry_delay (Z.to_nat retries) log.
Proof.
  unfold make_request. intros H.
  destruct (Z.leb_spec retries 0) as [NP|P].
  - replace (Z.to_nat retries) with 0%nat in * by lia.
    cbn in H. injection H as <- <- <-. unfold paced. cbn.
    repeat split; try lia. constructor.
  - apply request_loop_paced in H; [|lia].
    destruct H as (new & -> & N). exact N.
Qed.

Lemma or_text_none (x : option string) :
  or_text x None = None <-> x = None \/ x = Some ""%string.
Proof.
  destruct x as [[|c k]|]; cbn; split; intros H; auto; try discriminate.
  destruct H as [H|H]; discriminate.
Qed.

Section Reports.

Context {World : Type}.
Context (requests_request :
           string -> string -> list (string * pyval) -> list (string * string)
           -> option pyval -> pyval -> World -> request_outcome * World).
Context (time_passes : Z -> World -> World).
Context (str_upper : string -> string).
Context (subscript_error_text : pyval -> subscript -> string).
Context (DEFAULT_TIMEOUT : pyval) (MAX_RETRIES RETRY_DELAY : Z).
Context (now_text : World -> string).
Context (fromtimestamp : pyval -> outcome (string * string)).
Context (not_iterable_text : pyval -> string).

Let fetch := _make_weather_request requests_request time_passes str_upper
                                   DEFAULT_TIMEOUT MAX_RETRIES RETRY_DELAY.

Lemma getitem_raises (v : pyval) (k : subscript) (e : exn) :
  getitem subscript_error_text v k = Raised e ->
  exists text,
    e = key_error text \/ e = Exn (Builtin "TypeError") text None
    \/ e = Exn (Builtin "IndexError") text None.
Proof.
  unfold getitem, type_error, index_error.
  destruct v, k;
    repeat match goal with
           | |- context [match ?x with _ => _ end] => destruct x
           end;
    intros H; inversion H; eauto.
Qed.

Lemma getpath_raises (path : list subscript) :
  forall v e,
    getpath subscript_error_text v path = Raised e ->
    exists text,
      e = key_error text \/ e = Exn (Builtin "TypeError") text None
      \/ e = Exn (Builtin "IndexError") text None.
Proof.
  induction path as [|k path IH]; intros v e; cbn; [discriminate|].
  destruct (getitem subscript_error_text v k) as [x|e0] eqn:G.
  - apply IH.
  - intros [= <-]. eapply getitem_raises, G.
Qed.

Lemma collect_raises (data : pyval) (fields : list (string * list subscript)) :
  forall e,
    collect subscript_error_text data fields = Raised e ->
    exists text,
      e = key_error text \/ e = Exn (Builtin "TypeError") text None
      \/ e = Exn (Builtin "IndexError") text None.
Proof.
  induction fields as [|[k path] fields IH]; intros e; cbn; [discriminate|].
  destruct (getpath subscript_error_text data path) as [x|e0] eqn:G.
  - destruct (collect subscript_error_text data fields) as [rest|e1].
    + discriminate.
    + intros [= <-]. now apply IH.
  - intros [= <-]. eapply getpath_raises, G.
Qed.

Lemma collect_keys (data : pyval) (fields : list (string * list subscript)) :
  forall l,
    collect subscript_error_text data fields = Returned l ->
    map fst l = map fst fields.
Proof.
  induction fields as [|[k path] fields IH]; intros l; cbn.
  - now intros [= <-].
  - destruct (getpath subscript_error_text data path) as [x|e0];
      [|discriminate].
    destruct (collect subscript_error_text data fields) as [rest|e1];
      [|discriminate].
    intros [= <-]. cbn. f_equal. now apply IH.
Qed.

(** What [_make_weather_request] can do. *)
Lemma make_weather_request_cases (self : WeatherSettings)
      (endpoint city : string) (w w' : World) (res : outcome pyval)
      (log : list api_event) :
  fetch self endpoint city w = (res, w', log) ->
  (or_text (weather_api_key self) None = None /\
   res = Raised (Exn ConfigurationError "OpenWeatherMap API key is required"
                     None) /\
   w' = w /\ log = [])
  \/
  (or_text (weather_api_key self) None <> None /\
   ((exists data, res = Returned data) \/
    (exists c,
       res = Raised (weather_api_error
                       ("Failed to fetch weather data: " ++ str c)%string c))) /\
   Forall (eq (str_upper "GET", (base_url self ++ "/" ++ endpoint)%string))
          (api_requests log) /\
   (Z.of_nat (List.length (api_requests log)) <= Z.max MAX_RETRIES 0)%Z).
Proof.
  unfold fetch, _make_weather_request.
  destruct (weather_api_key self) as [[|c k]|] eqn:K.
  - intros [= <- <- <-]. left. cbn. auto.
  - destruct (make_request _ _ _ _ _ _ _ _ _ _ _ _) as [[r w1] log1] eqn:Q.
    apply make_request_paced in Q. destruct Q as (N & _ & _ & F).
    intros H. right. split; [cbn; discriminate|].
    destruct r as [data|e]; cbv zeta in H; injection H as <- <- <-.
    + split; [left; eauto|]. split; [exact F | lia].
    + split; [right; exists e; reflexivity|]. rewrite api_requests_app. cbn.
      rewrite app_nil_r. split; [exact F | lia].
  - intros [= <- <- <-]. left. cbn. auto.
Qed.

(** X18.  What [WeatherTool.execute] can do.  When it returns, it returns
    the mapping of the nine keys of the report in the order of the source,
    the last one the time of the answer.  When it raises, it raises the
    [ConfigurationError] of a missing key, having sent nothing, or a
    [WeatherAPIError] for a failed request or for a [KeyError] met in the
    answer, or the [TypeError] or [IndexError] of an answer of another
    shape: never a [KeyError].  Every request it sends goes to
    [base_url/weather], and there are at most [MAX_RETRIES] of them. *)
Theorem weather_report_contract (self : WeatherSettings) (args : string)
        (w w' : World) (res : outcome pyval) (log : list api_event) :
  weather_execute requests_request time_passes str_upper subscript_error_text
                  DEFAULT_TIMEOUT MAX_RETRIES RETRY_DELAY now_text self args w
  = (res, w', log) ->
  match res with
  | Returned v =>
      exists fields,
        v = PyDict (fields ++ [("timestamp"%string, PyStr (now_text w'))]) /\
        map fst fields
        = ["city"; "country"; "temperature"; "feels_like"; "humidity";
           "wind_speed"; "weather_condition"; "description"]%string
  | Raised e =>
      (e = Exn ConfigurationError "OpenWeatherMap API key is required" None /\
       w' = w /\ log = [])
      \/ (exists c,
            e = weather_api_error
                  ("Failed to fetch weather data: " ++ str c)%string c)
      \/ (exists c,
            is_KeyError c = true /\
            e = weather_api_error
                  ("Unexpected API response format: " ++ str c)%string c)
      \/ (exists text,
            e = Exn (Builtin "TypeError") text None
            \/ e = Exn (Builtin "IndexError") text None)
  end /\
  Forall (eq (str_upper "GET", (base_url self ++ "/weather")%string))
         (api_requests log) /\
  (Z.of_nat (List.length (api_requests log)) <= Z.max MAX_RETRIES 0)%Z.
Proof.
  unfold weather_execute.
  destruct (_make_weather_request _ _ _ _ _ _ _ _ _ _) as [[r w1] log1] eqn:Q.
  apply make_weather_request_cases in Q.
  destruct Q as [(_ & -> & -> & ->) | (_ & R & F & N)].
  - cbn. intros [= <- <- <-]. cbn. repeat split; auto. lia.
  - destruct R as [[data ->] | [c ->]].
    + destruct (collect subscript_error_text data weather_fields)
        as [fields|e] eqn:C.
      * cbn. intros [= <- <- <-]. repeat split; auto.
        exists fields. split; [reflexivity|].
        now rewrite (collect_keys _ _ C).
      * unfold unexpected_format.
        destruct (is_KeyError e) eqn:KE; cbv zeta; intros [= <- <- <-].
        -- split; [|rewrite api_requests_app; cbn; rewrite app_nil_r; auto].
           right. right. left. exists e. split; [exact KE | reflexivity].
        -- split; [|auto].
           apply collect_raises in C. destruct C as (text & [->| C]).
           ++ discriminate.
           ++ right. right. right. eauto.
    + cbn. intros [= <- <- <-]. split; [|auto].
      right. left. exists c. reflexivity.
Qed.

(** X19.  With a key and a positive [MAX_RETRIES], when the service
    answers the first request (a GET of [base_url/weather] with the
    stripped argument as [q], the key as [appid] and the units) with a
    status outside 400 to 599 and a JSON body that holds the eight values
    read from it, [WeatherTool.execute] returns these values under their
    keys, then the time of the answer, after this one request and no
    pause. *)
Theorem weather_reports_answer (self : WeatherSettings) (args : string)
        (c : ascii) (k : string) (w w1 : World) (r : Response)
        (data : pyval) (fields : list (string * pyval)) :
  weather_api_key self = Some (String c k) ->
  (0 < MAX_RETRIES)%Z ->
  requests_request (str_upper "GET") (base_url self ++ "/weather")%string
                   [("q"%string, PyStr (strip args));
                    ("appid"%string, PyStr (String c k));
                    ("units"%string, PyStr (units self))]
                   [] None DEFAULT_TIMEOUT w
  = (Responded r, w1) ->
  raise_for_status r = None ->
  json_body r = Some data ->
  collect subscript_error_text data weather_fields = Returned fields ->
  exists log,
    weather_execute requests_request time_passes str_upper
                    subscript_error_text DEFAULT_TIMEOUT MAX_RETRIES
                    RETRY_DELAY now_text self args w
    = (Returned (PyDict (fields
                           ++ [("timestamp"%string, PyStr (now_text w1))])),
       w1, log) /\
    api_requests log
    = [(str_upper "GET", (base_url self ++ "/weather")%string)] /\
    api_sleeps log = [].
Proof.
  intros K P Q S J C.
  unfold weather_execute, _make_weather_request, make_request.
  rewrite K.
  destruct (Z.to_nat MAX_RETRIES) as [|n] eqn:E; [lia|].
  cbn [request_loop]. cbv zeta.
  change (base_url self ++ "/" ++ "weather")%string
    with (base_url self ++ "/weather")%string.
  rewrite Q, S, J. cbv beta iota zeta.
  rewrite C. cbn [unexpected_format].
  eexists. split; [reflexivity|]. split; reflexivity.
Qed.

(** The last of the [MAX_RETRIES] attempts [_make_weather_request] has
    [make_request] make, when the ones before it failed. *)
Let last_attempt (self : WeatherSettings) (endpoint city : string)
    (key : string) (w : World) : request_outcome * World :=
  let url := (base_url self ++ "/" ++ endpoint)%string in
  let params := [("q"%string, PyStr city); ("appid"%string, PyStr key);
                 ("units"%string, PyStr (units self))] in
  requests_request
    (str_upper "GET") url params [] None DEFAULT_TIMEOUT
    (attempt_world requests_request time_passes url (str_upper "GET") params
                   [] None DEFAULT_TIMEOUT RETRY_DELAY
                   (Z.to_nat MAX_RETRIES - 1) w).

Lemma make_weather_request_unreachable (self : WeatherSettings)
      (endpoint city : string) (c : ascii) (k : string) (w : World) :
  weather_api_key self = Some (String c k) ->
  (0 < MAX_RETRIES)%Z ->
  (0 <= RETRY_DELAY)%Z ->
  (forall m u p h j t w0,
     attempt_failure (fst (requests_request m u p h j t w0)) <> None) ->
  exists e log,
    attempt_failure (fst (last_attempt self endpoint city (String c k) w))
    = Some e /\
    _make_weather_request requests_request time_passes str_upper
                          DEFAULT_TIMEOUT MAX_RETRIES RETRY_DELAY self
                          endpoint city w
    = (Raised (Exn WeatherAPIError
                   ("Failed to fetch weather data: Request failed after "
                      ++ Text.of_int MAX_RETRIES ++ " attempts: " ++ str e)
                   %string
                   (Some (Exn APIError
                              ("Request failed after "
                                 ++ Text.of_int MAX_RETRIES
                                 ++ " attempts: " ++ str e)%string
                              (Some e)))),
       snd (last_attempt self endpoint city (String c k) w), log) /\
    Z.of_nat (List.length (api_requests log)) = MAX_RETRIES /\
    api_sleeps log = repeat RETRY_DELAY (Z.to_nat MAX_RETRIES - 1).
Proof.
  intros K P D F. unfold _make_weather_request, make_request, last_attempt.
  rewrite K. cbv zeta.
  match goal with |- context [request_loop _ _ ?u ?m ?p ?h ?j ?t _ _ _ _ _ _] =>
    destruct (@request_loop_last_failure World requests_request time_passes
                u m p h j t MAX_RETRIES RETRY_DELAY (Z.to_nat MAX_RETRIES)
                0 w [])
      as (e & new & AF & E & N & SL)
  end; try lia.
  - intros w0. apply F.
  - exists e. eexists. rewrite E. cbn [app].
    split; [exact AF|]. split; [reflexivity|].
    rewrite api_requests_app, api_sleeps_app, length_app. cbn.
    rewrite app_nil_r. split; [lia | exact SL].
Qed.

(** X20.  With a key, a positive [MAX_RETRIES] and a delay that is not
    negative, when every attempt fails both weather tools raise the
    [WeatherAPIError] whose text is "Failed to fetch weather data: Request
    failed after N attempts: " and the text of the failure of the last
    attempt (the GET of [base_url/weather], or [base_url/forecast], made
    after [MAX_RETRIES - 1] failed attempts and pauses), after exactly
    [MAX_RETRIES] requests and one pause less; the world is left as that
    attempt left it. *)
Theorem weather_service_unreachable (self : WeatherSettings) (args : string)
        (c : ascii) (k : string) (w : World) :
  weather_api_key self = Some (String c k) ->
  (0 < MAX_RETRIES)%Z ->
  (0 <= RETRY_DELAY)%Z ->
  (forall m u p h j t w0,
     attempt_failure (fst (requests_request m u p h j t w0)) <> None) ->
  let last (endpoint : string) : request_outcome * World :=
    let url := (base_url self ++ "/" ++ endpoint)%string in
    let params := [("q"%string, PyStr (strip args));
                   ("appid"%string, PyStr (String c k));
                   ("units"%string, PyStr (units self))] in
    requests_request
      (str_upper "GET") url params [] None DEFAULT_TIMEOUT
      (attempt_world requests_request time_passes url (str_upper "GET")
                     params [] None DEFAULT_TIMEOUT RETRY_DELAY
                     (Z.to_nat MAX_RETRIES - 1) w) in
  let failure (e : exn) : exn :=
    Exn WeatherAPIError
        ("Failed to fetch weather data: Request failed after "
           ++ Text.of_int MAX_RETRIES ++ " attempts: " ++ str e)%string
        (Some (Exn APIError
                   ("Request failed after " ++ Text.of_int MAX_RETRIES
                      ++ " attempts: " ++ str e)%string
                   (Some e))) in
  (exists e log,
     attempt_failure (fst (last "weather"%string)) = Some e /\
     weather_execute requests_request time_passes str_upper
                     subscript_error_text DEFAULT_TIMEOUT MAX_RETRIES
                     RETRY_DELAY now_text self args w
     = (Raised (failure e), snd (last "weather"%string), log) /\
     Z.of_nat (List.length (api_requests log)) = MAX_RETRIES /\
     api_sleeps log = repeat RETRY_DELAY (Z.to_nat MAX_RETRIES - 1))
  /\
  (exists e log,
     attempt_failure (fst (last "forecast"%string)) = Some e /\
     forecast_execute requests_request time_passes str_upper
                      subscript_error_text DEFAULT_TIMEOUT MAX_RETRIES
                      RETRY_DELAY fromtimestamp not_iterable_text self args w
     = (Raised (failure e), snd (last "forecast"%string), log) /\
     Z.of_nat (List.length (api_requests log)) = MAX_RETRIES /\
     api_sleeps log = repeat RETRY_DELAY (Z.to_nat MAX_RETRIES - 1)).
Proof.
  intros K P D F last failure. split.
  - destruct (@make_weather_request_unreachable self "weather" (strip args)
                c k w K P D F) as (e & log & AF & E & N & SL).
    exists e, log. unfold weather_execute. rewrite E. cbn.
    split; [exact AF|]. auto.
  - destruct (@make_weather_request_unreachable self "forecast" (strip args)
                c k w K P D F) as (e & log & AF & E & N & SL).
    exists e, log. unfold forecast_execute. rewrite E. cbn.
    split; [exact AF|]. auto.
Qed.

(** X21.  With a [MAX_RETRIES] of zero or less (a [max_retries] so set in
    the configuration) the loop of [make_request] is never entered and the
    function returns [None]; a weather tool that has a key then sends
    nothing and fails on the first subscript of that [None], with a
    [TypeError]. *)
Theorem no_retries_no_report (self : WeatherSettings) (args : string)
        (c : ascii) (k : string) (w : World) :
  weather_api_key self = Some (String c k) ->
  (MAX_RETRIES <= 0)%Z ->
  weather_execute requests_request time_passes str_upper
                  subscript_error_text DEFAULT_TIMEOUT MAX_RETRIES
                  RETRY_DELAY now_text self args w
  = (Raised (Exn (Builtin "TypeError")
                 (subscript_error_text PyNone (Key "name")) None), w, []) /\
  forecast_execute requests_request time_passes str_upper
                   subscript_error_text DEFAULT_TIMEOUT MAX_RETRIES
                   RETRY_DELAY fromtimestamp not_iterable_text self args w
  = (Raised (Exn (Builtin "TypeError")
                 (subscript_error_text PyNone (Key "list")) None), w, []).
Proof.
  intros K NP.
  unfold weather_execute, forecast_execute, _make_weather_request,
    make_request.
  rewrite K. replace (Z.to_nat MAX_RETRIES) with 0%nat by lia.
  split; reflexivity.
Qed.

(** X22.  A weather tool constructed without a key, the argument and the
    variable OPENWEATHERMAP_API_KEY both missing or empty, raises the
    [ConfigurationError] at every call, sends nothing and leaves the world
    as it is; one constructed with a key never gets this error from
    [_make_weather_request] nor from [WeatherTool.execute].  A key given as
    argument is taken before the variable. *)
Theorem weather_needs_key (environ : string -> option string)
        (DEFAULT_BASE_URL DEFAULT_UNITS : string)
        (api_key url unit_system : option string) (args : string)
        (w : World) :
  let self := BaseWeatherTool_init environ DEFAULT_BASE_URL DEFAULT_UNITS
                                   api_key url unit_system in
  let missing :=
    Exn ConfigurationError "OpenWeatherMap API key is required" None in
  let report :=
    weather_execute requests_request time_passes str_upper
                    subscript_error_text DEFAULT_TIMEOUT MAX_RETRIES
                    RETRY_DELAY now_text self args w in
  let forecast :=
    forecast_execute requests_request time_passes str_upper
                     subscript_error_text DEFAULT_TIMEOUT MAX_RETRIES
                     RETRY_DELAY fromtimestamp not_iterable_text self args w in
  let no_key :=
    (api_key = None \/ api_key = Some ""%string) /\
    (environ "OPENWEATHERMAP_API_KEY"%string = None
     \/ environ "OPENWEATHERMAP_API_KEY"%string = Some ""%string) in
  (no_key -> report = (Raised missing, w, [])
             /\ forecast = (Raised missing, w, [])) /\
  (forall endpoint city,
     fst (fst (_make_weather_request requests_request time_passes str_upper
                                     DEFAULT_TIMEOUT MAX_RETRIES RETRY_DELAY
                                     self endpoint city w))
     = Raised missing -> no_key) /\
  (fst (fst report) = Raised missing -> no_key) /\
  (forall c k, api_key = Some (String c k) ->
               weather_api_key self = Some (String c k)).
Proof.
  intros self missing report forecast no_key.
  assert (NK : or_text (weather_api_key self) None = None <-> no_key).
  { unfold no_key, self. cbn [BaseWeatherTool_init weather_api_key].
    rewrite or_text_none.
    destruct api_key as [[|c k]|]; cbn [or_text];
      (split; [intros [H|H] | intros [[H|H] [H'|H']]]);
      try discriminate; auto. }
  split; [|split; [|split]].
  - intros H. apply NK in H. unfold report, forecast.
    unfold weather_execute, forecast_execute, _make_weather_request.
    destruct (weather_api_key self) as [[|c k]|]; try discriminate;
      split; reflexivity.
  - intros endpoint city H. apply NK.
    destruct (_make_weather_request _ _ _ _ _ _ _ _ _ _) as [[r0 w0] log0]
      eqn:Q0.
    apply make_weather_request_cases in Q0.
    destruct Q0 as [(NoKey & _) | (_ & R & _)]; [exact NoKey|].
    exfalso. cbn [fst] in H. subst r0. subst missing.
    destruct R as [[data R] | [c R]]; discriminate.
  - intros H. apply NK. unfold report in H.
    destruct (weather_execute _ _ _ _ _ _ _ _ _ _ _) as [[r w1] log1] eqn:Q.
    unfold weather_execute in Q.
    destruct (_make_weather_request _ _ _ _ _ _ _ _ _ _) as [[r0 w0] log0]
      eqn:Q0.
    apply make_weather_request_cases in Q0.
    destruct Q0 as [(NoKey & _) | (_ & R & _)]; [exact NoKey|].
    exfalso. cbn [fst] in H. subst r. subst missing.
    destruct R as [[data ->] | [c ->]].
    + destruct (collect subscript_error_text data weather_fields)
        as [fields|e] eqn:C.
      * cbn in Q. discriminate.
      * unfold unexpected_format in Q.
        apply collect_raises in C.
        destruct (is_KeyError e) eqn:KE; cbv zeta in Q.
        -- injection Q as Q _ _. discriminate.
        -- destruct C as (text & [C|[C|C]]); rewrite C in Q; discriminate.
    + cbn in Q. discriminate.
  - intros c k ->. reflexivity.
Qed.

Lemma seen_date (d : string) (dates : list string) :
  existsb (String.eqb d) dates = true <-> In d dates.
Proof.
  rewrite existsb_exists. split.
  - intros (x & I & E). apply String.eqb_eq in E. now subst.
  - intros I. exists d. split; [exact I | apply String.eqb_refl].
Qed.

Lemma NoDup_map_Some (l : list string) : NoDup l -> NoDup (map Some l).
Proof.
  induction 1 as [|x l N _ IH]; cbn; constructor; auto.
  rewrite in_map_iff. intros (y & [= ->] & I). contradiction.
Qed.

(** The loop of [_process_forecast_data], from any pass on: the dates of
    the entries gathered are the dates seen, in the order they were first
    met. *)
Lemma process_items_spec (items : list pyval) :
  forall forecast_data dates_processed out,
    map entry_date forecast_data = map Some (rev dates_processed) ->
    NoDup dates_processed ->
    (List.length forecast_data < 5)%nat ->
    process_items subscript_error_text fromtimestamp items forecast_data
                  dates_processed
    = Returned out ->
    exists added dates,
      out = forecast_data ++ added /\
      map entry_date out = map Some (rev dates) /\
      NoDup dates /\
      (List.length out <= 5)%nat /\
      Forall (fun entry =>
                exists item ts d t fields,
                  In item items /\
                  getitem subscript_error_text item (Key "dt") = Returned ts /\
                  fromtimestamp ts = Returned (d, t) /\
                  collect subscript_error_text item forecast_fields
                  = Returned fields /\
                  entry = PyDict (("date"%string, PyStr d)
                                    :: ("time"%string, PyStr t) :: fields))
             added /\
      ((List.length out < 5)%nat ->
       Forall (fun item =>
                 exists ts d t,
                   getitem subscript_error_text item (Key "dt") = Returned ts /\
                   fromtimestamp ts = Returned (d, t) /\
                   In (Some d) (map entry_date out))
              items).
Proof.
  induction items as [|item items IH];
    intros forecast_data dates_processed out Dates Distinct Few.
  - cbn. intros [= <-]. exists [], dates_processed.
    rewrite app_nil_r. repeat split; auto; try lia.
  - cbn [process_items].
    destruct (getitem subscript_error_text item (Key "dt")) as [ts|e] eqn:G;
      [|discriminate].
    destruct (fromtimestamp ts) as [[d t]|e] eqn:T; [|discriminate].
    destruct (existsb (String.eqb d) dates_processed) eqn:Seen.
    + apply Nat.leb_gt in Few as Go. rewrite Go. intros H.
      destruct (IH _ _ _ Dates Distinct Few H)
        as (added & dates & -> & D & N & L & From & All).
      exists added, dates. repeat split; auto.
      * eapply Forall_impl; [|exact From].
        intros entry (i & ts' & d' & t' & f & I & R). 
        exists i, ts', d', t', f. split; [now right | exact R].
      * intros Less. constructor; [|now apply All].
        exists ts, d, t. repeat split; auto.
        rewrite map_app, Dates. apply in_or_app. left.
        apply in_map, in_rev. rewrite rev_involutive.
        now apply seen_date.
    + destruct (collect subscript_error_text item forecast_fields)
        as [fields|e] eqn:C; [|discriminate].
      set (entry := PyDict (("date"%string, PyStr d)
                              :: ("time"%string, PyStr t) :: fields)).
      assert (Dates1 : map entry_date (forecast_data ++ [entry])
                       = map Some (rev (d :: dates_processed))).
      { rewrite map_app, Dates. cbn. now rewrite map_app. }
      assert (Distinct1 : NoDup (d :: dates_processed)).
      { constructor; [|exact Distinct]. intros I.
        apply seen_date in I. congruence. }
      assert (Here : exists i ts' d' t' f,
                 In i (item :: items) /\
                 getitem subscript_error_text i (Key "dt") = Returned ts' /\
                 fromtimestamp ts' = Returned (d', t') /\
                 collect subscript_error_text i forecast_fields = Returned f /\
                 entry = PyDict (("date"%string, PyStr d')
                                   :: ("time"%string, PyStr t') :: f)).
      { exists item, ts, d, t, fields. repeat split; auto. now left. }
      destruct (Nat.leb 5 (List.length (forecast_data ++ [entry]))) eqn:Full.
      * intros [= <-]. exists [entry], (d :: dates_processed).
        apply Nat.leb_le in Full. rewrite length_app in *. cbn in *.
        repeat split; auto; try lia.
      * apply Nat.leb_gt in Full. intros H.
        destruct (IH _ _ _ Dates1 Distinct1 Full H)
          as (added & dates & -> & D & N & L & From & All).
        exists (entry :: added), dates. rewrite <- app_assoc in *.
        cbn [app] in *. repeat split; auto.
        -- constructor; [exact Here|].
           eapply Forall_impl; [|exact From].
           intros e' (i & ts' & d' & t' & f & I & R).
           exists i, ts', d', t', f. split; [now right | exact R].
        -- intros Less. constructor; [|now apply All].
           exists ts, d, t. repeat split; auto.
           rewrite map_app. apply in_or_app. right. now left.
Qed.

(** X23.  [_process_forecast_data] keeps one entry a day.  The list it
    returns has at most five entries, of pairwise distinct dates; every
    entry is made from an item of the list, with the date and the time of
    its time stamp and the five values read from it; and when fewer than
    five entries are returned, every item's day has an entry. *)
Theorem forecast_one_per_day (forecast_list : pyval) (out : list pyval) :
  _process_forecast_data subscript_error_text fromtimestamp not_iterable_text
                         forecast_list
  = Returned out ->
  exists items,
    iterate not_iterable_text forecast_list = Returned items /\
    (List.length out <= 5)%nat /\
    NoDup (map entry_date out) /\
    Forall (fun entry =>
              exists item ts d t fields,
                In item items /\
                getitem subscript_error_text item (Key "dt") = Returned ts /\
                fromtimestamp ts = Returned (d, t) /\
                collect subscript_error_text item forecast_fields
                = Returned fields /\
                entry = PyDict (("date"%string, PyStr d)
                                  :: ("time"%string, PyStr t) :: fields))
           out /\
    ((List.length out < 5)%nat ->
     Forall (fun item =>
               exists ts d t,
                 getitem subscript_error_text item (Key "dt") = Returned ts /\
                 fromtimestamp ts = Returned (d, t) /\
                 In (Some d) (map entry_date out))
            items).
Proof.
  unfold _process_forecast_data.
  destruct (iterate not_iterable_text forecast_list) as [items|e];
    [|discriminate].
  intros H. exists items. split; [reflexivity|].
  apply process_items_spec in H; [| reflexivity | constructor | cbn; lia].
  destruct H as (added & dates & -> & D & N & L & From & All).
  cbn [app] in *. repeat split; auto.
  rewrite D. apply NoDup_map_Some, NoDup_rev, N.
Qed.

Lemma unexpected_format_raises (r : outcome pyval) (log log' : list api_event)
      (e : exn) :
  unexpected_format r log = (Raised e, log') -> is_KeyError e = false.
Proof.
  unfold unexpected_format. destruct r as [v|e0]; [discriminate|].
  destruct (is_KeyError e0) eqn:KE; cbv zeta; intros [= <- _];
    [reflexivity | exact KE].
Qed.

Lemma unexpected_format_requests (r r' : outcome pyval)
      (log log' : list api_event) :
  unexpected_format r log = (r', log') ->
  api_requests log' = api_requests log.
Proof.
  unfold unexpected_format. destruct r as [v|e0]; [now intros [= _ <-]|].
  destruct (is_KeyError e0); cbv zeta; intros [= _ <-]; [|reflexivity].
  rewrite api_requests_app. cbn. now rewrite app_nil_r.
Qed.

(** X24.  What [ForecastTool.execute] can do.  When it returns, it returns
    the mapping of the city, the country and the forecast, a list of at
    most five entries of pairwise distinct dates, each with the seven keys
    of the source in their order.  It never raises a [KeyError].  Every
    request it sends goes to [base_url/forecast], and there are at most
    [MAX_RETRIES] of them. *)
Theorem forecast_report_contract (self : WeatherSettings) (args : string)
        (w w' : World) (res : outcome pyval) (log : list api_event) :
  forecast_execute requests_request time_passes str_upper
                   subscript_error_text DEFAULT_TIMEOUT MAX_RETRIES
                   RETRY_DELAY fromtimestamp not_iterable_text self args w
  = (res, w', log) ->
  match res with
  | Returned v =>
      exists city country out,
        v = PyDict [("city"%string, city); ("country"%string, country);
                    ("forecast"%string, PyList out)] /\
        (List.length out <= 5)%nat /\
        NoDup (map entry_date out) /\
        Forall (fun entry =>
                  entry_keys entry
                  = ["date"; "time"; "temperature"; "feels_like"; "humidity";
                     "weather_condition"; "description"]%string)
               out
  | Raised e => is_KeyError e = false
  end /\
  Forall (eq (str_upper "GET", (base_url self ++ "/forecast")%string))
         (api_requests log) /\
  (Z.of_nat (List.length (api_requests log)) <= Z.max MAX_RETRIES 0)%Z.
Proof.
  unfold forecast_execute.
  destruct (_make_weather_request _ _ _ _ _ _ _ _ _ _) as [[r w1] log1] eqn:Q.
  apply make_weather_request_cases in Q.
  destruct Q as [(_ & -> & -> & ->) | (_ & R & F & N)].
  - cbn. intros [= <- <- <-]. cbn. repeat split; auto. lia.
  - destruct R as [[data ->] | [c ->]].
    + destruct (unexpected_format _ log1) as [r log2] eqn:U.
      intros [= <- <- <-].
      rewrite (unexpected_format_requests _ _ U).
      split; [|auto].
      destruct r as [v|e]; [|eapply unexpected_format_raises, U].
      unfold unexpected_format in U.
      destruct (getitem subscript_error_text data (Key "list"))
        as [forecast_list|e0]; [|destruct (is_KeyError e0); discriminate].
      destruct (_process_forecast_data _ _ _ forecast_list)
        as [out|e0] eqn:P; [|destruct (is_KeyError e0); discriminate].
      destruct (collect subscript_error_text data _) as [fields|e0] eqn:C;
        [|destruct (is_KeyError e0); discriminate].
      injection U as <- _.
      cbn in C.
      destruct (getitem subscript_error_text data (Key "city")) as [x|];
        [|discriminate].
      destruct (getitem subscript_error_text x (Key "name")) as [city|];
        [|discriminate].
      destruct (getitem subscript_error_text x (Key "country")) as [country|];
        [|discriminate].
      injection C as <-.
      exists city, country, out. split; [reflexivity|].
      unfold _process_forecast_data in P.
      destruct (iterate not_iterable_text forecast_list) as [items|];
        [|discriminate].
      apply process_items_spec in P; [| reflexivity | constructor | cbn; lia].
      destruct P as (added & dates & -> & D & ND & L & From & _).
      cbn [app] in *. repeat split; auto.
      * rewrite D. apply NoDup_map_Some, NoDup_rev, ND.
      * eapply Forall_impl; [|exact From].
        intros entry (i & ts & d & t & f & _ & _ & _ & CF & ->).
        cbn. now rewrite (collect_keys _ _ CF).
    + cbn. intros [= <- <- <-]. split; [reflexivity | auto].
Qed.

End Reports.

Lemma weather_report_contract_witness :
  let result :=
    weather_execute ApiScript.request ApiScript.sleep ApiScript.upper
                    ApiScript.error_text (PyInt 15) 3 1 ApiScript.now
                    (ApiScript.settings (Some "secret"%string)) " London "
                    [Responded (ApiScript.ok ApiScript.london)] in
  (exists fields,
     fst (fst result)
     = Returned (PyDict (fields
                           ++ [("timestamp"%string,
                                PyStr "2026-11-03 12:00:00")])) /\
     map fst fields
     = ["city"; "country"; "temperature"; "feels_like"; "humidity";
        "wind_speed"; "weather_condition"; "description"]%string) /\
  api_requests (snd result)
  = [("GET"%string,
      "https://api.openweathermap.org/data/2.5/weather"%string)].
Proof.
  intros result.
  destruct (@weather_report_contract ApiScript.World ApiScript.request
              ApiScript.sleep ApiScript.upper ApiScript.error_text
              (PyInt 15) 3 1 ApiScript.now
              (ApiScript.settings (Some "secret"%string)) " London "
              [Responded (ApiScript.ok ApiScript.london)]
              (snd (fst result)) (fst (fst result)) (snd result))
    as [(fields & E & K) _].
  - reflexivity.
  - split; [|reflexivity]. exists fields. split; [|exact K].
    exact (f_equal Returned E).
Defined.

Lemma weather_reports_answer_witness :
  exists log,
    weather_execute ApiScript.request ApiScript.sleep ApiScript.upper
                    ApiScript.error_text (PyInt 15) 3 1 ApiScript.now
                    (ApiScript.settings (Some "secret"%string)) " London "
                    [Responded (ApiScript.ok ApiScript.london)]
    = (Returned
         (PyDict
            ([("city"%string, PyStr "London");
              ("country"%string, PyStr "GB");
              ("temperature"%string, PyFloat (PyF "18.5"));
              ("feels_like"%string, PyFloat (PyF "18.1"));
              ("humidity"%string, PyInt 75);
              ("wind_speed"%string, PyFloat (PyF "5.2"));
              ("weather_condition"%string, PyStr "Clouds");
              ("description"%string, PyStr "scattered clouds")]
               ++ [("timestamp"%string, PyStr (ApiScript.now []))])),
       [], log) /\
    api_requests log
    = [(ApiScript.upper "GET",
        (base_url (ApiScript.settings (Some "secret"%string))
           ++ "/weather")%string)] /\
    api_sleeps log = [].
Proof.
  apply (@weather_reports_answer ApiScript.World ApiScript.request
           ApiScript.sleep ApiScript.upper ApiScript.error_text
           (PyInt 15) 3 1 ApiScript.now
           (ApiScript.settings (Some "secret"%string)) " London "
           "s"%char "ecret"
           [Responded (ApiScript.ok ApiScript.london)] []
           (ApiScript.ok ApiScript.london) ApiScript.london);
    solve [reflexivity | lia].
Defined.

Lemma weather_service_unreachable_witness :
  exists log,
    weather_execute ApiScript.outage ApiScript.sleep ApiScript.upper
                    ApiScript.error_text (PyInt 15) 2 1 ApiScript.now
                    (ApiScript.settings (Some "secret"%string)) "Atlantis"
                    [RequestFailed ApiScript.connection_error]
    = (Raised
         (Exn WeatherAPIError
              "Failed to fetch weather data: Request failed after 2 attempts: 404 Client Error: Not Found for url: https://api.openweathermap.org/data/2.5/weather"
              (Some
                 (Exn APIError
                      "Request failed after 2 attempts: 404 Client Error: Not Found for url: https://api.openweathermap.org/data/2.5/weather"
                      (Some (Exn (Builtin "requests.exceptions.HTTPError")
                                 "404 Client Error: Not Found for url: https://api.openweathermap.org/data/2.5/weather"
                                 None))))),
       [], log) /\
    Z.of_nat (List.length (api_requests log)) = 2%Z /\
    api_sleeps log = [1%Z].
Proof.
  destruct (@weather_service_unreachable ApiScript.World ApiScript.outage
              ApiScript.sleep ApiScript.upper ApiScript.error_text
              (PyInt 15) 2 1 ApiScript.now ApiScript.fromtimestamp
              ApiScript.not_iterable
              (ApiScript.settings (Some "secret"%string)) "Atlantis"
              "s"%char "ecret" [RequestFailed ApiScript.connection_error])
    as [(e & log & AF & E & N & SL) _]; try reflexivity; try lia.
  - intros m u p h j t [|[r|x|x] w0]; cbn; discriminate.
  - cbn in AF. injection AF as <-. exists log. split; [exact E|].
    split; [exact N | exact SL].
Defined.

Lemma no_retries_no_report_witness :
  weather_execute ApiScript.request ApiScript.sleep ApiScript.upper
                  ApiScript.error_text (PyInt 15) 0 1 ApiScript.now
                  (ApiScript.settings (Some "secret"%string)) "London"
                  [Responded (ApiScript.ok ApiScript.london)]
  = (Raised (Exn (Builtin "TypeError")
                 (ApiScript.error_text PyNone (Key "name")) None),
     [Responded (ApiScript.ok ApiScript.london)], []) /\
  forecast_execute ApiScript.request ApiScript.sleep ApiScript.upper
                   ApiScript.error_text (PyInt 15) 0 1
                   ApiScript.fromtimestamp ApiScript.not_iterable
                   (ApiScript.settings (Some "secret"%string)) "London"
                   [Responded (ApiScript.ok ApiScript.london)]
  = (Raised (Exn (Builtin "TypeError")
                 (ApiScript.error_text PyNone (Key "list")) None),
     [Responded (ApiScript.ok ApiScript.london)], []).
Proof.
  apply (@no_retries_no_report ApiScript.World ApiScript.request
           ApiScript.sleep ApiScript.upper ApiScript.error_text
           (PyInt 15) 0 1 ApiScript.now ApiScript.fromtimestamp
           ApiScript.not_iterable
           (ApiScript.settings (Some "secret"%string)) "London"
           "s"%char "ecret"); [reflexivity | lia].
Defined.

Lemma weather_needs_key_witness :
  weather_execute ApiScript.request ApiScript.sleep ApiScript.upper
                  ApiScript.error_text (PyInt 15) 3 1 ApiScript.now
                  (BaseWeatherTool_init
                     (fun _ => Some ""%string)
                     "https://api.openweathermap.org/data/2.5" "metric"
                     None None None)
                  "London" [Responded (ApiScript.ok ApiScript.london)]
  = (Raised (Exn ConfigurationError "OpenWeatherMap API key is required"
                 None),
     [Responded (ApiScript.ok ApiScript.london)], []).
Proof.
  apply (@weather_needs_key ApiScript.World ApiScript.request
           ApiScript.sleep ApiScript.upper ApiScript.error_text
           (PyInt 15) 3 1 ApiScript.now ApiScript.fromtimestamp
           ApiScript.not_iterable (fun _ => Some ""%string)
           "https://api.openweathermap.org/data/2.5" "metric"
           None None None "London"
           [Responded (ApiScript.ok ApiScript.london)]).
  split; [left | right]; reflexivity.
Defined.

Lemma forecast_one_per_day_witness :
  let out :=
    match
      _process_forecast_data
        ApiScript.error_text ApiScript.fromtimestamp ApiScript.not_iterable
        (PyList [ApiScript.reading 9; ApiScript.reading 12;
                 ApiScript.reading 33; ApiScript.reading 57])
    with
    | Returned entries => entries
    | Raised _ => []
    end in
  List.length out = 3%nat /\
  NoDup (map entry_date out) /\
  map entry_date out
  = [Some "day 0"; Some "day 1"; Some "day 2"]%string.
Proof.
  intros out.
  destruct (@forecast_one_per_day
              ApiScript.error_text ApiScript.fromtimestamp
              ApiScript.not_iterable
              (PyList [ApiScript.reading 9; ApiScript.reading 12;
                       ApiScript.reading 33; ApiScript.reading 57])
              out)
    as (items & _ & _ & N & _).
  - reflexivity.
  - split; [reflexivity|]. split; [exact N | reflexivity].
Defined.

Lemma forecast_report_contract_witness :
  let result :=
    forecast_execute ApiScript.request ApiScript.sleep ApiScript.upper
                     ApiScript.error_text (PyInt 15) 3 1
                     ApiScript.fromtimestamp ApiScript.not_iterable
                     (ApiScript.settings (Some "secret"%string)) "London"
                     [RequestFailed ApiScript.connection_error;
                      Responded (ApiScript.ok ApiScript.forecast_reply)] in
  (exists city country out,
     fst (fst result)
     = Returned (PyDict [("city"%string, city); ("country"%string, country);
                         ("forecast"%string, PyList out)]) /\
     (List.length out <= 5)%nat /\
     NoDup (map entry_date out)) /\
  api_requests (snd result)
  = [("GET"%string,
      "https://api.openweathermap.org/data/2.5/forecast"%string);
     ("GET"%string,
      "https://api.openweathermap.org/data/2.5/forecast"%string)].
Proof.
  intros result.
  destruct (@forecast_report_contract ApiScript.World ApiScript.request
              ApiScript.sleep ApiScript.upper ApiScript.error_text
              (PyInt 15) 3 1 ApiScript.fromtimestamp ApiScript.not_iterable
              (ApiScript.settings (Some "secret"%string)) "London"
              [RequestFailed ApiScript.connection_error;
               Responded (ApiScript.ok ApiScript.forecast_reply)]
              (snd (fst result)) (fst (fst result)) (snd result))
    as [(city & country & out & E & L & N & _) _].
  - reflexivity.
  - split; [|reflexivity]. exists city, country, out.
    split; [exact (f_equal Returned E) | split; assumption].
Defined.

(** ** The constants read from the configuration *)

(** X25.  Without an [api] section in the configuration, be it that
    [config.json] cannot be read (no default values are passed, so the
    configuration is empty) or that it is a mapping without this key,
    [utils/api.py] gets its three constants from the defaults 15, 3 and 1,
    while the module of the weather tools fails at its first subscript with
    the [KeyError] of ['api']. *)
Theorem constants_without_api_section
        (subscript_error_text : pyval -> subscript -> string)
        (no_get_text : pyval -> string) (file : outcome pyval) :
  match file with
  | Raised _ => True
  | Returned config => exists d, config = PyDict d /\ assoc "api" d = None
  end ->
  let api_config := load_config file None in
  api_constants no_get_text api_config
  = Returned (PyInt 15, PyInt 3, PyInt 1) /\
  weather_constants subscript_error_text api_config
  = Raised (Exn (Builtin "KeyError") "'api'" None).
Proof.
  intros H api_config.
  assert (exists d, api_config = PyDict d /\ assoc "api" d = None)
    as (d & -> & A).
  { unfold api_config. destruct file as [config|e]; cbn.
    - exact H.
    - exists []. split; reflexivity. }
  unfold api_constants, api_setting, weather_constants, dict_get.
  cbn [getpath getitem]. rewrite A. cbn. split; reflexivity.
Qed.

Lemma constants_without_api_section_witness :
  let api_config :=
    load_config (Raised (Exn (Builtin "FileNotFoundError")
                             "[Errno 2] No such file or directory: 'config.json'"
                             None)) None in
  api_constants ApiScript.no_get api_config
  = Returned (PyInt 15, PyInt 3, PyInt 1) /\
  weather_constants ApiScript.error_text api_config
  = Raised (Exn (Builtin "KeyError") "'api'" None).
Proof.
  apply (@constants_without_api_section ApiScript.error_text ApiScript.no_get
           (Raised (Exn (Builtin "FileNotFoundError")
                        "[Errno 2] No such file or directory: 'config.json'"
                        None))).
  exact I.
Defined.
